(** * Outlier handler: a shallow embedding of [outlier_handler.py]

    The development models [OutlierHandler] ([outlier_handler.py]) and
    [percentage] ([base_data_science_utils.py]), together with the library
    operations they call: of pandas, [df[column]], [df[mask]],
    [Series.isna], [DataFrame.dropna], [Index.isin], [Series.quantile] and
    the comparison of a series with a scalar; [scipy.stats.zscore];
    [numpy.abs]; and Python's float division, [round] and [print].  It
    proves the partition, classification, reporting and error properties of
    the handler.

    Numbers.  There are two models of the values of a numeric column.

    In the first, column values are exact rationals ([Q]) and a missing
    value ([NaN] / [None]) is [None]; quantiles, means and variances are
    exact, and the standard deviation is kept as an exact square root (see
    [root] and [xnum]).  It carries the properties that hold whatever the
    numbers are: the partition of the rows, the shape of the results, the
    errors, the report and its percentages, the columns without a value
    and the constant columns.  Infinite column values are outside this
    model.

    In the second ([Binary64]), column values are binary64 floats (Rocq's
    primitive floats), a missing value is NaN, and every operation of the
    two rules and of the library routines they call is the IEEE 754
    operation, rounded to the nearest float.  It carries what the two
    rules compute: which rows they return, rounding, overflow and
    infinite values included.

    Columns.  A column is either numeric ([NumSeries], pandas' [float64] /
    [int64]) or a column of strings ([StrSeries], pandas' [object] dtype).
    Column names are looked up by first match, as [df[column]] does on a
    frame whose column names are distinct.  Other dtypes (boolean,
    complex, datetime, categorical) are outside the model.

    Rows.  A frame keeps its row labels (pandas' index) next to its
    columns.  Labels need not be distinct: pandas accepts an index that
    repeats a label, and [get_non_outliers] removes rows by label.

    Effects.  A method either returns or raises ([res]);
    [get_outliers_information] also prints ([out]). *)

From Stdlib Require Import String Ascii.
From Stdlib Require Import List Bool Arith ZArith QArith Qround Qabs.
From Stdlib Require Import Lia Permutation Sorted.
From Stdlib Require Import Lqa Psatz.
From Stdlib Require Import PrimFloat FloatOps SpecFloat FloatAxioms.
From Stdlib Require Uint63.
Import ListNotations.

Open Scope Q_scope.

(* ================================================================== *)
(** ** Exceptions and results *)

(** What a [KeyError] carries: [df[column]] raises [KeyError(column)],
    [df.dropna(subset=[column])] raises [KeyError([column])], with the list
    of the labels it did not find. *)
Inductive key_arg : Type :=
| KeyStr (label : string)
| KeyList (labels : list string).

(** The Python exceptions the modelled code can raise. *)
Inductive exn : Type :=
| KeyError (key : key_arg)
| TypeError
| AttributeError
| ZeroDivisionError.

Inductive res (A : Type) : Type :=
| Ok (a : A)
| Raise (e : exn).
Arguments Ok {A} a.
Arguments Raise {A} e.

Definition bind {A B : Type} (r : res A) (k : A -> res B) : res B :=
  match r with
  | Ok a => k a
  | Raise e => Raise e
  end.

Notation "x <- r ;; k" := (bind r (fun x => k))
  (at level 61, r at next level, right associativity).

(* ================================================================== *)
(** ** Series and data frames *)

Inductive Series : Type :=
| NumSeries (values : list (option Q))
| StrSeries (values : list (option string)).

(** [pandas.api.types.is_numeric_dtype] *)
Definition is_numeric_dtype (s : Series) : bool :=
  match s with
  | NumSeries _ => true
  | StrSeries _ => false
  end.

Definition is_none {A : Type} (o : option A) : bool :=
  match o with
  | None => true
  | Some _ => false
  end.

(** [Series.isna()] *)
Definition isna (s : Series) : list bool :=
  match s with
  | NumSeries vs => map is_none vs
  | StrSeries vs => map is_none vs
  end.

Definition series_len (s : Series) : nat :=
  match s with
  | NumSeries vs => length vs
  | StrSeries vs => length vs
  end.

(** Selection of the positions at which a boolean mask is [True]. *)
Fixpoint mask_select {A : Type} (mask : list bool) (l : list A) : list A :=
  match mask, l with
  | b :: mask', x :: l' =>
      if b then x :: mask_select mask' l' else mask_select mask' l'
  | _, _ => []
  end.

Definition series_select (mask : list bool) (s : Series) : Series :=
  match s with
  | NumSeries vs => NumSeries (mask_select mask vs)
  | StrSeries vs => StrSeries (mask_select mask vs)
  end.

(** A frame: the row labels (pandas' index, which may repeat a label) and
    the named columns, in order. *)
Record DataFrame : Type := mkDataFrame {
  df_index : list Z;
  df_columns : list (string * Series)
}.

(** The shape invariant of a pandas frame: every column has one value per
    row. *)
Definition wf_df (df : DataFrame) : Prop :=
  Forall (fun c => series_len (snd c) = length (df_index df)) (df_columns df).

Definition wf_dfb (df : DataFrame) : bool :=
  forallb (fun c => Nat.eqb (series_len (snd c)) (length (df_index df)))
          (df_columns df).

(** [len(df.index)] *)
Definition nrows (df : DataFrame) : nat := length (df_index df).

(** [df.columns] *)
Definition column_names (df : DataFrame) : list string :=
  map fst (df_columns df).

Fixpoint lookup_column (c : string) (cols : list (string * Series))
  : option Series :=
  match cols with
  | [] => None
  | (n, s) :: cols' => if String.eqb c n then Some s else lookup_column c cols'
  end.

(** [df[column]] *)
Definition getitem (df : DataFrame) (column : string) : res Series :=
  match lookup_column column (df_columns df) with
  | Some s => Ok s
  | None => Raise (KeyError (KeyStr column))
  end.

(** [df[mask]] for a boolean mask with one entry per row. *)
Definition boolean_index (df : DataFrame) (mask : list bool) : DataFrame :=
  {| df_index := mask_select mask (df_index df);
     df_columns := map (fun c => (fst c, series_select mask (snd c)))
                       (df_columns df) |}.

(** [df.index.isin(other.index)] *)
Definition index_isin (df other : DataFrame) : list bool :=
  map (fun l => existsb (Z.eqb l) (df_index other)) (df_index df).

(** The rows of a numeric column: each row label with the value the
    column has there. *)
Definition num_rows (df : DataFrame) (column : string) : list (Z * option Q) :=
  match lookup_column column (df_columns df) with
  | Some (NumSeries vs) => combine (df_index df) vs
  | _ => []
  end.

(** The present (non missing) values of a column. *)
Fixpoint present {A : Type} (vs : list (option A)) : list A :=
  match vs with
  | [] => []
  | Some v :: vs' => v :: present vs'
  | None :: vs' => present vs'
  end.

(* ================================================================== *)
(** ** Scalars with NaN *)

(** A float scalar: a rational, or NaN ([None]). *)
Definition fnum : Type := option Q.

Definition Qlt_bool (x y : Q) : bool := negb (Qle_bool y x).

Definition fadd (a b : fnum) : fnum :=
  match a, b with
  | Some x, Some y => Some (x + y)
  | _, _ => None
  end.

Definition fsub (a b : fnum) : fnum :=
  match a, b with
  | Some x, Some y => Some (x - y)
  | _, _ => None
  end.

Definition fmul (a b : fnum) : fnum :=
  match a, b with
  | Some x, Some y => Some (x * y)
  | _, _ => None
  end.

(** Comparisons with NaN on either side are [False]. *)
Definition flt (a b : fnum) : bool :=
  match a, b with
  | Some x, Some y => Qlt_bool x y
  | _, _ => false
  end.

Definition fgt (a b : fnum) : bool := flt b a.

(** [series < x] and [series > x], element by element.  Comparing a string
    with a float raises [TypeError]; a missing entry compares [False]. *)
Definition series_lt (s : Series) (x : fnum) : res (list bool) :=
  match s with
  | NumSeries vs => Ok (map (fun v => flt v x) vs)
  | StrSeries vs =>
      if forallb is_none vs then Ok (map (fun _ => false) vs)
      else Raise TypeError
  end.

Definition series_gt (s : Series) (x : fnum) : res (list bool) :=
  match s with
  | NumSeries vs => Ok (map (fun v => fgt v x) vs)
  | StrSeries vs =>
      if forallb is_none vs then Ok (map (fun _ => false) vs)
      else Raise TypeError
  end.

(** [mask1 | mask2] *)
Fixpoint mask_or (m1 m2 : list bool) : list bool :=
  match m1, m2 with
  | b1 :: m1', b2 :: m2' => (b1 || b2) :: mask_or m1' m2'
  | _, _ => []
  end.

(* ================================================================== *)
(** ** Quantiles by linear interpolation *)

Fixpoint insert_sorted (x : Q) (l : list Q) : list Q :=
  match l with
  | [] => [x]
  | y :: l' => if Qle_bool x y then x :: l else y :: insert_sorted x l'
  end.

Definition sort_values (l : list Q) : list Q := fold_right insert_sorted [] l.

(** The quantile of a sorted, non empty list of [n] values: the position
    [(n - 1) * q] falls between two ranks, and the result is interpolated
    linearly between the values at these ranks. *)
Definition lerp_quantile (sorted : list Q) (q : Q) : Q :=
  let n := Z.of_nat (length sorted) in
  let h := inject_Z (n - 1) * q in
  let lo := Qfloor h in
  let hi := Z.min (lo + 1) (n - 1) in
  let gamma := h - inject_Z lo in
  let a := nth (Z.to_nat lo) sorted 0 in
  let b := nth (Z.to_nat hi) sorted 0 in
  a + (b - a) * gamma.

(** [Series.quantile(q)] with the default [interpolation='linear'].
    Missing values are masked out.  When no value is left pandas does not
    compute anything and returns the fill value NaN, whatever the dtype
    ([quantile_with_mask]); otherwise it interpolates with
    [numpy.percentile], which subtracts and multiplies the values and so
    raises [TypeError] on strings. *)
Definition quantile (s : Series) (q : Q) : res fnum :=
  match s with
  | NumSeries vs =>
      match present vs with
      | [] => Ok None
      | xs => Ok (Some (lerp_quantile (sort_values xs) q))
      end
  | StrSeries vs =>
      match present vs with
      | [] => Ok None
      | _ => Raise TypeError
      end
  end.

(* ================================================================== *)
(** ** Z-scores *)

Definition sum_values (xs : list Q) : Q := fold_right Qplus 0 xs.

(** [a.mean()] *)
Definition mean (xs : list Q) : Q :=
  sum_values xs / inject_Z (Z.of_nat (length xs)).

(** The variance with [ddof = 0], the default of [scipy.stats.zscore]: the
    mean of the squared deviations from the mean. *)
Definition variance (xs : list Q) : Q :=
  mean (map (fun x => (x - mean xs) * (x - mean xs)) xs).

(** An exact square root of a non negative rational. *)
Record root : Type := Sqrt { radicand : Q }.

(** [a.std(ddof=0)] *)
Definition std (xs : list Q) : root := Sqrt (variance xs).

(** The values a z-score can take: NaN, an infinity, or the exact quotient
    [n / sqrt r] of a rational by the square root of a positive rational. *)
Inductive xnum : Type :=
| XNaN
| XInf (negative : bool)
| XSurd (n r : Q).

(** Division of a float by a standard deviation, as NumPy divides:
    [0 / 0] is NaN and [x / 0] is an infinity with the sign of [x]. *)
Definition xdiv (d : Q) (s : root) : xnum :=
  if Qeq_bool (radicand s) 0 then
    if Qeq_bool d 0 then XNaN else XInf (Qlt_bool d 0)
  else XSurd d (radicand s).

(** [np.abs] *)
Definition xabs (z : xnum) : xnum :=
  match z with
  | XNaN => XNaN
  | XInf _ => XInf false
  | XSurd n r => XSurd (Qabs n) r
  end.

(** [z > t], for a rational [t]; NaN compares [False]. *)
Definition xgt (z : xnum) (t : Q) : bool :=
  match z with
  | XNaN => false
  | XInf negative => negb negative
  | XSurd n r =>
      if Qle_bool 0 t
      then Qlt_bool 0 n && Qlt_bool (t * t * r) (n * n)
      else Qle_bool 0 n || Qlt_bool (n * n) (t * t * r)
  end.

(** [scipy.stats.zscore(series)], that is [zmap(a, a)] with the defaults
    [ddof=0] and [nan_policy='propagate']: the empty array for an empty
    numeric input; otherwise [(a - a.mean()) / a.std(ddof=0)], which is NaN
    everywhere when a value is NaN, and NaN for a constant array, whose
    deviations and standard deviation are zero.  On a column of dtype
    [object] scipy fails: with [TypeError] in the mean of an array of
    strings (or of [None]), and with [AttributeError] on an array without
    elements. *)
Definition zscore (s : Series) : res (list xnum) :=
  match s with
  | NumSeries vs =>
      if Nat.eqb (length vs) 0 then Ok []
      else if existsb is_none vs then Ok (map (fun _ => XNaN) vs)
      else
        let xs := present vs in
        let mn := mean xs in
        let sd := std xs in
        Ok (map (fun x => xdiv (x - mn) sd) xs)
  | StrSeries vs =>
      if Nat.eqb (length vs) 0 then Raise AttributeError
      else Raise TypeError
  end.

(* ================================================================== *)
(** ** The handler *)

Inductive OutlierCalculationMethod : Type :=
| INTERQUARTILE
| ZSCORE.

Record OutlierHandler : Type := mkOutlierHandler {
  calculation_method : OutlierCalculationMethod
}.

(** [OutlierHandler()] : the default method is [ZSCORE]. *)
Definition default_handler : OutlierHandler := mkOutlierHandler ZSCORE.

Definition calculate_outliers_interquartile (df : DataFrame) (column : string)
  : res DataFrame :=
  s1 <- getitem df column ;;
  Q1 <- quantile s1 (1 # 4) ;;
  s3 <- getitem df column ;;
  Q3 <- quantile s3 (3 # 4) ;;
  let IQR := fsub Q3 Q1 in
  let threshold : fnum := Some (3 # 2) in
  sl <- getitem df column ;;
  below <- series_lt sl (fsub Q1 (fmul threshold IQR)) ;;
  sg <- getitem df column ;;
  above <- series_gt sg (fadd Q3 (fmul threshold IQR)) ;;
  Ok (boolean_index df (mask_or below above)).

Definition calculate_outliers_zscore (df : DataFrame) (column : string)
  : res DataFrame :=
  s <- getitem df column ;;
  zs <- zscore s ;;
  let z := map xabs zs in
  let threshold : Q := 3 in
  Ok (boolean_index df (map (fun x => xgt x threshold) z)).

(** The dictionary [__outlier_calculation_methods]. *)
Definition outlier_calculation_methods (m : OutlierCalculationMethod)
  : DataFrame -> string -> res DataFrame :=
  match m with
  | INTERQUARTILE => calculate_outliers_interquartile
  | ZSCORE => calculate_outliers_zscore
  end.

(** [df[~df.index.isin(filter.index)]] *)
Definition filter_dataframe_out (df filter : DataFrame) : DataFrame :=
  boolean_index df (map negb (index_isin df filter)).

(** [df[df[column].isna()]] *)
Definition get_missing (df : DataFrame) (column : string) : res DataFrame :=
  s <- getitem df column ;;
  Ok (boolean_index df (isna s)).

(** [df.dropna(subset=[column])]: a label of [subset] that is not a column
    is raised in a [KeyError] that carries the list of the labels not
    found; otherwise the rows whose value in the column is missing are
    dropped. *)
Definition get_non_missing (df : DataFrame) (column : string) : res DataFrame :=
  match lookup_column column (df_columns df) with
  | Some s => Ok (boolean_index df (map negb (isna s)))
  | None => Raise (KeyError (KeyList [column]))
  end.

Definition get_outliers (self : OutlierHandler) (df : DataFrame)
  (column : string) : res DataFrame :=
  non_na_df <- get_non_missing df column ;;
  outlier_calculation_methods (calculation_method self) non_na_df column.

Definition get_non_outliers (self : OutlierHandler) (df : DataFrame)
  (column : string) : res DataFrame :=
  non_na_df <- get_non_missing df column ;;
  outliers_df <- get_outliers self df column ;;
  Ok (filter_dataframe_out non_na_df outliers_df).

(* ================================================================== *)
(** ** Percentages *)

(** Rounding to the nearest integer, ties to the even one, as Python's
    [round] does on the exact value of its argument. *)
Definition round_half_even (x : Q) : Z :=
  let f := Qfloor x in
  match Qcompare (x - inject_Z f) (1 # 2) with
  | Lt => f
  | Gt => (f + 1)%Z
  | Eq => if Z.even f then f else (f + 1)%Z
  end.

Definition pow10 (digits : nat) : Q := inject_Z (10 ^ Z.of_nat digits).

(** [round(x, digits)] *)
Definition round_digits (x : Q) (digits : nat) : Q :=
  inject_Z (round_half_even (x * pow10 digits)) / pow10 digits.

(** [x / y] on Python floats: a zero divisor raises. *)
Definition float_div (x y : Q) : res Q :=
  if Qeq_bool y 0 then Raise ZeroDivisionError else Ok (x / y).

(** [percentage(part, whole, digits=4)] of [base_data_science_utils.py] *)
Definition percentage (part whole : Q) (digits : nat) : res Q :=
  r <- float_div (100 * part) whole ;;
  Ok (round_digits r digits).

(* ================================================================== *)
(** ** Printing *)

(** What the calls of [print] write, one constructor per format:
    [PrintWarning column] is the line
    [f'WARNING: Value Counts for column {column} does not match'];
    [PrintLine s] is [print(s)]; [PrintInfo label count pct] is a line of
    the column summary, [f'{label}{count} ({pct} %)'], kept with its
    numbers. *)
Inductive printed : Type :=
| PrintWarning (column : string)
| PrintLine (s : string)
| PrintInfo (label : string) (count : nat) (pct : Q).

(** A computation that prints and may raise; what was printed before an
    exception stays printed. *)
Definition out (A : Type) : Type := (list printed * res A)%type.

Definition ret {A : Type} (a : A) : out A := ([], Ok a).

Definition lift {A : Type} (r : res A) : out A := ([], r).

Definition print (p : printed) : out unit := ([p], Ok tt).

Definition obind {A B : Type} (m : out A) (k : A -> out B) : out B :=
  match m with
  | (o, Ok a) => let (o', r) := k a in (o ++ o', r)
  | (o, Raise e) => (o, Raise e)
  end.

Notation "x <-- m ;; k" := (obind m (fun x => k))
  (at level 61, m at next level, right associativity).

Fixpoint spaces (n : nat) : string :=
  match n with
  | O => EmptyString
  | S n' => String " "%char (spaces n')
  end.

(** [s.ljust(width)] *)
Definition ljust (s : string) (width : nat) : string :=
  String.append s (spaces (width - String.length s)).

Definition newline : string := String (ascii_of_nat 10) EmptyString.

(* ================================================================== *)
(** ** The report *)

(** The dictionary built for one column; the three frames are present
    when [output_dataframes] is set. *)
Record ColumnReport : Type := mkColumnReport {
  missing_values_count : nat;
  missing_values_percentage : Q;
  outlier_values_count : nat;
  outlier_values_percentage : Q;
  non_outlier_values_count : nat;
  non_outlier_values_percentage : Q;
  missing_values_df : option DataFrame;
  outlier_values_df : option DataFrame;
  non_outlier_values_df : option DataFrame
}.

(** A Python [dict] with string keys, in insertion order. *)
Definition dict (V : Type) : Type := list (string * V).

Fixpoint dict_get {V : Type} (k : string) (d : dict V) : option V :=
  match d with
  | [] => None
  | (k', v) :: d' => if String.eqb k k' then Some v else dict_get k d'
  end.

(** [d[k] = v] *)
Fixpoint dict_set {V : Type} (k : string) (v : V) (d : dict V) : dict V :=
  match d with
  | [] => [(k, v)]
  | (k', v') :: d' =>
      if String.eqb k k' then (k, v) :: d' else (k', v') :: dict_set k v d'
  end.

Definition count_Q (n : nat) : Q := inject_Z (Z.of_nat n).

(** [column in columns] *)
Definition str_in (column : string) (columns : list string) : bool :=
  existsb (String.eqb column) columns.

(** [bool(columns)] *)
Definition nonempty {A : Type} (l : list A) : bool :=
  match l with
  | [] => false
  | _ :: _ => true
  end.

(** The test of line 86: the column is numeric, and no filter is given or
    the filter names the column. *)
Definition selected (s : Series) (columns : list string) (column : string)
  : bool :=
  is_numeric_dtype s && (negb (nonempty columns) || str_in column columns).

(** The test of line 86 on the column a name refers to; a name that is not
    a column of the frame is never reached by the loop. *)
Definition column_selected (df : DataFrame) (columns : list string)
  (column : string) : bool :=
  match lookup_column column (df_columns df) with
  | Some s => selected s columns column
  | None => false
  end.

(** The body of the loop of [get_outliers_information] for a selected
    column: the entry [result[column]]. *)
Definition column_entry (self : OutlierHandler) (df : DataFrame)
  (output_dataframes : bool) (column : string) : out ColumnReport :=
  let df_total_rows := nrows df in
  missing_df <-- lift (get_missing df column) ;;
  non_missing_df <-- lift (get_non_missing df column) ;;
  outlier_df <-- lift (get_outliers self df column) ;;
  non_outlier_df <-- lift (get_non_outliers self df column) ;;
  let missing_count := nrows missing_df in
  let outlier_count := nrows outlier_df in
  let non_outlier_count := nrows non_outlier_df in
  _ <-- (if negb (Nat.eqb (missing_count + outlier_count + non_outlier_count)
                          df_total_rows)
         then print (PrintWarning column) else ret tt) ;;
  missing_pct <-- lift (percentage (count_Q missing_count)
                                   (count_Q df_total_rows) 4) ;;
  outlier_pct <-- lift (percentage (count_Q outlier_count)
                                   (count_Q df_total_rows) 4) ;;
  non_outlier_pct <-- lift (percentage (count_Q non_outlier_count)
                                       (count_Q df_total_rows) 4) ;;
  ret {| missing_values_count := missing_count;
         missing_values_percentage := missing_pct;
         outlier_values_count := outlier_count;
         outlier_values_percentage := outlier_pct;
         non_outlier_values_count := non_outlier_count;
         non_outlier_values_percentage := non_outlier_pct;
         missing_values_df :=
           if output_dataframes then Some missing_df else None;
         outlier_values_df :=
           if output_dataframes then Some outlier_df else None;
         non_outlier_values_df :=
           if output_dataframes then Some non_outlier_df else None |}.

(** [for column in df.columns: ...] *)
Fixpoint for_columns (self : OutlierHandler) (df : DataFrame)
  (output_dataframes : bool) (columns : list string)
  (names : list string) (result : dict ColumnReport)
  : out (dict ColumnReport) :=
  match names with
  | [] => ret result
  | column :: names' =>
      s <-- lift (getitem df column) ;;
      if selected s columns column then
        entry <-- column_entry self df output_dataframes column ;;
        for_columns self df output_dataframes columns names'
                    (dict_set column entry result)
      else
        for_columns self df output_dataframes columns names' result
  end.

Definition justify_length : nat := 25.

Fixpoint log_column_information (outliers_information : dict ColumnReport)
  : out unit :=
  match outliers_information with
  | [] => ret tt
  | (column, information) :: rest =>
      _ <-- print (PrintLine column) ;;
      _ <-- print (PrintInfo (ljust "Missing Values = "%string justify_length)
                     (missing_values_count information)
                     (missing_values_percentage information)) ;;
      _ <-- print (PrintInfo (ljust "Outlier Values = "%string justify_length)
                     (outlier_values_count information)
                     (outlier_values_percentage information)) ;;
      _ <-- print (PrintInfo (ljust "Non Outlier Values = "%string justify_length)
                     (non_outlier_values_count information)
                     (non_outlier_values_percentage information)) ;;
      _ <-- print (PrintLine newline) ;;
      log_column_information rest
  end.

Definition get_outliers_information (self : OutlierHandler) (df : DataFrame)
  (output_dataframes : bool) (columns : list string) (log_information : bool)
  : out (dict ColumnReport) :=
  result <-- for_columns self df output_dataframes columns
               (column_names df) [] ;;
  _ <-- (if log_information then log_column_information result else ret tt) ;;
  ret result.

(* ================================================================== *)
(** ** The two rules in binary64 arithmetic *)

(** The handler's two rules once more, on columns of [float64] values and
    with the arithmetic of the machine: every operation of lines 22 to 28
    and 34 to 38, and of the library routines they call, is the IEEE 754
    binary64 operation (round to nearest, ties to even), which Rocq's
    primitive floats compute.  A missing value is NaN, as in a pandas
    column of dtype [float64]. *)
Module Binary64.

Local Open Scope float_scope.

(** A frame of [float64] columns, with its row labels. *)
Record DataFrame : Type := mkDataFrame {
  df_index : list Z;
  df_columns : list (string * list float)
}.

Fixpoint lookup_column (c : string) (cols : list (string * list float))
  : option (list float) :=
  match cols with
  | [] => None
  | (n, s) :: cols' => if String.eqb c n then Some s else lookup_column c cols'
  end.

(** [df[column]] *)
Definition getitem (df : DataFrame) (column : string) : res (list float) :=
  match lookup_column column (df_columns df) with
  | Some s => Ok s
  | None => Raise (KeyError (KeyStr column))
  end.

(** [df[mask]] *)
Definition boolean_index (df : DataFrame) (mask : list bool) : DataFrame :=
  {| df_index := mask_select mask (df_index df);
     df_columns := map (fun c => (fst c, mask_select mask (snd c)))
                       (df_columns df) |}.

(** [Series.isna()] *)
Definition isna (s : list float) : list bool := map is_nan s.

(** The values of a column that are not missing, in the order of the
    rows. *)
Definition present (s : list float) : list float :=
  filter (fun v => negb (is_nan v)) s.

(** The rows of a column: each row label with the value the column has
    there. *)
Definition rows (df : DataFrame) (column : string) : list (Z * float) :=
  match lookup_column column (df_columns df) with
  | Some vs => combine (df_index df) vs
  | None => []
  end.

(** The conversion of a Python [int] that is a count to a float. *)
Definition float_of_nat (n : nat) : float :=
  of_uint63 (Uint63.of_Z (Z.of_nat n)).

(** The rational number a finite float is. *)
Definition exact (x : float) : option Q :=
  match Prim2SF x with
  | S754_zero _ => Some 0%Q
  | S754_finite s m e =>
      Some (inject_Z (if s then Z.neg m else Z.pos m) * Qpower 2 e)%Q
  | _ => None
  end.

(** [numpy.floor] of a finite float, as an index. *)
Definition floor_index (x : float) : nat :=
  match Prim2SF x with
  | S754_finite false m e =>
      Z.to_nat (if (0 <=? e)%Z then Z.pos m * 2 ^ e else Z.pos m / 2 ^ (- e))
  | _ => 0%nat
  end.

(** *** Quantiles *)

Fixpoint insert_sorted (x : float) (l : list float) : list float :=
  match l with
  | [] => [x]
  | y :: l' => if x <=? y then x :: l else y :: insert_sorted x l'
  end.

(** The values in ascending order. *)
Definition sort_values (l : list float) : list float :=
  fold_right insert_sorted [] l.

(** [numpy]'s [_lerp(a, b, t)]: [a + (b - a) * t], replaced by
    [b - (b - a) * (1 - t)] where [t >= 0.5]. *)
Definition lerp (a b t : float) : float :=
  let diff_b_a := b - a in
  if 0.5 <=? t then b - diff_b_a * (1 - t) else a + diff_b_a * t.

(** [numpy.percentile(arr, q, method='linear')] for [0 <= q <= 100] and a
    non empty [arr] without NaN: the position [(n - 1) * (q / 100)] falls
    at or after the rank [previous_index]; at the last rank and beyond,
    both ranks are the last one ([_get_indexes] sets them to [-1], from
    which [_get_gamma] subtracts). *)
Definition percentile (arr : list float) (q : float) : float :=
  let quantiles := q / 100 in
  let values_count := length arr in
  let sorted := sort_values arr in
  let virtual_index := float_of_nat (values_count - 1) * quantiles in
  if float_of_nat (values_count - 1) <=? virtual_index then
    let last := nth (values_count - 1) sorted nan in
    lerp last last (virtual_index - (-1))
  else
    let previous_index := floor_index virtual_index in
    let gamma := virtual_index - float_of_nat previous_index in
    lerp (nth previous_index sorted nan)
         (nth (previous_index + 1) sorted nan) gamma.

(** [Series.quantile(q)] for [0 <= q <= 1], with the default
    [interpolation='linear']: pandas masks the missing values out; when no
    value is left it returns NaN, and otherwise
    [numpy.percentile(values, q * 100)]. *)
Definition quantile (s : list float) (q : float) : float :=
  match present s with
  | [] => nan
  | xs => percentile xs (q * 100)
  end.

(** *** Z-scores *)

Definition add_lanes (r a : list float) : list float :=
  map (fun p => fst p + snd p) (combine r a).

(** The unrolled loop of [pairwise_sum]: eight accumulators, each adding
    every eighth element, while eight elements are left. *)
Fixpoint unrolled (fuel : nat) (r a : list float) : list float * list float :=
  match fuel with
  | O => (r, a)
  | S fuel' =>
      if (8 <=? length a)%nat
      then unrolled fuel' (add_lanes r (firstn 8 a)) (skipn 8 a)
      else (r, a)
  end.

(** NumPy's [pairwise_sum] of at least 8 and at most 128 values. *)
Definition block_sum (a : list float) : float :=
  let (r, rest) := unrolled (length a) (firstn 8 a) (skipn 8 a) in
  let res := ((nth 0 r 0 + nth 1 r 0) + (nth 2 r 0 + nth 3 r 0))
             + ((nth 4 r 0 + nth 5 r 0) + (nth 6 r 0 + nth 7 r 0)) in
  fold_left add rest res.

(** NumPy's [pairwise_sum]: fewer than 8 values are added from left to
    right; up to 128 values are added in eight lanes; more are split in
    two halves (the first a multiple of 8). *)
Fixpoint pairwise_sum (fuel : nat) (a : list float) : float :=
  let n := length a in
  if (n <? 8)%nat then fold_left add a 0
  else if (n <=? 128)%nat then block_sum a
  else
    match fuel with
    | O => block_sum a
    | S fuel' =>
        let n2 := (n / 2 - (n / 2) mod 8)%nat in
        pairwise_sum fuel' (firstn n2 a) + pairwise_sum fuel' (skipn n2 a)
    end.

(** [numpy.add.reduce(a)], the sum behind [a.mean()]. *)
Definition add_reduce (a : list float) : float :=
  0 + pairwise_sum (length a) a.

(** [a.mean()] *)
Definition mean (a : list float) : float :=
  add_reduce a / float_of_nat (length a).

(** The variance scipy computes for [ddof = 0], the default of
    [scipy.stats.zscore]: the mean of the squared deviations from the
    mean. *)
Definition variance (a : list float) : float :=
  let mn := mean a in
  let x_mean := map (fun x => x - mn) a in
  mean (map (fun d => d * d) x_mean).

(** The standard deviation [zscore] divides by. *)
Definition std (a : list float) : float := sqrt (variance a).

(** [numpy.finfo(numpy.float64).eps] *)
Definition eps : float := 0x1p-52.

(** [scipy.stats.zscore(a)], that is [zmap(a, a)] with the defaults
    [ddof=0] and [nan_policy='propagate']: the empty array for an empty
    input; otherwise [(a - mn) / std], set to NaN when
    [std <= abs(eps * mn)], which is how scipy tells a constant input. *)
Definition zscore (a : list float) : list float :=
  match a with
  | [] => []
  | _ =>
      let mn := mean a in
      let sd := std a in
      let z := map (fun x => (x - mn) / sd) a in
      if sd <=? abs (eps * mn) then map (fun _ => nan) z else z
  end.

(** *** The handler *)

Definition calculate_outliers_interquartile (df : DataFrame) (column : string)
  : res DataFrame :=
  s1 <- getitem df column ;;
  let Q1 := quantile s1 0.25 in
  s3 <- getitem df column ;;
  let Q3 := quantile s3 0.75 in
  let IQR := Q3 - Q1 in
  let threshold := 1.5 in
  sl <- getitem df column ;;
  let below := map (fun v => v <? Q1 - threshold * IQR) sl in
  sg <- getitem df column ;;
  let above := map (fun v => Q3 + threshold * IQR <? v) sg in
  Ok (boolean_index df (mask_or below above)).

Definition calculate_outliers_zscore (df : DataFrame) (column : string)
  : res DataFrame :=
  s <- getitem df column ;;
  let z := map abs (zscore s) in
  let threshold := 3 in
  Ok (boolean_index df (map (fun x => threshold <? x) z)).

(** The dictionary [__outlier_calculation_methods]. *)
Definition outlier_calculation_methods (m : OutlierCalculationMethod)
  : DataFrame -> string -> res DataFrame :=
  match m with
  | INTERQUARTILE => calculate_outliers_interquartile
  | ZSCORE => calculate_outliers_zscore
  end.

(** [df.dropna(subset=[column])] *)
Definition get_non_missing (df : DataFrame) (column : string) : res DataFrame :=
  match lookup_column column (df_columns df) with
  | Some s => Ok (boolean_index df (map negb (isna s)))
  | None => Raise (KeyError (KeyList [column]))
  end.

Definition get_outliers (self : OutlierHandler) (df : DataFrame)
  (column : string) : res DataFrame :=
  non_na_df <- get_non_missing df column ;;
  outlier_calculation_methods (calculation_method self) non_na_df column.

End Binary64.

(* ================================================================== *)
(** ** Example frames *)

Definition example_handler_iqr : OutlierHandler :=
  mkOutlierHandler INTERQUARTILE.

Definition num (z : Z) : option Q := Some (inject_Z z).

(** The column [10, 12, 11, 13, None, 200] of the specification. *)
Definition example_df : DataFrame :=
  mkDataFrame [0; 1; 2; 3; 4; 5]%Z
    [("a"%string,
      NumSeries [num 10; num 12; num 11; num 13; None; num 200]);
     ("name"%string,
      StrSeries [Some "x"%string; None; Some "y"%string; Some "z"%string;
                 Some "u"%string; Some "v"%string])].

(** A frame that repeats the row label [0]: in column [a] the outlier
    [200] and the ordinary value [10] share it. *)
Definition repeated_label_df : DataFrame :=
  mkDataFrame [0; 1; 2; 3; 0]%Z
    [("a"%string, NumSeries [num 10; num 12; num 11; num 13; num 200]);
     ("b"%string, NumSeries [num 1; num 2; num 3; num 4; num 5])].

(** What the three queries return on column [a] of that frame under the
    INTERQUARTILE method. *)
Definition repeated_label_missing : DataFrame :=
  mkDataFrame []
    [("a"%string, NumSeries []); ("b"%string, NumSeries [])].

Definition repeated_label_outliers : DataFrame :=
  mkDataFrame [0%Z]
    [("a"%string, NumSeries [num 200]); ("b"%string, NumSeries [num 5])].

Definition repeated_label_non_outliers : DataFrame :=
  mkDataFrame [1; 2; 3]%Z
    [("a"%string, NumSeries [num 12; num 11; num 13]);
     ("b"%string, NumSeries [num 2; num 3; num 4])].

(** A frame whose numeric column holds no value, next to a column of
    strings that holds none either. *)
Definition all_missing_df : DataFrame :=
  mkDataFrame [0; 1]%Z
    [("a"%string, NumSeries [None; None]);
     ("name"%string, StrSeries [None; None])].

(** A frame whose numeric column is constant. *)
Definition constant_df : DataFrame :=
  mkDataFrame [0; 1; 2; 3]%Z
    [("a"%string, NumSeries [num 7; None; num 7; num 7])].

(** A frame without rows. *)
Definition empty_df : DataFrame :=
  mkDataFrame [] [("a"%string, NumSeries []); ("name"%string, StrSeries [])].

(** The column [10, 12, 11, 13, NaN, 200] of the specification, as
    floats. *)
Definition example_column64 : list float :=
  [10; 12; 11; 13; nan; 200]%float.

Definition example_df64 : Binary64.DataFrame :=
  Binary64.mkDataFrame [0; 1; 2; 3; 4; 5]%Z [("a"%string, example_column64)].

(** The column [100, 3, 1, 5, NaN, 2, 4]: its quartiles fall between
    ranks. *)
Definition six_column64 : list float :=
  [100; 3; 1; 5; nan; 2; 4]%float.

Definition six_df64 : Binary64.DataFrame :=
  Binary64.mkDataFrame [0; 1; 2; 3; 4; 5; 6]%Z [("a"%string, six_column64)].

(** The column [2.6, 5.0, 5.8, 6.6, 9.0]: the floats nearest to these
    decimals. *)
Definition fences_column64 : list float :=
  [0x1.4cccccccccccdp+1; 5; 0x1.7333333333333p+2; 0x1.a666666666666p+2;
   9]%float.

Definition fences_df64 : Binary64.DataFrame :=
  Binary64.mkDataFrame [0; 1; 2; 3; 4]%Z [("a"%string, fences_column64)].

(** Nine zeros, 1 and 10. *)
Definition eleven_column64 : list float :=
  [0; 0; 0; 0; 0; 0; 0; 0; 0; 1; 10]%float.

Definition eleven_df64 : Binary64.DataFrame :=
  Binary64.mkDataFrame [0; 1; 2; 3; 4; 5; 6; 7; 8; 9; 10]%Z
    [("a"%string, eleven_column64)].

(** Sixteen zeros, 31 and -31. *)
Definition three_sigma_column64 : list float :=
  [0; 0; 0; 0; 0; 0; 0; 0; 0; 0; 0; 0; 0; 0; 0; 0; 31; -31]%float.

Definition three_sigma_df64 : Binary64.DataFrame :=
  Binary64.mkDataFrame
    [0; 1; 2; 3; 4; 5; 6; 7; 8; 9; 10; 11; 12; 13; 14; 15; 16; 17]%Z
    [("a"%string, three_sigma_column64)].

(* ================================================================== *)
(** * Properties *)

(** ** Masks *)

Lemma mask_select_negb_perm {A : Type} (mask : list bool) (l : list A) :
  length mask = length l ->
  Permutation (mask_select mask l ++ mask_select (map negb mask) l) l.
Proof.
  revert l; induction mask as [|b mask IH]; intros [|x l] Hlen;
    simpl in *; try discriminate; auto.
  injection Hlen as Hlen.
  destruct b; simpl.
  - apply perm_skip, IH, Hlen.
  - apply Permutation_sym, Permutation_cons_app, Permutation_sym, IH, Hlen.
Qed.

Lemma mask_select_In {A : Type} (mask : list bool) (l : list A) (x : A) :
  In x (mask_select mask l) -> In x l.
Proof.
  revert l; induction mask as [|b mask IH]; intros [|y l]; simpl;
    try tauto.
  destruct b; simpl; intros H.
  - destruct H as [H|H]; auto.
  - auto.
Qed.

Lemma mask_select_length_le {A : Type} (mask : list bool) (l : list A) :
  (length (mask_select mask l) <= length l)%nat.
Proof.
  revert l; induction mask as [|b mask IH]; intros [|y l]; simpl; try lia.
  destruct b; simpl; specialize (IH l); lia.
Qed.

Lemma mask_select_combine {A B : Type} (mask : list bool)
  (l : list A) (l' : list B) :
  combine (mask_select mask l) (mask_select mask l')
  = mask_select mask (combine l l').
Proof.
  revert l l'; induction mask as [|b mask IH]; intros [|x l] [|y l'];
    simpl; auto.
  - destruct b; simpl; destruct (mask_select mask l); reflexivity.
  - destruct b; simpl; rewrite IH; reflexivity.
Qed.

Lemma mask_select_same_length {A B : Type} (mask : list bool)
  (l : list A) (l' : list B) :
  length l = length l' ->
  length (mask_select mask l) = length (mask_select mask l').
Proof.
  revert l l'; induction mask as [|b mask IH]; intros [|x l] [|y l'] H;
    simpl in *; try discriminate; auto.
  injection H as H. destruct b; simpl; auto.
Qed.

Lemma mask_select_all_false {A : Type} (mask : list bool) (l : list A) :
  forallb negb mask = true -> mask_select mask l = [].
Proof.
  revert l; induction mask as [|b mask IH]; intros [|x l]; simpl; auto.
  destruct b; simpl; intros H; [discriminate | auto].
Qed.

(** On distinct labels, membership in a selection recovers the mask. *)
Lemma isin_mask_select (mask : list bool) (l : list Z) :
  NoDup l -> length mask = length l ->
  map (fun x => existsb (Z.eqb x) (mask_select mask l)) l = mask.
Proof.
  revert l; induction mask as [|b mask IH]; intros [|x l] Hnd Hlen;
    simpl in *; try discriminate; auto.
  injection Hlen as Hlen. inversion Hnd as [|? ? Hx Hnd']; subst.
  assert (Hrest : forall sel, (forall y, In y sel -> In y l) ->
            existsb (Z.eqb x) sel = false).
  { intros sel Hsel. destruct (existsb (Z.eqb x) sel) eqn:E; auto.
    apply existsb_exists in E. destruct E as [y [Hy Hxy]].
    apply Z.eqb_eq in Hxy. subst y. elim Hx. auto. }
  destruct b; simpl.
  - rewrite Z.eqb_refl. simpl. f_equal.
    transitivity (map (fun y => existsb (Z.eqb y) (mask_select mask l)) l);
      [|apply IH; assumption].
    apply map_ext_in. intros y Hy.
    destruct (Z.eqb_spec y x) as [->|_]; [contradiction | reflexivity].
  - rewrite (Hrest _ (mask_select_In mask l)). f_equal.
    apply IH; assumption.
Qed.

Lemma NoDup_mask_select {A : Type} (mask : list bool) (l : list A) :
  NoDup l -> NoDup (mask_select mask l).
Proof.
  revert l; induction mask as [|b mask IH]; intros [|x l] H; simpl;
    try constructor.
  inversion H; subst. destruct b; auto.
  constructor; auto. intros Hin. apply mask_select_In in Hin. contradiction.
Qed.

(** ** Frames *)

Lemma lookup_column_select (mask : list bool) (c : string)
  (cols : list (string * Series)) :
  lookup_column c (map (fun x => (fst x, series_select mask (snd x))) cols)
  = option_map (series_select mask) (lookup_column c cols).
Proof.
  induction cols as [|[n s] cols IH]; simpl; auto.
  destruct (String.eqb c n); auto.
Qed.

Lemma lookup_column_In (c : string) (cols : list (string * Series))
  (s : Series) :
  lookup_column c cols = Some s -> In (c, s) cols.
Proof.
  induction cols as [|[n s'] cols IH]; simpl; try discriminate.
  destruct (String.eqb_spec c n) as [->|_]; intros H.
  - injection H as ->. auto.
  - auto.
Qed.

Lemma lookup_column_names (c : string) (cols : list (string * Series)) :
  In c (map fst cols) <-> exists s, lookup_column c cols = Some s.
Proof.
  induction cols as [|[n s'] cols IH]; simpl.
  - split; [tauto | intros [s H]; discriminate].
  - destruct (String.eqb_spec c n) as [->|Hne].
    + split; eauto.
    + rewrite <- IH. split; [intros [H|H]; congruence || auto | auto].
Qed.

Lemma wf_lookup_length (df : DataFrame) (c : string) (s : Series) :
  wf_df df -> lookup_column c (df_columns df) = Some s ->
  series_len s = length (df_index df).
Proof.
  intros Hwf H. apply lookup_column_In in H.
  unfold wf_df in Hwf. rewrite Forall_forall in Hwf.
  apply (Hwf _ H).
Qed.

Lemma wf_dfb_correct (df : DataFrame) : wf_dfb df = true -> wf_df df.
Proof.
  unfold wf_dfb, wf_df. rewrite forallb_forall, Forall_forall.
  intros H x Hx. apply Nat.eqb_eq, H, Hx.
Qed.

(** The shape of a concrete frame is checked by computation. *)
Ltac wf_by_computation := apply wf_dfb_correct; reflexivity.

Lemma wf_boolean_index (df : DataFrame) (mask : list bool) :
  wf_df df -> wf_df (boolean_index df mask).
Proof.
  unfold wf_df, boolean_index; simpl. rewrite !Forall_forall.
  intros H x Hx. apply in_map_iff in Hx. destruct Hx as [[n s] [<- Hin]].
  simpl. specialize (H _ Hin). simpl in H.
  destruct s; simpl in *; apply mask_select_same_length; assumption.
Qed.

Lemma num_rows_boolean_index (df : DataFrame) (mask : list bool)
  (c : string) :
  num_rows (boolean_index df mask) c = mask_select mask (num_rows df c).
Proof.
  unfold num_rows, boolean_index; simpl. rewrite lookup_column_select.
  destruct (lookup_column c (df_columns df)) as [[vs|vs]|]; simpl.
  - apply mask_select_combine.
  - destruct mask; reflexivity.
  - destruct mask; reflexivity.
Qed.

(** ** The strategies return a selection of the rows they are given *)

Lemma mask_or_length (m1 m2 : list bool) :
  length m1 = length m2 -> length (mask_or m1 m2) = length m1.
Proof.
  revert m2; induction m1 as [|b m1 IH]; intros [|b' m2] H; simpl in *;
    try discriminate; auto.
Qed.

Lemma present_length_no_none {A : Type} (vs : list (option A)) :
  existsb is_none vs = false -> length (present vs) = length vs.
Proof.
  induction vs as [|[v|] vs IH]; simpl; auto; discriminate.
Qed.

Lemma interquartile_mask (df : DataFrame) (c : string) (vs : list (option Q)) :
  lookup_column c (df_columns df) = Some (NumSeries vs) ->
  exists mask,
    calculate_outliers_interquartile df c = Ok (boolean_index df mask)
    /\ length mask = length vs.
Proof.
  intros H. unfold calculate_outliers_interquartile, getitem. rewrite H.
  simpl. destruct (present vs); simpl;
    (eexists; split; [reflexivity|]);
    rewrite mask_or_length; rewrite !length_map; reflexivity.
Qed.

Lemma zscore_mask (df : DataFrame) (c : string) (vs : list (option Q)) :
  lookup_column c (df_columns df) = Some (NumSeries vs) ->
  exists mask,
    calculate_outliers_zscore df c = Ok (boolean_index df mask)
    /\ length mask = length vs.
Proof.
  intros H. unfold calculate_outliers_zscore, getitem. rewrite H. simpl.
  destruct (Nat.eqb_spec (length vs) 0) as [E|E]; simpl.
  - exists []. split; [reflexivity | symmetry; exact E].
  - destruct (existsb is_none vs) eqn:En; simpl;
      (eexists; split; [reflexivity|]); rewrite !length_map; auto.
    apply present_length_no_none, En.
Qed.

Lemma strategy_mask (m : OutlierCalculationMethod) (df : DataFrame)
  (c : string) (vs : list (option Q)) :
  lookup_column c (df_columns df) = Some (NumSeries vs) ->
  exists mask,
    outlier_calculation_methods m df c = Ok (boolean_index df mask)
    /\ length mask = length vs.
Proof.
  destruct m; simpl; [apply interquartile_mask | apply zscore_mask].
Qed.

(** The rows of [get_outliers] and [get_non_outliers], as selections of the
    non missing rows. *)
Lemma outliers_as_selection (self : OutlierHandler) (df : DataFrame)
  (c : string) (vs : list (option Q)) :
  wf_df df ->
  lookup_column c (df_columns df) = Some (NumSeries vs) ->
  let non_na := boolean_index df (map negb (map is_none vs)) in
  exists mask,
    length mask = length (df_index non_na)
    /\ get_missing df c = Ok (boolean_index df (map is_none vs))
    /\ get_non_missing df c = Ok non_na
    /\ get_outliers self df c = Ok (boolean_index non_na mask)
    /\ get_non_outliers self df c
       = Ok (filter_dataframe_out non_na (boolean_index non_na mask)).
Proof.
  intros Hwf H non_na.
  assert (Hnn : get_non_missing df c = Ok non_na).
  { unfold get_non_missing. rewrite H. reflexivity. }
  assert (Hl : lookup_column c (df_columns non_na)
               = Some (NumSeries (mask_select (map negb (map is_none vs)) vs))).
  { unfold non_na, boolean_index; simpl. rewrite lookup_column_select, H.
    reflexivity. }
  destruct (strategy_mask (calculation_method self) non_na c _ Hl)
    as [mask [Hs Hlen]].
  exists mask. repeat split.
  - rewrite Hlen. unfold non_na; simpl.
    apply mask_select_same_length.
    apply (wf_lookup_length df c _ Hwf H).
  - unfold get_missing, getitem. rewrite H. reflexivity.
  - exact Hnn.
  - unfold get_outliers. rewrite Hnn. simpl. exact Hs.
  - unfold get_non_outliers, get_outliers. rewrite Hnn. simpl. rewrite Hs.
    reflexivity.
Qed.

Lemma filter_out_selection (df : DataFrame) (mask : list bool) :
  NoDup (df_index df) -> length mask = length (df_index df) ->
  filter_dataframe_out df (boolean_index df mask)
  = boolean_index df (map negb mask).
Proof.
  intros Hnd Hlen. unfold filter_dataframe_out, index_isin. simpl.
  rewrite isin_mask_select; auto.
Qed.

Lemma num_rows_length (df : DataFrame) (c : string) (vs : list (option Q)) :
  wf_df df -> lookup_column c (df_columns df) = Some (NumSeries vs) ->
  length (num_rows df c) = length (df_index df).
Proof.
  intros Hwf H. unfold num_rows. rewrite H. rewrite length_combine.
  pose proof (wf_lookup_length df c _ Hwf H) as E. simpl in E. lia.
Qed.

Lemma disjoint_of_NoDup_app {A : Type} (l1 l2 : list A) (x : A) :
  NoDup (l1 ++ l2) -> ~ (In x l1 /\ In x l2).
Proof.
  induction l1 as [|y l1 IH]; simpl; intros H [H1 H2]; [contradiction|].
  inversion H as [|? ? Hy Hnd]; subst.
  destruct H1 as [->|H1].
  - apply Hy, in_or_app. right. exact H2.
  - apply IH; auto.
Qed.

(** ** The three row sets partition the rows *)

Lemma partition_of_rows_aux (self : OutlierHandler) (df : DataFrame)
  (column : string) (vs : list (option Q)) :
  wf_df df ->
  NoDup (df_index df) ->
  lookup_column column (df_columns df) = Some (NumSeries vs) ->
  exists na mask,
    let non_na := boolean_index df (map negb na) in
    length na = length (df_index df)
    /\ length mask = length (df_index non_na)
    /\ get_missing df column = Ok (boolean_index df na)
    /\ get_outliers self df column = Ok (boolean_index non_na mask)
    /\ get_non_outliers self df column
       = Ok (boolean_index non_na (map negb mask)).
Proof.
  intros Hwf Hnd H.
  destruct (outliers_as_selection self df column vs Hwf H)
    as [mask [Hlen [Hm [Hnn [Ho Hn]]]]].
  exists (map is_none vs), mask. cbv zeta. repeat split; auto.
  - rewrite length_map. apply (wf_lookup_length df column _ Hwf H).
  - rewrite Hn. f_equal. apply filter_out_selection; auto.
    simpl. apply NoDup_mask_select, Hnd.
Qed.

(** C1, amended.  On a frame whose row labels are pairwise distinct,
    and for a numeric column of it, [get_missing], [get_outliers] and
    [get_non_outliers] all return; the row labels of the three results are
    pairwise disjoint; put together, the three results hold exactly the
    rows of the frame (labels, and labels with the column's values); and
    their sizes sum to the number of rows of the frame. *)
Theorem partition_of_rows (self : OutlierHandler) (df : DataFrame)
  (column : string) (vs : list (option Q)) :
  wf_df df ->
  NoDup (df_index df) ->
  lookup_column column (df_columns df) = Some (NumSeries vs) ->
  exists missing outliers non_outliers,
    get_missing df column = Ok missing
    /\ get_outliers self df column = Ok outliers
    /\ get_non_outliers self df column = Ok non_outliers
    /\ (forall l, ~ (In l (df_index missing) /\ In l (df_index outliers)))
    /\ (forall l, ~ (In l (df_index missing) /\ In l (df_index non_outliers)))
    /\ (forall l, ~ (In l (df_index outliers) /\ In l (df_index non_outliers)))
    /\ Permutation
         (df_index missing ++ df_index outliers ++ df_index non_outliers)
         (df_index df)
    /\ Permutation
         (num_rows missing column ++ num_rows outliers column
            ++ num_rows non_outliers column)
         (num_rows df column)
    /\ (nrows missing + nrows outliers + nrows non_outliers = nrows df)%nat.
Proof.
  intros Hwf Hnd H.
  destruct (partition_of_rows_aux self df column vs Hwf Hnd H)
    as [na [mask [Hna [Hmask [Hm [Ho Hn]]]]]].
  set (non_na := boolean_index df (map negb na)) in *.
  exists (boolean_index df na), (boolean_index non_na mask),
         (boolean_index non_na (map negb mask)).
  assert (Hperm : Permutation
            (df_index (boolean_index df na)
             ++ df_index (boolean_index non_na mask)
             ++ df_index (boolean_index non_na (map negb mask)))
            (df_index df)).
  { simpl. etransitivity.
    - apply Permutation_app_head. apply mask_select_negb_perm. exact Hmask.
    - apply mask_select_negb_perm. exact Hna. }
  assert (Hnd3 : NoDup
            (df_index (boolean_index df na)
             ++ df_index (boolean_index non_na mask)
             ++ df_index (boolean_index non_na (map negb mask)))).
  { apply (Permutation_NoDup (Permutation_sym Hperm) Hnd). }
  repeat split; auto.
  - intros l [H1 H2]. apply (disjoint_of_NoDup_app _ _ l Hnd3).
    split; [exact H1 | apply in_or_app; left; exact H2].
  - intros l [H1 H2]. apply (disjoint_of_NoDup_app _ _ l Hnd3).
    split; [exact H1 | apply in_or_app; right; exact H2].
  - intros l. apply disjoint_of_NoDup_app.
    apply (NoDup_app_remove_l _ _ Hnd3).
  - rewrite !num_rows_boolean_index. etransitivity.
    + apply Permutation_app_head. apply mask_select_negb_perm.
      rewrite Hmask. unfold non_na. rewrite num_rows_boolean_index.
      simpl. symmetry. apply mask_select_same_length.
      apply (num_rows_length df column vs Hwf H).
    + unfold non_na. rewrite num_rows_boolean_index.
      apply mask_select_negb_perm.
      rewrite Hna. symmetry. apply (num_rows_length df column vs Hwf H).
  - apply Permutation_length in Hperm. rewrite !length_app in Hperm.
    unfold nrows. lia.
Qed.

Lemma partition_of_rows_witness :
  exists missing outliers non_outliers,
    get_missing example_df "a" = Ok missing
    /\ get_outliers example_handler_iqr example_df "a" = Ok outliers
    /\ get_non_outliers example_handler_iqr example_df "a" = Ok non_outliers
    /\ (forall l, ~ (In l (df_index missing) /\ In l (df_index outliers)))
    /\ (forall l, ~ (In l (df_index missing) /\ In l (df_index non_outliers)))
    /\ (forall l, ~ (In l (df_index outliers) /\ In l (df_index non_outliers)))
    /\ Permutation
         (df_index missing ++ df_index outliers ++ df_index non_outliers)
         (df_index example_df)
    /\ Permutation
         (num_rows missing "a" ++ num_rows outliers "a"
            ++ num_rows non_outliers "a")
         (num_rows example_df "a")
    /\ (nrows missing + nrows outliers + nrows non_outliers
        = nrows example_df)%nat.
Proof.
  apply (partition_of_rows example_handler_iqr example_df "a"
           [num 10; num 12; num 11; num 13; None; num 200]).
  - wf_by_computation.
  - repeat constructor; simpl; intuition lia.
  - reflexivity.
Defined.

(** C1, counterexample.  On a frame that repeats a row label, the three
    results do not cover the rows: the row labelled [0] that holds [10] is
    dropped with the outlier of the same label, and the sizes sum to 4 on a
    frame of 5 rows. *)
Lemma partition_fails_on_repeated_label :
  wf_df repeated_label_df
  /\ lookup_column "a" (df_columns repeated_label_df)
     = Some (NumSeries [num 10; num 12; num 11; num 13; num 200])
  /\ get_missing repeated_label_df "a" = Ok repeated_label_missing
  /\ get_outliers example_handler_iqr repeated_label_df "a"
     = Ok repeated_label_outliers
  /\ get_non_outliers example_handler_iqr repeated_label_df "a"
     = Ok repeated_label_non_outliers
  /\ (nrows repeated_label_missing + nrows repeated_label_outliers
      + nrows repeated_label_non_outliers)%nat = 4%nat
  /\ nrows repeated_label_df = 5%nat
  /\ In (0%Z, num 10) (num_rows repeated_label_df "a")
  /\ ~ In (0%Z, num 10)
       (num_rows repeated_label_missing "a"
          ++ num_rows repeated_label_outliers "a"
          ++ num_rows repeated_label_non_outliers "a").
Proof.
  split; [wf_by_computation|].
  split; [reflexivity|].
  split; [reflexivity|].
  split; [vm_compute; reflexivity|].
  split; [vm_compute; reflexivity|].
  split; [reflexivity|].
  split; [reflexivity|].
  split; [simpl; auto|].
  simpl. unfold num. intros [E|[E|[E|[E|[]]]]]; inversion E.
Qed.

(** ** The non missing rows *)

Lemma Qlt_bool_iff (x y : Q) : Qlt_bool x y = true <-> x < y.
Proof.
  unfold Qlt_bool. rewrite negb_true_iff. split.
  - intros H. apply Qnot_le_lt. intros Hle.
    apply Qle_bool_iff in Hle. congruence.
  - intros H. destruct (Qle_bool y x) eqn:E; auto.
    apply Qle_bool_iff in E. apply Qlt_not_le in H. contradiction.
Qed.

Lemma non_missing_values {A : Type} (vs : list (option A)) :
  mask_select (map negb (map is_none vs)) vs = map Some (present vs).
Proof.
  induction vs as [|[v|] vs IH]; simpl; auto. rewrite IH. reflexivity.
Qed.

Lemma present_map_Some {A : Type} (xs : list A) : present (map Some xs) = xs.
Proof. induction xs; simpl; congruence. Qed.


Lemma mask_select_map_combine {A B : Type} (h : B -> bool)
  (l1 : list A) (l2 : list B) :
  mask_select (map h l2) (combine l1 l2)
  = filter (fun r => h (snd r)) (combine l1 l2).
Proof.
  revert l1; induction l2 as [|y l2 IH]; intros [|x l1]; simpl; auto.
  rewrite IH. reflexivity.
Qed.

Lemma mask_or_map {A : Type} (f g : A -> bool) (l : list A) :
  mask_or (map f l) (map g l) = map (fun x => f x || g x) l.
Proof. induction l; simpl; congruence. Qed.

(** The frame [get_non_missing] returns for a numeric column: the column
    holds the present values, and the rows are the rows whose value is
    present. *)
Lemma get_non_missing_numeric (df : DataFrame) (c : string)
  (vs : list (option Q)) :
  lookup_column c (df_columns df) = Some (NumSeries vs) ->
  exists non_na,
    get_non_missing df c = Ok non_na
    /\ lookup_column c (df_columns non_na)
       = Some (NumSeries (map Some (present vs)))
    /\ num_rows non_na c
       = filter (fun r => negb (is_none (snd r))) (num_rows df c)
    /\ df_index non_na = mask_select (map negb (map is_none vs)) (df_index df).
Proof.
  intros H. exists (boolean_index df (map negb (map is_none vs))).
  split; [unfold get_non_missing; rewrite H; reflexivity|].
  split.
  - unfold boolean_index; simpl. rewrite lookup_column_select, H. simpl.
    rewrite non_missing_values. reflexivity.
  - split; [|reflexivity].
    rewrite num_rows_boolean_index. unfold num_rows. rewrite H.
    rewrite map_map.
    apply (mask_select_map_combine (fun x => negb (is_none x))).
Qed.

(** The rows a mask computed from the present values selects among the non
    missing rows: the rows of the frame whose value is present and
    satisfies the test of the mask. *)
Lemma rows_of_selection (df non_na : DataFrame) (c : string)
  (vs : list (option Q)) (h : option Q -> bool) (l : Z) (v : option Q) :
  lookup_column c (df_columns non_na)
  = Some (NumSeries (map Some (present vs))) ->
  num_rows non_na c
  = filter (fun r => negb (is_none (snd r))) (num_rows df c) ->
  In (l, v)
     (num_rows (boolean_index non_na (map h (map Some (present vs)))) c)
  <-> In (l, v) (num_rows df c) /\ exists x, v = Some x /\ h (Some x) = true.
Proof.
  intros Hl Hrows. rewrite num_rows_boolean_index.
  assert (E : num_rows non_na c
              = combine (df_index non_na) (map Some (present vs))).
  { unfold num_rows. rewrite Hl. reflexivity. }
  rewrite E, mask_select_map_combine, <- E, Hrows.
  rewrite !filter_In. cbn [snd]. split.
  - intros [[Hin Hv] Hh]. split; [exact Hin|].
    destruct v as [x|]; [|discriminate]. eauto.
  - intros [Hin [x [-> Hh]]]. repeat split; auto.
Qed.

(** ** Quantiles *)

Lemma insert_sorted_perm (x : Q) (l : list Q) :
  Permutation (insert_sorted x l) (x :: l).
Proof.
  induction l as [|y l IH]; simpl; auto.
  destruct (Qle_bool x y); auto.
  etransitivity; [apply perm_skip, IH | apply perm_swap].
Qed.

Lemma sort_values_perm (l : list Q) : Permutation (sort_values l) l.
Proof.
  induction l as [|x l IH]; simpl; auto.
  etransitivity; [apply insert_sorted_perm | apply perm_skip, IH].
Qed.

Lemma insert_sorted_sorted (x : Q) (l : list Q) :
  StronglySorted Qle l -> StronglySorted Qle (insert_sorted x l).
Proof.
  induction l as [|y l IH]; intros Hs; simpl.
  - constructor; constructor.
  - inversion Hs as [|? ? Hl Hy]; subst.
    destruct (Qle_bool x y) eqn:E.
    + apply Qle_bool_iff in E. constructor; [exact Hs|].
      constructor; [exact E|].
      rewrite Forall_forall in *. intros z Hz.
      apply (Qle_trans _ y); auto.
    + assert (Hyx : y <= x).
      { apply Qlt_le_weak, Qnot_le_lt. intros H.
        apply Qle_bool_iff in H. congruence. }
      constructor; [apply IH, Hl|].
      rewrite Forall_forall in *. intros z Hz.
      apply (Permutation_in _ (insert_sorted_perm x l)) in Hz.
      destruct Hz as [<-|Hz]; auto.
Qed.

(** The ranked data points: the present values in ascending order. *)
Lemma sort_values_sorted (l : list Q) : StronglySorted Qle (sort_values l).
Proof.
  induction l as [|x l IH]; simpl.
  - constructor.
  - apply insert_sorted_sorted, IH.
Qed.

Lemma Qfloor_unique (x : Q) (k : Z) :
  inject_Z k <= x -> x < inject_Z (k + 1) -> Qfloor x = k.
Proof.
  intros Hlo Hhi.
  pose proof (Qfloor_le x) as H1. pose proof (Qlt_floor x) as H2.
  assert (A : (Qfloor x < k + 1)%Z).
  { rewrite Zlt_Qlt. apply (Qle_lt_trans _ x); assumption. }
  assert (B : (k < Qfloor x + 1)%Z).
  { rewrite Zlt_Qlt. apply (Qle_lt_trans _ x); assumption. }
  lia.
Qed.

(** Linear interpolation: when the position [(n - 1) * q] is [k + t], with
    [k] a rank that has a successor and [0 <= t < 1], the quantile is the
    value of rank [k] plus [t] times the step to the value of rank
    [k + 1]. *)
Lemma lerp_quantile_between (sorted : list Q) (q t : Q) (k : nat) :
  (k + 1 < length sorted)%nat ->
  0 <= t -> t < 1 ->
  inject_Z (Z.of_nat (length sorted) - 1) * q == inject_Z (Z.of_nat k) + t ->
  lerp_quantile sorted q
  == nth k sorted 0 + (nth (k + 1) sorted 0 - nth k sorted 0) * t.
Proof.
  intros Hk Ht0 Ht1 Hpos. unfold lerp_quantile.
  set (h := inject_Z (Z.of_nat (length sorted) - 1) * q) in *.
  assert (Hf : Qfloor h = Z.of_nat k).
  { apply Qfloor_unique.
    - rewrite Hpos. lra.
    - rewrite Hpos, inject_Z_plus. change (inject_Z 1) with 1. lra. }
  rewrite Hf.
  replace (Z.min (Z.of_nat k + 1) (Z.of_nat (length sorted) - 1))
    with (Z.of_nat (k + 1)) by lia.
  rewrite !Nat2Z.id, Hpos. ring.
Qed.

(** At a position that is a rank, the quantile is the value of the rank. *)
Lemma lerp_quantile_at_rank (sorted : list Q) (q : Q) (k : nat) :
  (k < length sorted)%nat ->
  inject_Z (Z.of_nat (length sorted) - 1) * q == inject_Z (Z.of_nat k) ->
  lerp_quantile sorted q == nth k sorted 0.
Proof.
  intros Hk Hpos. unfold lerp_quantile.
  set (h := inject_Z (Z.of_nat (length sorted) - 1) * q) in *.
  assert (Hf : Qfloor h = Z.of_nat k).
  { apply Qfloor_unique.
    - rewrite Hpos. lra.
    - rewrite Hpos, inject_Z_plus. change (inject_Z 1) with 1. lra. }
  rewrite Hf, Nat2Z.id, Hpos. ring.
Qed.

(** [Series.quantile] of a numeric series with a present value is the
    interpolated quantile of its ranked present values. *)
Lemma quantile_numeric (vs : list (option Q)) (q : Q) :
  present vs <> [] ->
  quantile (NumSeries vs) q
  = Ok (Some (lerp_quantile (sort_values (present vs)) q)).
Proof.
  intros H. unfold quantile. destruct (present vs); [contradiction|].
  reflexivity.
Qed.

(** The quartiles of [1, 2, 3, 4, 5, 100]: 2.25 and 4.75. *)
Example quartiles_of_six :
  quantile (NumSeries [num 100; num 3; num 1; num 5; num 2; num 4]) (1 # 4)
  = Ok (Some (9 # 4))
  /\ quantile (NumSeries [num 100; num 3; num 1; num 5; num 2; num 4]) (3 # 4)
     = Ok (Some (19 # 4)).
Proof. split; reflexivity. Qed.

(** ** The interquartile rule *)

(** The mask [calculate_outliers_interquartile] computes on a column
    without missing values. *)
Lemma interquartile_on_present (df : DataFrame) (c : string) (xs : list Q)
  (Q1 Q3 : Q) :
  lookup_column c (df_columns df) = Some (NumSeries (map Some xs)) ->
  quantile (NumSeries (map Some xs)) (1 # 4) = Ok (Some Q1) ->
  quantile (NumSeries (map Some xs)) (3 # 4) = Ok (Some Q3) ->
  calculate_outliers_interquartile df c
  = Ok (boolean_index df
          (map (fun v => flt v (Some (Q1 - (3 # 2) * (Q3 - Q1)))
                         || fgt v (Some (Q3 + (3 # 2) * (Q3 - Q1))))
               (map Some xs))).
Proof.
  intros H H1 H3. unfold calculate_outliers_interquartile, getitem.
  rewrite H. cbn [bind]. rewrite H1, H3.
  cbn [bind fsub fmul fadd series_lt series_gt].
  rewrite mask_or_map. reflexivity.
Qed.

Lemma quantile_non_missing (vs : list (option Q)) (q : Q) :
  quantile (NumSeries (map Some (present vs))) q = quantile (NumSeries vs) q.
Proof. unfold quantile. rewrite present_map_Some. reflexivity. Qed.

(** ** Degenerate columns *)

Lemma nrows_boolean_index_nil (df : DataFrame) :
  nrows df = 0%nat -> forall mask, nrows (boolean_index df mask) = 0%nat.
Proof.
  unfold nrows. intros H mask. simpl.
  pose proof (mask_select_length_le mask (df_index df)). lia.
Qed.

(** C8.  When a numeric column has no present value (it is empty once the
    missing values are removed), [get_outliers] returns under both
    methods, and its result has no row. *)
Theorem empty_column_no_outliers (m : OutlierCalculationMethod)
  (df : DataFrame) (column : string) (vs : list (option Q)) :
  wf_df df ->
  lookup_column column (df_columns df) = Some (NumSeries vs) ->
  present vs = [] ->
  exists non_na outliers,
    get_non_missing df column = Ok non_na
    /\ nrows non_na = 0%nat
    /\ outlier_calculation_methods m non_na column = Ok outliers
    /\ get_outliers (mkOutlierHandler m) df column = Ok outliers
    /\ df_index outliers = []
    /\ num_rows outliers column = [].
Proof.
  intros Hwf H He.
  destruct (outliers_as_selection (mkOutlierHandler m) df column vs Hwf H)
    as [mask [Hlen [_ [Hnn [Ho _]]]]].
  set (non_na := boolean_index df (map negb (map is_none vs))) in *.
  assert (Hz : nrows non_na = 0%nat).
  { unfold nrows, non_na. simpl.
    rewrite (mask_select_same_length _ (df_index df) vs).
    - rewrite non_missing_values, He. reflexivity.
    - symmetry. apply (wf_lookup_length df column _ Hwf H). }
  assert (Hi : df_index (boolean_index non_na mask) = []).
  { pose proof (nrows_boolean_index_nil non_na Hz mask) as Hn.
    unfold nrows in Hn. apply length_zero_iff_nil in Hn. exact Hn. }
  exists non_na, (boolean_index non_na mask).
  repeat split; auto.
  - unfold get_outliers in Ho. rewrite Hnn in Ho. exact Ho.
  - unfold num_rows.
    destruct (lookup_column column (df_columns (boolean_index non_na mask)))
      as [[ws|ws]|]; auto.
    rewrite Hi. reflexivity.
Qed.

Lemma empty_column_no_outliers_witness :
  (exists non_na outliers,
     get_non_missing all_missing_df "a" = Ok non_na
     /\ nrows non_na = 0%nat
     /\ outlier_calculation_methods INTERQUARTILE non_na "a" = Ok outliers
     /\ get_outliers (mkOutlierHandler INTERQUARTILE) all_missing_df "a"
        = Ok outliers
     /\ df_index outliers = []
     /\ num_rows outliers "a" = [])
  /\ (exists non_na outliers,
        get_non_missing all_missing_df "a" = Ok non_na
        /\ nrows non_na = 0%nat
        /\ outlier_calculation_methods ZSCORE non_na "a" = Ok outliers
        /\ get_outliers (mkOutlierHandler ZSCORE) all_missing_df "a"
           = Ok outliers
        /\ df_index outliers = []
        /\ num_rows outliers "a" = []).
Proof.
  split.
  - apply (empty_column_no_outliers INTERQUARTILE all_missing_df "a"
             [None; None]).
    + wf_by_computation.
    + reflexivity.
    + reflexivity.
  - apply (empty_column_no_outliers ZSCORE all_missing_df "a" [None; None]).
    + wf_by_computation.
    + reflexivity.
    + reflexivity.
Defined.








(** ** Percentages *)

Lemma round_half_even_close (y : Q) :
  Qabs (inject_Z (round_half_even y) - y) <= 1 # 2.
Proof.
  unfold round_half_even.
  pose proof (Qfloor_le y) as Hlo. pose proof (Qlt_floor y) as Hhi.
  rewrite inject_Z_plus in Hhi. change (inject_Z 1) with 1 in Hhi.
  apply Qabs_Qle_condition.
  destruct (Qcompare_spec (y - inject_Z (Qfloor y)) (1 # 2)) as [E|E|E].
  - destruct (Z.even (Qfloor y)).
    + split; lra.
    + rewrite inject_Z_plus. change (inject_Z 1) with 1. split; lra.
  - split; lra.
  - rewrite inject_Z_plus. change (inject_Z 1) with 1. split; lra.
Qed.

Lemma pow10_pos (digits : nat) : 0 < pow10 digits.
Proof.
  unfold pow10. replace 0 with (inject_Z 0) by reflexivity.
  rewrite <- Zlt_Qlt. apply Z.pow_pos_nonneg; lia.
Qed.

(** [round(x, digits)] is a multiple of [10 ^ -digits] at distance at most
    half of it from [x]. *)
Lemma round_digits_close (x : Q) (digits : nat) :
  Qabs (round_digits x digits - x) <= (1 # 2) / pow10 digits.
Proof.
  unfold round_digits.
  pose proof (pow10_pos digits) as Hp.
  pose proof (round_half_even_close (x * pow10 digits)) as H.
  set (k := inject_Z (round_half_even (x * pow10 digits))) in *.
  set (p := pow10 digits) in *.
  assert (Hp' : ~ p == 0) by lra.
  assert (E : k / p - x == (k - x * p) / p) by (field; exact Hp').
  rewrite E. unfold Qdiv. rewrite Qabs_Qmult.
  rewrite (Qabs_pos (/ p)).
  - apply Qmult_le_compat_r; [exact H|].
    apply Qlt_le_weak, Qinv_lt_0_compat, Hp.
  - apply Qlt_le_weak, Qinv_lt_0_compat, Hp.
Qed.

Lemma percentage_nonzero (part whole : Q) (digits : nat) :
  ~ whole == 0 ->
  percentage part whole digits
  = Ok (round_digits (100 * part / whole) digits).
Proof.
  intros H. unfold percentage, float_div.
  destruct (Qeq_bool whole 0) eqn:E.
  - apply Qeq_bool_iff in E. contradiction.
  - reflexivity.
Qed.

Lemma percentage_zero (part whole : Q) (digits : nat) :
  whole == 0 -> percentage part whole digits = Raise ZeroDivisionError.
Proof.
  intros H. unfold percentage, float_div.
  apply Qeq_bool_iff in H. rewrite H. reflexivity.
Qed.

(** ** Columns that cannot be processed *)

Lemma get_non_missing_strings (df : DataFrame) (c : string)
  (vs : list (option string)) :
  lookup_column c (df_columns df) = Some (StrSeries vs) ->
  exists non_na,
    get_non_missing df c = Ok non_na
    /\ lookup_column c (df_columns non_na)
       = Some (StrSeries (map Some (present vs))).
Proof.
  intros H. exists (boolean_index df (map negb (map is_none vs))).
  split; [unfold get_non_missing; rewrite H; reflexivity|].
  unfold boolean_index; simpl. rewrite lookup_column_select, H. simpl.
  rewrite non_missing_values. reflexivity.
Qed.

Lemma present_nil_all_none {A : Type} (vs : list (option A)) :
  present vs = [] -> forallb negb (map negb (map is_none vs)) = true.
Proof.
  induction vs as [|[v|] vs IH]; simpl; auto; discriminate.
Qed.

(** C5, amended.  [get_outliers] does not validate the column and has
    no error of its own.  It raises [KeyError] (from pandas, in
    [get_non_missing]) when the frame has no column of the name, and
    [TypeError] (from the computation of the rule) when the column is a
    column of strings with at least one present value; the exception
    reaches the caller of [get_outliers], and the caller of
    [get_non_outliers], as it is.  A column of strings without a present
    value is not refused as such either: under the INTERQUARTILE method
    the two queries return a frame without rows, and under the ZSCORE
    method they raise the [AttributeError] of scipy. *)
Theorem get_outliers_invalid_column (self : OutlierHandler) (df : DataFrame)
  (column : string) :
  (lookup_column column (df_columns df) = None ->
   get_outliers self df column = Raise (KeyError (KeyList [column]))
   /\ get_non_outliers self df column = Raise (KeyError (KeyList [column])))
  /\ (forall vs,
        lookup_column column (df_columns df) = Some (StrSeries vs) ->
        present vs <> [] ->
        get_outliers self df column = Raise TypeError
        /\ get_non_outliers self df column = Raise TypeError)
  /\ (forall vs,
        lookup_column column (df_columns df) = Some (StrSeries vs) ->
        present vs = [] ->
        match calculation_method self with
        | INTERQUARTILE =>
            exists outliers non_outliers,
              get_outliers self df column = Ok outliers
              /\ get_non_outliers self df column = Ok non_outliers
              /\ nrows outliers = 0%nat /\ nrows non_outliers = 0%nat
        | ZSCORE =>
            get_outliers self df column = Raise AttributeError
            /\ get_non_outliers self df column = Raise AttributeError
        end).
Proof.
  split; [|split].
  - intros H. unfold get_non_outliers, get_outliers, get_non_missing.
    rewrite H. split; reflexivity.
  - intros vs H Hne.
    destruct (get_non_missing_strings df column vs H) as [non_na [Hnn Hl]].
    assert (Ho : get_outliers self df column = Raise TypeError).
    { unfold get_outliers. rewrite Hnn. cbn [bind].
      destruct self as [[|]]; cbn [calculation_method outlier_calculation_methods].
      - unfold calculate_outliers_interquartile, getitem. rewrite Hl.
        cbn [bind]. unfold quantile. rewrite present_map_Some.
        destruct (present vs); [contradiction | reflexivity].
      - unfold calculate_outliers_zscore, getitem. rewrite Hl.
        cbn [bind]. unfold zscore. rewrite length_map.
        destruct (present vs); [contradiction | reflexivity]. }
    split; [exact Ho|].
    unfold get_non_outliers. rewrite Hnn. cbn [bind]. rewrite Ho.
    reflexivity.
  - intros vs H Hnone.
    destruct (get_non_missing_strings df column vs H) as [non_na [Hnn Hl]].
    rewrite Hnone in Hl. cbn [map] in Hl.
    assert (Hrows : nrows non_na = 0%nat).
    { unfold get_non_missing in Hnn. rewrite H in Hnn.
      injection Hnn as <-. unfold nrows, boolean_index; cbn [df_index isna].
      rewrite (mask_select_all_false _ _ (present_nil_all_none vs Hnone)).
      reflexivity. }
    destruct self as [[|]]; cbn [calculation_method].
    + assert (Ho : get_outliers (mkOutlierHandler INTERQUARTILE) df column
                   = Ok (boolean_index non_na [])).
      { unfold get_outliers. rewrite Hnn.
        cbn [bind calculation_method outlier_calculation_methods].
        unfold calculate_outliers_interquartile, getitem. rewrite Hl.
        reflexivity. }
      exists (boolean_index non_na []),
        (filter_dataframe_out non_na (boolean_index non_na [])).
      split; [exact Ho|]. split.
      * unfold get_non_outliers. rewrite Hnn. cbn [bind]. rewrite Ho.
        reflexivity.
      * split; [reflexivity|].
        unfold filter_dataframe_out. apply nrows_boolean_index_nil, Hrows.
    + assert (Ho : get_outliers (mkOutlierHandler ZSCORE) df column
                   = Raise AttributeError).
      { unfold get_outliers. rewrite Hnn.
        cbn [bind calculation_method outlier_calculation_methods].
        unfold calculate_outliers_zscore, getitem. rewrite Hl.
        reflexivity. }
      split; [exact Ho|].
      unfold get_non_outliers. rewrite Hnn. cbn [bind]. rewrite Ho.
      reflexivity.
Qed.

Lemma get_outliers_invalid_column_witness :
  (get_outliers example_handler_iqr example_df "b"
   = Raise (KeyError (KeyList ["b"%string]))
   /\ get_non_outliers example_handler_iqr example_df "b"
      = Raise (KeyError (KeyList ["b"%string])))
  /\ (get_outliers example_handler_iqr example_df "name" = Raise TypeError
      /\ get_non_outliers example_handler_iqr example_df "name"
         = Raise TypeError)
  /\ (get_outliers default_handler all_missing_df "name"
      = Raise AttributeError
      /\ get_non_outliers default_handler all_missing_df "name"
         = Raise AttributeError).
Proof.
  destruct (get_outliers_invalid_column example_handler_iqr example_df "b")
    as [Habsent _].
  destruct (get_outliers_invalid_column example_handler_iqr example_df "name")
    as [_ [Hstrings _]].
  destruct (get_outliers_invalid_column default_handler all_missing_df "name")
    as [_ [_ Hnone]].
  split; [|split].
  - apply Habsent. reflexivity.
  - apply (Hstrings [Some "x"%string; None; Some "y"%string; Some "z"%string;
                     Some "u"%string; Some "v"%string]).
    + reflexivity.
    + discriminate.
  - apply (Hnone [None; None]); reflexivity.
Defined.

(** C5, counterexample.  On a column of strings that holds no value,
    [get_outliers] under the INTERQUARTILE method does not fail: the
    quartiles are NaN and the result is the frame without rows. *)
Lemma get_outliers_accepts_empty_strings :
  lookup_column "name" (df_columns all_missing_df)
  = Some (StrSeries [None; None])
  /\ is_numeric_dtype (StrSeries [None; None]) = false
  /\ get_outliers example_handler_iqr all_missing_df "name"
     = Ok (mkDataFrame []
             [("a"%string, NumSeries []); ("name"%string, StrSeries [])]).
Proof. repeat split. Qed.

(** ** Dictionaries and the selection of columns *)

Lemma dict_get_set {V : Type} (k k' : string) (v : V) (d : dict V) :
  dict_get k' (dict_set k v d)
  = if String.eqb k' k then Some v else dict_get k' d.
Proof.
  induction d as [|[k0 v0] d IH]; simpl.
  - reflexivity.
  - destruct (String.eqb_spec k k0) as [->|Hk]; simpl.
    + destruct (String.eqb_spec k' k0); reflexivity.
    + rewrite IH. destruct (String.eqb_spec k' k0) as [->|Hk'].
      * destruct (String.eqb_spec k0 k); [congruence | reflexivity].
      * reflexivity.
Qed.

Lemma str_in_In (c : string) (l : list string) :
  str_in c l = true <-> In c l.
Proof.
  unfold str_in. rewrite existsb_exists. split.
  - intros [x [Hx E]]. apply String.eqb_eq in E. subst. exact Hx.
  - intros H. exists c. split; [exact H | apply String.eqb_refl].
Qed.

Lemma str_in_filter_other (x c : string) (l : list string) :
  x <> c ->
  str_in x (filter (fun y => negb (String.eqb y c)) l) = str_in x l.
Proof.
  intros Hne. induction l as [|y l IH]; [reflexivity|].
  cbn [filter]. destruct (String.eqb_spec y c) as [->|Hy]; cbn [negb].
  - rewrite IH. unfold str_in. cbn [existsb].
    destruct (String.eqb_spec x c); [contradiction | reflexivity].
  - unfold str_in in *. cbn [existsb]. rewrite IH. reflexivity.
Qed.

Lemma column_selected_numeric (df : DataFrame) (columns : list string)
  (c : string) :
  column_selected df columns c = true ->
  exists vs, lookup_column c (df_columns df) = Some (NumSeries vs).
Proof.
  unfold column_selected, selected.
  destruct (lookup_column c (df_columns df)) as [[vs|vs]|]; simpl;
    try discriminate.
  eauto.
Qed.

Lemma column_selected_no_filter (df : DataFrame) (c : string)
  (vs : list (option Q)) :
  lookup_column c (df_columns df) = Some (NumSeries vs) ->
  column_selected df [] c = true.
Proof. intros H. unfold column_selected. rewrite H. reflexivity. Qed.

Lemma column_selected_filter (df : DataFrame) (columns : list string)
  (c : string) (vs : list (option Q)) :
  lookup_column c (df_columns df) = Some (NumSeries vs) ->
  In c columns ->
  column_selected df columns c = true.
Proof.
  intros H Hin. unfold column_selected, selected. rewrite H.
  apply str_in_In in Hin. rewrite Hin. apply orb_true_r.
Qed.

Lemma column_selected_strings (df : DataFrame) (columns : list string)
  (c : string) (vs : list (option string)) :
  lookup_column c (df_columns df) = Some (StrSeries vs) ->
  column_selected df columns c = false.
Proof. intros H. unfold column_selected. rewrite H. reflexivity. Qed.

Lemma column_selected_excluded (df : DataFrame) (columns : list string)
  (c : string) :
  columns <> [] -> ~ In c columns -> column_selected df columns c = false.
Proof.
  intros Hne Hin. unfold column_selected, selected.
  destruct (lookup_column c (df_columns df)) as [s|]; [|reflexivity].
  destruct columns as [|x columns]; [contradiction|]. cbn [nonempty negb orb].
  destruct (str_in c (x :: columns)) eqn:E.
  - apply str_in_In in E. contradiction.
  - apply andb_false_r.
Qed.

Lemma column_selected_absent (df : DataFrame) (columns : list string)
  (c : string) :
  ~ In c (column_names df) -> column_selected df columns c = false.
Proof.
  intros H. unfold column_selected.
  destruct (lookup_column c (df_columns df)) as [s|] eqn:E; [|reflexivity].
  elim H. apply lookup_column_names. eauto.
Qed.

Create HintDb selection.

#[local] Hint Resolve column_selected_no_filter column_selected_filter
  column_selected_strings column_selected_excluded column_selected_absent
  : selection.

(** ** Computations that print *)

Lemma obind_lift_ok {A B : Type} (a : A) (k : A -> out B) :
  obind (lift (Ok a)) k = k a.
Proof. unfold obind, lift. destruct (k a). reflexivity. Qed.

Lemma obind_ret {A B : Type} (a : A) (k : A -> out B) :
  obind (ret a) k = k a.
Proof. unfold obind, ret. destruct (k a). reflexivity. Qed.

Lemma count_Q_zero (n : nat) : count_Q n == 0 <-> n = 0%nat.
Proof.
  unfold count_Q, Qeq. simpl. lia.
Qed.

Lemma log_column_information_ok (d : dict ColumnReport) :
  exists lines,
    log_column_information d = (lines, Ok tt)
    /\ forall c, ~ In (PrintWarning c) lines.
Proof.
  induction d as [|[c info] d IH].
  - exists []. split; [reflexivity | intros c []].
  - destruct IH as [lines [Hrun Hno]].
    cbn [log_column_information]. unfold print. cbn [obind].
    rewrite Hrun. eexists. split; [reflexivity|].
    intros c' Hin. simpl in Hin.
    destruct Hin as [E|[E|[E|[E|[E|Hin]]]]]; try discriminate.
    apply (Hno c' Hin).
Qed.

(** ** The loop of [get_outliers_information] *)

Section Report.

Variable self : OutlierHandler.
Variable df : DataFrame.
Variable output_dataframes : bool.
Hypothesis Hwf : wf_df df.

(** On a frame with at least one row, the body of the loop returns the
    entry of a numeric column, and prints the warning exactly when the
    three counts do not sum to the number of rows. *)
Lemma column_entry_ok (c : string) (vs : list (option Q)) :
  nrows df <> 0%nat ->
  lookup_column c (df_columns df) = Some (NumSeries vs) ->
  exists m o n,
    get_missing df c = Ok m
    /\ get_outliers self df c = Ok o
    /\ get_non_outliers self df c = Ok n
    /\ column_entry self df output_dataframes c
       = ((if Nat.eqb (nrows m + nrows o + nrows n) (nrows df)
           then [] else [PrintWarning c]),
          Ok {| missing_values_count := nrows m;
                missing_values_percentage :=
                  round_digits (100 * count_Q (nrows m)
                                / count_Q (nrows df)) 4;
                outlier_values_count := nrows o;
                outlier_values_percentage :=
                  round_digits (100 * count_Q (nrows o)
                                / count_Q (nrows df)) 4;
                non_outlier_values_count := nrows n;
                non_outlier_values_percentage :=
                  round_digits (100 * count_Q (nrows n)
                                / count_Q (nrows df)) 4;
                missing_values_df :=
                  if output_dataframes then Some m else None;
                outlier_values_df :=
                  if output_dataframes then Some o else None;
                non_outlier_values_df :=
                  if output_dataframes then Some n else None |}).
Proof.
  intros Hrows H.
  destruct (outliers_as_selection self df c vs Hwf H)
    as [mask [_ [Hm [Hnn [Ho Hn]]]]].
  do 3 eexists. split; [exact Hm|]. split; [exact Ho|]. split; [exact Hn|].
  assert (Hw : ~ count_Q (nrows df) == 0).
  { intros E. apply count_Q_zero in E. contradiction. }
  unfold column_entry. rewrite Hm, Hnn, Ho, Hn.
  rewrite !obind_lift_ok.
  rewrite !(percentage_nonzero _ _ 4 Hw).
  destruct (Nat.eqb _ (nrows df)); cbn [negb].
  - rewrite obind_ret, !obind_lift_ok. reflexivity.
  - unfold print. cbn [obind]. rewrite !obind_lift_ok. reflexivity.
Qed.

(** On a frame without rows the three counts are zero. *)
Lemma zero_rows_counts (c : string) (vs : list (option Q))
  (m o n : DataFrame) :
  nrows df = 0%nat ->
  lookup_column c (df_columns df) = Some (NumSeries vs) ->
  get_missing df c = Ok m ->
  get_outliers self df c = Ok o ->
  get_non_outliers self df c = Ok n ->
  nrows m = 0%nat /\ nrows o = 0%nat /\ nrows n = 0%nat.
Proof.
  intros Hrows H Hm Ho Hn.
  destruct (outliers_as_selection self df c vs Hwf H)
    as [mask [_ [Hm' [_ [Ho' Hn']]]]].
  rewrite Hm' in Hm. rewrite Ho' in Ho. rewrite Hn' in Hn.
  injection Hm as <-. injection Ho as <-. injection Hn as <-.
  unfold filter_dataframe_out.
  rewrite !nrows_boolean_index_nil; auto using nrows_boolean_index_nil.
Qed.

(** On a frame without rows, the body of the loop raises: the percentages
    divide by the number of rows. *)
Lemma column_entry_zero_rows (c : string) (vs : list (option Q)) :
  nrows df = 0%nat ->
  lookup_column c (df_columns df) = Some (NumSeries vs) ->
  column_entry self df output_dataframes c = ([], Raise ZeroDivisionError).
Proof.
  intros Hrows H.
  destruct (outliers_as_selection self df c vs Hwf H)
    as [mask [_ [Hm [Hnn [Ho Hn]]]]].
  destruct (zero_rows_counts c vs _ _ _ Hrows H Hm Ho Hn) as [Zm [Zo Zn]].
  unfold column_entry. rewrite Hm, Hnn, Ho, Hn.
  rewrite !obind_lift_ok. rewrite Zm, Zo, Zn, Hrows.
  cbn [Nat.add Nat.eqb negb]. rewrite obind_ret.
  rewrite (percentage_zero _ _ 4) by reflexivity.
  reflexivity.
Qed.

(** The body of the loop prints no warning but that of its column. *)
Lemma column_entry_warning (columns : list string) (c c' : string) :
  nrows df <> 0%nat ->
  column_selected df columns c' = true ->
  In (PrintWarning c) (fst (column_entry self df output_dataframes c')) ->
  c = c'.
Proof.
  intros Hrows Hsel Hin.
  destruct (column_selected_numeric df columns c' Hsel) as [vs Hvs].
  destruct (column_entry_ok c' vs Hrows Hvs) as [m [o [n [_ [_ [_ He]]]]]].
  rewrite He in Hin. cbn [fst] in Hin.
  destruct (Nat.eqb _ _); [destruct Hin|].
  destruct Hin as [E|[]]. congruence.
Qed.

(** The loop on a frame with at least one row: it returns; the result
    holds the entry of every selected column among the names visited and
    is unchanged elsewhere; what is printed is what the bodies print. *)
Lemma for_columns_run (columns : list string) :
  nrows df <> 0%nat ->
  forall (names : list string) (r0 : dict ColumnReport),
    (forall c, In c names -> In c (column_names df)) ->
    exists printed_lines result,
      for_columns self df output_dataframes columns names r0
      = (printed_lines, Ok result)
      /\ (forall c,
            dict_get c result
            = if str_in c names && column_selected df columns c
              then match snd (column_entry self df output_dataframes c) with
                   | Ok e => Some e
                   | Raise _ => None
                   end
              else dict_get c r0)
      /\ (forall p,
            In p printed_lines <->
            exists c, In c names /\ column_selected df columns c = true
                      /\ In p (fst (column_entry self df
                                      output_dataframes c))).
Proof.
  intros Hrows names.
  induction names as [|c names IH]; intros r0 Hnames.
  - exists [], r0. split; [reflexivity|]. split.
    + intros c. reflexivity.
    + intros p. split; [intros [] | intros [c [[] _]]].
  - assert (Hc : In c (column_names df)) by (apply Hnames; left; reflexivity).
    apply lookup_column_names in Hc. destruct Hc as [s Hs].
    assert (Hnames' : forall c', In c' names -> In c' (column_names df))
      by (intros c' Hc'; apply Hnames; right; exact Hc').
    cbn [for_columns]. unfold getitem. rewrite Hs, obind_lift_ok.
    assert (Hsel : column_selected df columns c = selected s columns c)
      by (unfold column_selected; rewrite Hs; reflexivity).
    destruct (selected s columns c) eqn:Es.
    + destruct (column_selected_numeric df columns c Hsel) as [vs Hvs].
      destruct (column_entry_ok c vs Hrows Hvs)
        as [m [o [n [_ [_ [_ He]]]]]].
      rewrite He. cbn [obind].
      match goal with
      | |- context [for_columns _ _ _ _ _ (dict_set c ?e r0)] =>
          destruct (IH (dict_set c e r0) Hnames')
            as [out' [res' [Hrun [Hget Hout]]]]
      end.
      rewrite Hrun. eexists _, res'. split; [reflexivity|]. split.
      * intros c'. rewrite Hget, dict_get_set.
        unfold str_in. cbn [existsb]. fold (str_in c' names).
        destruct (String.eqb_spec c' c) as [->|Hne].
        -- rewrite Hsel, He. cbn [orb andb snd].
           destruct (str_in c names); reflexivity.
        -- reflexivity.
      * intros p. rewrite in_app_iff, Hout. split.
        -- intros [Hp|[c' [Hc' [Hs' Hp]]]].
           ++ exists c. rewrite He. cbn [fst]. repeat split; auto.
              left; reflexivity.
           ++ exists c'. repeat split; auto. right; exact Hc'.
        -- intros [c' [[<-|Hc'] [Hs' Hp]]].
           ++ left. rewrite He in Hp. exact Hp.
           ++ right. exists c'. auto.
    + destruct (IH r0 Hnames') as [out' [res' [Hrun [Hget Hout]]]].
      exists out', res'. split; [exact Hrun|]. split.
      * intros c'. rewrite Hget.
        unfold str_in. cbn [existsb]. fold (str_in c' names).
        destruct (String.eqb_spec c' c) as [->|Hne]; [|reflexivity].
        rewrite Hsel. cbn [orb]. rewrite !andb_false_r. reflexivity.
      * intros p. rewrite Hout. split.
        -- intros [c' [Hc' H']]. exists c'.
           split; [right; exact Hc' | exact H'].
        -- intros [c' [[<-|Hc'] [Hs' Hp]]]; [congruence|].
           exists c'. auto.
Qed.

(** The loop on a frame without rows: it raises at the first selected
    column, and returns its initial result when no column is selected. *)
Lemma for_columns_zero_rows (columns : list string) :
  nrows df = 0%nat ->
  forall (names : list string) (r0 : dict ColumnReport),
    (forall c, In c names -> In c (column_names df)) ->
    for_columns self df output_dataframes columns names r0
    = if existsb (column_selected df columns) names
      then ([], Raise ZeroDivisionError)
      else ([], Ok r0).
Proof.
  intros Hrows names.
  induction names as [|c names IH]; intros r0 Hnames.
  - reflexivity.
  - assert (Hc : In c (column_names df)) by (apply Hnames; left; reflexivity).
    apply lookup_column_names in Hc. destruct Hc as [s Hs].
    cbn [for_columns existsb]. unfold getitem. rewrite Hs, obind_lift_ok.
    assert (Hsel : column_selected df columns c = selected s columns c)
      by (unfold column_selected; rewrite Hs; reflexivity).
    rewrite Hsel. destruct (selected s columns c) eqn:Es.
    + destruct (column_selected_numeric df columns c Hsel) as [vs Hvs].
      rewrite (column_entry_zero_rows c vs Hrows Hvs).
      reflexivity.
    + cbn [orb]. apply IH. intros c' Hc'. apply Hnames. right. exact Hc'.
Qed.

(** [get_outliers_information] on a frame with at least one row: it
    returns the report of the selected columns, and the warnings printed
    are those of the bodies. *)
Lemma get_outliers_information_run (columns : list string)
  (log_information : bool) :
  nrows df <> 0%nat ->
  exists printed_lines result,
    get_outliers_information self df output_dataframes columns log_information
    = (printed_lines, Ok result)
    /\ (forall c,
          column_selected df columns c = true ->
          exists e, dict_get c result = Some e
                    /\ snd (column_entry self df output_dataframes c) = Ok e)
    /\ (forall c,
          column_selected df columns c = false ->
          dict_get c result = None /\ ~ In (PrintWarning c) printed_lines)
    /\ (forall c,
          In (PrintWarning c) printed_lines <->
          column_selected df columns c = true
          /\ In (PrintWarning c)
               (fst (column_entry self df output_dataframes c))).
Proof.
  intros Hrows.
  destruct (for_columns_run columns Hrows (column_names df) []
              (fun c H => H))
    as [out [res [Hrun [Hget Hout]]]].
  destruct (log_column_information_ok res) as [lines [Hlog Hno]].
  unfold get_outliers_information. rewrite Hrun. cbn [obind].
  exists (out ++ (if log_information then lines else []) ++ []), res.
  assert (Hnames : forall c, column_selected df columns c = true ->
                             str_in c (column_names df) = true).
  { intros c Hs. apply str_in_In, lookup_column_names.
    unfold column_selected in Hs.
    destruct (lookup_column c (df_columns df)) as [s|]; [eauto|discriminate]. }
  assert (Hw : forall c,
             In (PrintWarning c)
                (out ++ (if log_information then lines else []) ++ [])
             <-> column_selected df columns c = true
                 /\ In (PrintWarning c)
                      (fst (column_entry self df output_dataframes c))).
  { intros c. rewrite !in_app_iff, Hout. split.
    - intros [[c' [_ [Hs' Hp]]]|[H|[]]].
      + pose proof (column_entry_warning columns c c' Hrows Hs' Hp) as E.
        subst c'. auto.
      + destruct log_information; [|destruct H]. elim (Hno c H).
    - intros [Hs Hp]. left. exists c. repeat split; auto.
      apply str_in_In, Hnames, Hs. }
  split; [|split; [|split; [|exact Hw]]].
  - destruct log_information.
    + rewrite Hlog. cbn [obind ret]. reflexivity.
    + cbn [obind ret]. reflexivity.
  - intros c Hs. rewrite Hget, (Hnames c Hs), Hs. cbn [andb].
    destruct (column_selected_numeric df columns c Hs) as [vs Hvs].
    destruct (column_entry_ok c vs Hrows Hvs) as [m [o [n [_ [_ [_ He]]]]]].
    rewrite He. cbn [snd]. eauto.
  - intros c Hs. split.
    + rewrite Hget, Hs, andb_false_r. reflexivity.
    + intros Hin. apply Hw in Hin. destruct Hin as [Hs' _]. congruence.
Qed.

End Report.

(** The loop uses the filter only in the test of line 86. *)
Lemma for_columns_ext (self : OutlierHandler) (df : DataFrame)
  (output_dataframes : bool) (columns columns' : list string)
  (names : list string) :
  (forall x, In x names ->
             column_selected df columns x = column_selected df columns' x) ->
  forall r0,
    for_columns self df output_dataframes columns names r0
    = for_columns self df output_dataframes columns' names r0.
Proof.
  induction names as [|x names IH]; intros Hsel r0; [reflexivity|].
  cbn [for_columns]. unfold getitem.
  pose proof (Hsel x (or_introl eq_refl)) as Hx. unfold column_selected in Hx.
  assert (IH' : forall r, for_columns self df output_dataframes columns names r
                  = for_columns self df output_dataframes columns' names r).
  { apply IH. intros y Hy. apply Hsel. right. exact Hy. }
  destruct (lookup_column x (df_columns df)) as [s|]; [|reflexivity].
  rewrite !obind_lift_ok, Hx.
  destruct (selected s columns' x); [|apply IH'].
  destruct (column_entry self df output_dataframes x) as [w [e|e]];
    cbn [obind]; [rewrite IH'|]; reflexivity.
Qed.

Lemma for_columns_none_selected (self : OutlierHandler) (df : DataFrame)
  (output_dataframes : bool) (columns : list string) (names : list string) :
  (forall x, In x names -> In x (column_names df)) ->
  (forall x, In x names -> column_selected df columns x = false) ->
  forall r0,
    for_columns self df output_dataframes columns names r0 = ([], Ok r0).
Proof.
  induction names as [|x names IH]; intros Hnames Hsel r0; [reflexivity|].
  cbn [for_columns]. unfold getitem.
  pose proof (Hsel x (or_introl eq_refl)) as Hx. unfold column_selected in Hx.
  assert (Hc : In x (column_names df)) by (apply Hnames; left; reflexivity).
  apply lookup_column_names in Hc. destruct Hc as [s Hs].
  rewrite Hs in *. rewrite obind_lift_ok, Hx.
  apply IH; intros y Hy; [apply Hnames | apply Hsel]; right; exact Hy.
Qed.

(** ** Percentages in the report *)




Example percentage_one_third : percentage 1 3 4 = Ok (333333 # 10000).
Proof. reflexivity. Qed.

(** ** The warning *)

(** C6.  When, for a selected column, the counts of missing, outlier and
    non outlier rows do not sum to the number of rows of the frame,
    [get_outliers_information] prints the warning for the column and goes
    on: it returns a report; the report holds the entry of the column,
    with these counts and their percentages; and it holds an entry for
    every other selected column as well. *)
Theorem warning_does_not_abort (self : OutlierHandler) (df : DataFrame)
  (output_dataframes : bool) (columns : list string) (log_information : bool)
  (column : string) (m o n : DataFrame) :
  wf_df df ->
  column_selected df columns column = true ->
  get_missing df column = Ok m ->
  get_outliers self df column = Ok o ->
  get_non_outliers self df column = Ok n ->
  (nrows m + nrows o + nrows n)%nat <> nrows df ->
  exists printed_lines result,
    get_outliers_information self df output_dataframes columns log_information
    = (printed_lines, Ok result)
    /\ In (PrintWarning column) printed_lines
    /\ (exists e,
          dict_get column result = Some e
          /\ missing_values_count e = nrows m
          /\ outlier_values_count e = nrows o
          /\ non_outlier_values_count e = nrows n
          /\ percentage (count_Q (nrows m)) (count_Q (nrows df)) 4
             = Ok (missing_values_percentage e)
          /\ percentage (count_Q (nrows o)) (count_Q (nrows df)) 4
             = Ok (outlier_values_percentage e)
          /\ percentage (count_Q (nrows n)) (count_Q (nrows df)) 4
             = Ok (non_outlier_values_percentage e))
    /\ (forall c, column_selected df columns c = true ->
                  exists e, dict_get c result = Some e).
Proof.
  intros Hwf Hsel Hm Ho Hn Hsum.
  destruct (column_selected_numeric df columns column Hsel) as [vs Hvs].
  assert (Hrows : nrows df <> 0%nat).
  { intros Hz.
    destruct (zero_rows_counts self df Hwf column vs m o n Hz Hvs Hm Ho Hn)
      as [Zm [Zo Zn]].
    apply Hsum. rewrite Zm, Zo, Zn, Hz. reflexivity. }
  destruct (get_outliers_information_run self df output_dataframes Hwf
              columns log_information Hrows)
    as [lines [result [Hrun [Hentry [_ Hwarn]]]]].
  exists lines, result. split; [exact Hrun|].
  destruct (column_entry_ok self df output_dataframes Hwf column vs Hrows Hvs)
    as [m' [o' [n' [Hm' [Ho' [Hn' He]]]]]].
  rewrite Hm in Hm'. rewrite Ho in Ho'. rewrite Hn in Hn'.
  injection Hm' as <-. injection Ho' as <-. injection Hn' as <-.
  apply Nat.eqb_neq in Hsum. rewrite Hsum in He.
  assert (Hw : ~ count_Q (nrows df) == 0).
  { intros E. apply count_Q_zero in E. contradiction. }
  split; [|split].
  - apply Hwarn. split; [exact Hsel|]. rewrite He. left. reflexivity.
  - destruct (Hentry column Hsel) as [e [Hget Hsnd]].
    exists e. split; [exact Hget|].
    rewrite He in Hsnd. cbn [snd] in Hsnd. injection Hsnd as <-.
    cbn. rewrite !(percentage_nonzero _ _ 4 Hw). repeat split.
  - intros c Hc. destruct (Hentry c Hc) as [e [Hget _]]. eauto.
Qed.

Lemma warning_does_not_abort_witness :
  exists printed_lines result,
    get_outliers_information example_handler_iqr repeated_label_df
      false [] false
    = (printed_lines, Ok result)
    /\ In (PrintWarning "a") printed_lines
    /\ (exists e,
          dict_get "a"%string result = Some e
          /\ missing_values_count e = 0%nat
          /\ outlier_values_count e = 1%nat
          /\ non_outlier_values_count e = 3%nat
          /\ percentage (count_Q 0) (count_Q 5) 4
             = Ok (missing_values_percentage e)
          /\ percentage (count_Q 1) (count_Q 5) 4
             = Ok (outlier_values_percentage e)
          /\ percentage (count_Q 3) (count_Q 5) 4
             = Ok (non_outlier_values_percentage e))
    /\ (forall c, column_selected repeated_label_df [] c = true ->
                  exists e, dict_get c result = Some e).
Proof.
  apply (warning_does_not_abort example_handler_iqr repeated_label_df
           false [] false "a"
           repeated_label_missing repeated_label_outliers
           repeated_label_non_outliers).
  - wf_by_computation.
  - reflexivity.
  - reflexivity.
  - vm_compute. reflexivity.
  - vm_compute. reflexivity.
  - vm_compute. discriminate.
Defined.

(** The report of that frame: the warning for [a], and both entries. *)
Example report_with_warning :
  get_outliers_information example_handler_iqr repeated_label_df
    false [] false
  = ([PrintWarning "a"],
     Ok [("a"%string,
          mkColumnReport 0 (0 # 10000) 1 (200000 # 10000) 3 (600000 # 10000)
            None None None);
         ("b"%string,
          mkColumnReport 0 (0 # 10000) 0 (0 # 10000) 5 (1000000 # 10000)
            None None None)]).
Proof. vm_compute. reflexivity. Qed.

(** ** The columns of the report *)

(** The report of the column [10, 12, 11, 13, None, 200] under the
    INTERQUARTILE method: one missing value, one outlier, four other
    values, in percent of the six rows. *)
Example report_of_example :
  get_outliers_information example_handler_iqr example_df false [] false
  = ([],
     Ok [("a"%string,
          mkColumnReport 1 (166667 # 10000) 1 (166667 # 10000)
            4 (666667 # 10000) None None None)]).
Proof. vm_compute. reflexivity. Qed.

Lemma none_selected (df : DataFrame) (columns : list string) :
  existsb (column_selected df columns) (column_names df) = false ->
  forall c, column_selected df columns c = false.
Proof.
  intros Hnone c.
  destruct (column_selected df columns c) eqn:E; [|reflexivity].
  assert (Hin : In c (column_names df)).
  { destruct (column_selected_numeric df columns c E) as [vs Hvs].
    apply lookup_column_names. eauto. }
  assert (Hex : existsb (column_selected df columns) (column_names df) = true)
    by (apply existsb_exists; eauto).
  congruence.
Qed.

(** C7, amended.  On a frame of numeric ([float64], [int64]) and string
    columns that has at least one row, or in which no column is selected
    (no numeric column, or none that the filter names),
    [get_outliers_information] returns a report such that: without a
    filter, every numeric column has an entry; with a filter, every
    numeric column the filter names has an entry; a column of strings, and
    a column that a non empty filter does not name, has no entry and no
    warning is printed for it. *)
Theorem report_entries (self : OutlierHandler) (df : DataFrame)
  (output_dataframes : bool) (columns : list string) (log_information : bool) :
  wf_df df ->
  nrows df <> 0%nat
  \/ existsb (column_selected df columns) (column_names df) = false ->
  exists printed_lines result,
    get_outliers_information self df output_dataframes columns log_information
    = (printed_lines, Ok result)
    /\ (columns = [] ->
        forall c vs, lookup_column c (df_columns df) = Some (NumSeries vs) ->
                     exists e, dict_get c result = Some e)
    /\ (forall c vs, lookup_column c (df_columns df) = Some (NumSeries vs) ->
                     In c columns ->
                     exists e, dict_get c result = Some e)
    /\ (forall c vs, lookup_column c (df_columns df) = Some (StrSeries vs) ->
                     dict_get c result = None
                     /\ ~ In (PrintWarning c) printed_lines)
    /\ (forall c, columns <> [] -> ~ In c columns ->
                  dict_get c result = None
                  /\ ~ In (PrintWarning c) printed_lines).
Proof.
  intros Hwf Hrun.
  destruct (Nat.eq_dec (nrows df) 0) as [Hz|Hrows].
  - destruct Hrun as [Hrows|Hnone]; [contradiction|].
    exists [], []. split.
    + unfold get_outliers_information.
      rewrite (for_columns_zero_rows self df output_dataframes Hwf columns
                 Hz (column_names df) [] (fun c H => H)), Hnone.
      destruct log_information; reflexivity.
    + pose proof (none_selected df columns Hnone) as Hsel.
      split; [|split; [|split]].
      * intros -> c vs H.
        pose proof (column_selected_no_filter df c vs H) as E.
        rewrite Hsel in E. discriminate.
      * intros c vs H Hc.
        pose proof (column_selected_filter df columns c vs H Hc) as E.
        rewrite Hsel in E. discriminate.
      * intros c vs H. split; [reflexivity | intros []].
      * intros c Hne Hc. split; [reflexivity | intros []].
  - destruct (get_outliers_information_run self df output_dataframes Hwf
                columns log_information Hrows)
      as [lines [result [Hr [Hentry [Hskip _]]]]].
    exists lines, result. split; [exact Hr|].
    assert (Hin : forall c, column_selected df columns c = true ->
                            exists e, dict_get c result = Some e).
    { intros c Hc. destruct (Hentry c Hc) as [e [Hget _]]. eauto. }
    split; [|split; [|split]].
    + intros -> c vs H. apply Hin. eauto with selection.
    + intros c vs H Hc. apply Hin. eauto with selection.
    + intros c vs H. apply Hskip. eauto with selection.
    + intros c Hne Hc. apply Hskip. auto with selection.
Qed.

(** The theorem at three calls: the example frame without a filter, the
    frame of two numeric columns with a filter that names one, and the
    frame without rows with a filter that names its column of strings. *)
Lemma report_entries_witness :
  (exists printed_lines result,
     get_outliers_information example_handler_iqr example_df true [] true
     = (printed_lines, Ok result)
     /\ (forall c vs,
           lookup_column c (df_columns example_df) = Some (NumSeries vs) ->
           exists e, dict_get c result = Some e)
     /\ (forall c vs,
           lookup_column c (df_columns example_df) = Some (StrSeries vs) ->
           dict_get c result = None /\ ~ In (PrintWarning c) printed_lines))
  /\ (exists printed_lines result,
        get_outliers_information default_handler repeated_label_df true
          ["b"%string] true
        = (printed_lines, Ok result)
        /\ (exists e, dict_get "b" result = Some e)
        /\ dict_get "a" result = None
        /\ ~ In (PrintWarning "a") printed_lines)
  /\ (exists printed_lines result,
        get_outliers_information default_handler empty_df true
          ["name"%string] true
        = (printed_lines, Ok result)
        /\ dict_get "a" result = None
        /\ dict_get "name" result = None).
Proof.
  split; [|split].
  - destruct (report_entries example_handler_iqr example_df true [] true)
      as [lines [result [Hrun [Hall [_ [Hstr _]]]]]].
    + wf_by_computation.
    + left. discriminate.
    + exists lines, result. split; [exact Hrun|]. split.
      * exact (Hall eq_refl).
      * exact Hstr.
  - destruct (report_entries default_handler repeated_label_df true
                ["b"%string] true)
      as [lines [result [Hrun [_ [Hnamed [_ Hexcl]]]]]].
    + wf_by_computation.
    + left. discriminate.
    + exists lines, result. split; [exact Hrun|]. split.
      * apply (Hnamed "b"%string [num 1; num 2; num 3; num 4; num 5]).
        -- reflexivity.
        -- left. reflexivity.
      * apply (Hexcl "a"%string).
        -- discriminate.
        -- intros [H|[]]. discriminate.
  - destruct (report_entries default_handler empty_df true
                ["name"%string] true)
      as [lines [result [Hrun [_ [_ [Hstr Hexcl]]]]]].
    + wf_by_computation.
    + right. reflexivity.
    + exists lines, result. split; [exact Hrun|]. split.
      * apply (Hexcl "a"%string).
        -- discriminate.
        -- intros [H|[]]. discriminate.
      * apply (Hstr "name"%string []). reflexivity.
Defined.

(** C7, counterexample.  On a frame without rows that has a numeric
    column, [get_outliers_information] returns no report: it raises
    [ZeroDivisionError]. *)
Lemma no_report_without_rows :
  wf_df empty_df
  /\ lookup_column "a" (df_columns empty_df) = Some (NumSeries [])
  /\ get_outliers_information default_handler empty_df true [] true
     = ([], Raise ZeroDivisionError).
Proof.
  split; [wf_by_computation|]. split; reflexivity.
Qed.

(** ** Names of the filter that are not columns *)

(** C10.  A name of the filter that is not a column of the frame is
    ignored: [get_outliers_information] behaves as with the filter without
    the name when other names remain, and returns the empty report, with
    nothing printed, when none remains (the filter is then not empty and
    names no column); on a well formed frame the call returns a report
    that has no entry and no warning for the name, the only exception
    being [ZeroDivisionError] on a frame without rows, which the name does
    not cause. *)
Theorem unknown_filter_name_ignored (self : OutlierHandler) (df : DataFrame)
  (output_dataframes : bool) (columns : list string) (log_information : bool)
  (c : string) :
  ~ In c (column_names df) ->
  In c columns ->
  let rest := filter (fun x => negb (String.eqb x c)) columns in
  get_outliers_information self df output_dataframes columns log_information
  = (if nonempty rest
     then get_outliers_information self df output_dataframes rest
            log_information
     else ([], Ok []))
  /\ (wf_df df ->
      (exists printed_lines result,
         get_outliers_information self df output_dataframes columns
           log_information
         = (printed_lines, Ok result)
         /\ dict_get c result = None
         /\ ~ In (PrintWarning c) printed_lines)
      \/ (nrows df = 0%nat
          /\ get_outliers_information self df output_dataframes columns
               log_information
             = ([], Raise ZeroDivisionError))).
Proof.
  intros Hc Hin rest. split.
  - assert (Hsame : forall x, In x (column_names df) ->
              column_selected df columns x
              = (if nonempty rest then column_selected df rest x else false)).
    { intros x Hx. assert (Hne : x <> c) by congruence.
      unfold column_selected, selected.
      destruct (lookup_column x (df_columns df)) as [s|];
        [|destruct (nonempty rest); reflexivity].
      pose proof (str_in_filter_other x c columns Hne) as E. fold rest in E.
      rewrite <- E.
      destruct columns as [|y columns]; [destruct Hin|]. cbn [nonempty].
      destruct rest as [|z rest']; cbn [nonempty negb orb].
      - apply andb_false_r.
      - reflexivity. }
    unfold get_outliers_information.
    destruct (nonempty rest) eqn:Er.
    + rewrite (for_columns_ext self df output_dataframes columns rest
                 (column_names df) Hsame). reflexivity.
    + rewrite (for_columns_none_selected self df output_dataframes columns
                 (column_names df) (fun x H => H) Hsame).
      destruct log_information; reflexivity.
  - intros Hwf. destruct (Nat.eq_dec (nrows df) 0) as [Hz|Hnz].
    + unfold get_outliers_information.
      rewrite (for_columns_zero_rows self df output_dataframes Hwf columns
                 Hz (column_names df) [] (fun x H => H)).
      destruct (existsb (column_selected df columns) (column_names df)).
      * right. split; [exact Hz | reflexivity].
      * left. exists [], []. split.
        -- destruct log_information; reflexivity.
        -- split; [reflexivity | intros []].
    + left.
      destruct (get_outliers_information_run self df output_dataframes Hwf
                  columns log_information Hnz)
        as [lines [result [Hrun [_ [Hskip _]]]]].
      exists lines, result. split; [exact Hrun|].
      apply Hskip. auto with selection.
Qed.

Lemma unknown_filter_name_ignored_witness :
  get_outliers_information example_handler_iqr example_df false
    ["nope"%string; "a"%string] true
  = (if nonempty ["a"%string]
     then get_outliers_information example_handler_iqr example_df false
            ["a"%string] true
     else ([], Ok []))
  /\ (wf_df example_df ->
      (exists printed_lines result,
         get_outliers_information example_handler_iqr example_df false
           ["nope"%string; "a"%string] true
         = (printed_lines, Ok result)
         /\ dict_get "nope"%string result = None
         /\ ~ In (PrintWarning "nope") printed_lines)
      \/ (nrows example_df = 0%nat
          /\ get_outliers_information example_handler_iqr example_df false
               ["nope"%string; "a"%string] true
             = ([], Raise ZeroDivisionError))).
Proof.
  apply (unknown_filter_name_ignored example_handler_iqr example_df false
           ["nope"%string; "a"%string] true "nope").
  - simpl. intros [E|[E|[]]]; discriminate.
  - simpl. auto.
Defined.

(** A filter that names no column of the frame selects nothing: the report
    is empty, although the filter is not. *)
Example filter_of_unknown_names :
  get_outliers_information example_handler_iqr example_df false
    ["nope"%string] true
  = ([], Ok []).
Proof. reflexivity. Qed.

(* ================================================================== *)
(** * Further properties of the handler *)

(** ** Missing and non missing rows *)

Lemma mask_select_map_filter {A : Type} (f : A -> bool) (l : list A) :
  mask_select (map f l) l = filter f l.
Proof.
  induction l as [|x l IH]; simpl; auto. rewrite IH. reflexivity.
Qed.

Lemma mask_select_all_true {A : Type} (mask : list bool) (l : list A) :
  length mask = length l -> forallb (fun b => b) mask = true ->
  mask_select mask l = l.
Proof.
  revert l; induction mask as [|b mask IH]; intros [|x l] Hlen Hall;
    simpl in *; try discriminate; auto.
  destruct b; [|discriminate]. simpl in Hall.
  f_equal. apply IH; [lia | exact Hall].
Qed.

Lemma isna_select_missing (s : Series) :
  forallb (fun b => b) (isna (series_select (isna s) s)) = true.
Proof.
  destruct s as [vs|vs]; simpl; rewrite mask_select_map_filter;
    apply forallb_forall; intros b Hb; apply in_map_iff in Hb;
    destruct Hb as [v [<- Hv]]; apply filter_In in Hv; apply Hv.
Qed.

Lemma isna_select_present (s : Series) :
  existsb (fun b => b) (isna (series_select (map negb (isna s)) s)) = false.
Proof.
  destruct s as [vs|vs]; simpl; rewrite map_map, mask_select_map_filter;
    (destruct (existsb _ _) eqn:E; [|reflexivity]);
    apply existsb_exists in E; destruct E as [b [Hb Hb']]; subst b;
    apply in_map_iff in Hb; destruct Hb as [v [Hv Hin]];
    apply filter_In in Hin; destruct Hin as [_ Hin];
    rewrite Hv in Hin; discriminate.
Qed.

(** X1.  For a column of any dtype and whatever the row labels,
    [get_missing] and [get_non_missing] split the rows of the frame: both
    return, their row labels put together are the row labels of the frame,
    their sizes sum to its number of rows, every value of the column is
    missing in the first result and none is in the second. *)
Theorem missing_and_non_missing_split (df : DataFrame) (column : string)
  (s : Series) :
  wf_df df ->
  lookup_column column (df_columns df) = Some s ->
  exists missing non_missing s_missing s_non_missing,
    get_missing df column = Ok missing
    /\ get_non_missing df column = Ok non_missing
    /\ Permutation (df_index missing ++ df_index non_missing) (df_index df)
    /\ (nrows missing + nrows non_missing = nrows df)%nat
    /\ lookup_column column (df_columns missing) = Some s_missing
    /\ forallb (fun b => b) (isna s_missing) = true
    /\ lookup_column column (df_columns non_missing) = Some s_non_missing
    /\ existsb (fun b => b) (isna s_non_missing) = false.
Proof.
  intros Hwf H.
  assert (Hlen : length (isna s) = length (df_index df)).
  { destruct s; simpl; rewrite length_map;
      apply (wf_lookup_length df column _ Hwf H). }
  assert (Hperm : Permutation
            (mask_select (isna s) (df_index df)
             ++ mask_select (map negb (isna s)) (df_index df))
            (df_index df))
    by (apply mask_select_negb_perm, Hlen).
  exists (boolean_index df (isna s)),
         (boolean_index df (map negb (isna s))),
         (series_select (isna s) s),
         (series_select (map negb (isna s)) s).
  split; [unfold get_missing, getitem; rewrite H; reflexivity|].
  split; [unfold get_non_missing; rewrite H; reflexivity|].
  split; [exact Hperm|].
  split.
  { apply Permutation_length in Hperm. rewrite length_app in Hperm.
    exact Hperm. }
  split; [simpl; rewrite lookup_column_select, H; reflexivity|].
  split; [apply isna_select_missing|].
  split; [simpl; rewrite lookup_column_select, H; reflexivity|].
  apply isna_select_present.
Qed.

Lemma missing_and_non_missing_split_witness :
  exists missing non_missing s_missing s_non_missing,
    get_missing example_df "name" = Ok missing
    /\ get_non_missing example_df "name" = Ok non_missing
    /\ Permutation (df_index missing ++ df_index non_missing)
         (df_index example_df)
    /\ (nrows missing + nrows non_missing = nrows example_df)%nat
    /\ lookup_column "name" (df_columns missing) = Some s_missing
    /\ forallb (fun b => b) (isna s_missing) = true
    /\ lookup_column "name" (df_columns non_missing) = Some s_non_missing
    /\ existsb (fun b => b) (isna s_non_missing) = false.
Proof.
  apply (missing_and_non_missing_split example_df "name"
           (StrSeries [Some "x"%string; None; Some "y"%string;
                       Some "z"%string; Some "u"%string; Some "v"%string])).
  - wf_by_computation.
  - reflexivity.
Defined.

(** ** Selections keep the shape of the frame *)

Lemma column_names_boolean_index (df : DataFrame) (mask : list bool) :
  column_names (boolean_index df mask) = column_names df.
Proof.
  unfold column_names, boolean_index. simpl. rewrite map_map. reflexivity.
Qed.

Lemma dtype_boolean_index (df : DataFrame) (mask : list bool) (c : string) :
  option_map is_numeric_dtype
    (lookup_column c (df_columns (boolean_index df mask)))
  = option_map is_numeric_dtype (lookup_column c (df_columns df)).
Proof.
  simpl. rewrite lookup_column_select.
  destruct (lookup_column c (df_columns df)) as [[vs|vs]|]; reflexivity.
Qed.

(** Whatever the dtype of the column, a rule that returns returns a
    selection of the rows of the frame it is given. *)
Lemma strategy_selection (m : OutlierCalculationMethod) (df : DataFrame)
  (c : string) (r : DataFrame) :
  outlier_calculation_methods m df c = Ok r ->
  exists mask, r = boolean_index df mask.
Proof.
  destruct m; simpl.
  - unfold calculate_outliers_interquartile, getitem.
    destruct (lookup_column c (df_columns df)) as [s|]; cbn [bind];
      [|discriminate].
    destruct (quantile s (1 # 4)) as [q1|]; cbn [bind]; [|discriminate].
    destruct (quantile s (3 # 4)) as [q3|]; cbn [bind]; [|discriminate].
    destruct (series_lt s _) as [below|]; cbn [bind]; [|discriminate].
    destruct (series_gt s _) as [above|]; cbn [bind]; [|discriminate].
    intros E. injection E as <-. eauto.
  - unfold calculate_outliers_zscore, getitem.
    destruct (lookup_column c (df_columns df)) as [s|]; cbn [bind];
      [|discriminate].
    destruct (zscore s) as [zs|]; cbn [bind]; [|discriminate].
    intros E. injection E as <-. eauto.
Qed.

(** The frame and a frame selected from it: well formed, with the same
    columns in the same order and of the same dtypes, and with rows taken
    from the rows of the frame. *)
Lemma selection_keeps_shape (df : DataFrame) (mask : list bool) :
  wf_df df ->
  wf_df (boolean_index df mask)
  /\ column_names (boolean_index df mask) = column_names df
  /\ (forall c,
        option_map is_numeric_dtype
          (lookup_column c (df_columns (boolean_index df mask)))
        = option_map is_numeric_dtype (lookup_column c (df_columns df)))
  /\ (forall l, In l (df_index (boolean_index df mask)) -> In l (df_index df))
  /\ (nrows (boolean_index df mask) <= nrows df)%nat.
Proof.
  intros Hwf. split; [apply wf_boolean_index, Hwf|].
  split; [apply column_names_boolean_index|].
  split; [intros c; apply dtype_boolean_index|].
  split; [intros l; apply mask_select_In | apply mask_select_length_le].
Qed.

(** X3.  What [get_missing], [get_non_missing], [get_outliers] and
    [get_non_outliers] return, for a column of any dtype, is a well formed
    frame with the columns of the frame, in the same order and of the same
    dtypes, whose row labels are row labels of the frame and whose rows
    are no more than those of the frame. *)
Theorem queries_keep_shape (self : OutlierHandler) (df : DataFrame)
  (column : string) (r : DataFrame) :
  wf_df df ->
  get_missing df column = Ok r \/ get_non_missing df column = Ok r
  \/ get_outliers self df column = Ok r
  \/ get_non_outliers self df column = Ok r ->
  wf_df r
  /\ column_names r = column_names df
  /\ (forall c,
        option_map is_numeric_dtype (lookup_column c (df_columns r))
        = option_map is_numeric_dtype (lookup_column c (df_columns df)))
  /\ (forall l, In l (df_index r) -> In l (df_index df))
  /\ (nrows r <= nrows df)%nat.
Proof.
  intros Hwf Hr.
  assert (Htwice : forall mask mask',
             r = boolean_index (boolean_index df mask) mask' ->
             wf_df r
             /\ column_names r = column_names df
             /\ (forall c,
                   option_map is_numeric_dtype
                     (lookup_column c (df_columns r))
                   = option_map is_numeric_dtype
                       (lookup_column c (df_columns df)))
             /\ (forall l, In l (df_index r) -> In l (df_index df))
             /\ (nrows r <= nrows df)%nat).
  { intros mask mask' ->.
    destruct (selection_keeps_shape df mask Hwf)
      as [W1 [N1 [D1 [I1 L1]]]].
    destruct (selection_keeps_shape (boolean_index df mask) mask' W1)
      as [W2 [N2 [D2 [I2 L2]]]].
    split; [exact W2|]. split; [congruence|].
    split; [intros c; rewrite D2; apply D1|].
    split; [intros l Hl; apply I1, I2, Hl | lia]. }
  assert (Hnn : forall nn, get_non_missing df column = Ok nn ->
                           exists mask, nn = boolean_index df mask).
  { unfold get_non_missing. intros nn.
    destruct (lookup_column column (df_columns df)) as [s|]; cbn [bind];
      [|discriminate].
    intros E. injection E as <-. eauto. }
  destruct Hr as [Hr|[Hr|[Hr|Hr]]].
  - unfold get_missing, getitem in Hr.
    destruct (lookup_column column (df_columns df)) as [s|]; cbn [bind] in Hr;
      [|discriminate].
    injection Hr as <-. apply selection_keeps_shape, Hwf.
  - destruct (Hnn r Hr) as [mask ->]. apply selection_keeps_shape, Hwf.
  - unfold get_outliers in Hr.
    destruct (get_non_missing df column) as [nn|] eqn:E; cbn [bind] in Hr;
      [|discriminate].
    destruct (Hnn nn eq_refl) as [mask ->].
    destruct (strategy_selection _ _ _ _ Hr) as [mask' ->].
    apply (Htwice mask mask' eq_refl).
  - unfold get_non_outliers in Hr.
    destruct (get_non_missing df column) as [nn|] eqn:E; cbn [bind] in Hr;
      [|discriminate].
    destruct (get_outliers self df column) as [o|]; cbn [bind] in Hr;
      [|discriminate].
    injection Hr as <-. destruct (Hnn nn eq_refl) as [mask ->].
    apply (Htwice mask _ eq_refl).
Qed.

Lemma queries_keep_shape_witness :
  wf_df repeated_label_non_outliers
  /\ column_names repeated_label_non_outliers
     = column_names repeated_label_df
  /\ (forall c,
        option_map is_numeric_dtype
          (lookup_column c (df_columns repeated_label_non_outliers))
        = option_map is_numeric_dtype
            (lookup_column c (df_columns repeated_label_df)))
  /\ (forall l, In l (df_index repeated_label_non_outliers) ->
                In l (df_index repeated_label_df))
  /\ (nrows repeated_label_non_outliers <= nrows repeated_label_df)%nat.
Proof.
  apply (queries_keep_shape example_handler_iqr repeated_label_df "a").
  - wf_by_computation.
  - right. right. right. vm_compute. reflexivity.
Defined.

(** ** The queries composed *)

Lemma series_select_all_true (mask : list bool) (s : Series) :
  length mask = series_len s -> forallb (fun b => b) mask = true ->
  series_select mask s = s.
Proof.
  intros Hlen Hall. destruct s as [vs|vs]; simpl in *;
    rewrite mask_select_all_true; auto.
Qed.

Lemma boolean_index_all_true (df : DataFrame) (mask : list bool) :
  wf_df df -> length mask = nrows df ->
  forallb (fun b => b) mask = true ->
  boolean_index df mask = df.
Proof.
  intros Hwf Hlen Hall. destruct df as [idx cols].
  unfold boolean_index, nrows in *. simpl in *.
  rewrite mask_select_all_true by assumption. f_equal.
  unfold wf_df in Hwf. simpl in Hwf.
  induction cols as [|[n s] cols IH]; simpl; auto.
  inversion Hwf as [|? ? Hs Hrest]; subst. simpl in Hs.
  rewrite IH by assumption.
  rewrite series_select_all_true; auto. congruence.
Qed.

Lemma boolean_index_all_false (df : DataFrame) (mask : list bool) :
  forallb negb mask = true -> nrows (boolean_index df mask) = 0%nat.
Proof.
  intros H. unfold nrows. simpl. rewrite mask_select_all_false; auto.
Qed.

Lemma forallb_negb_of_no_true (mask : list bool) :
  existsb (fun b => b) mask = false -> forallb negb mask = true.
Proof.
  induction mask as [|[|] mask IH]; simpl; auto; discriminate.
Qed.

Lemma forallb_map_negb (mask : list bool) :
  forallb (fun b => b) (map negb mask) = forallb negb mask.
Proof. induction mask as [|b mask IH]; simpl; congruence. Qed.

Lemma forallb_negb_map_negb (mask : list bool) :
  forallb negb (map negb mask) = forallb (fun b => b) mask.
Proof.
  induction mask as [|b mask IH]; simpl; auto.
  rewrite IH. destruct b; reflexivity.
Qed.

(** X4.  The two queries compose as complements: on the frame
    [get_non_missing] returns, [get_non_missing] returns the same frame
    and [get_missing] a frame without rows; on the frame [get_missing]
    returns, [get_missing] returns the same frame and [get_non_missing] a
    frame without rows. *)
Theorem missing_queries_compose (df : DataFrame) (column : string)
  (missing non_missing : DataFrame) :
  wf_df df ->
  get_missing df column = Ok missing ->
  get_non_missing df column = Ok non_missing ->
  get_non_missing non_missing column = Ok non_missing
  /\ (exists e, get_missing non_missing column = Ok e /\ nrows e = 0%nat)
  /\ get_missing missing column = Ok missing
  /\ (exists e, get_non_missing missing column = Ok e /\ nrows e = 0%nat).
Proof.
  intros Hwf Hm Hn. unfold get_missing, get_non_missing, getitem in *.
  destruct (lookup_column column (df_columns df)) as [s|] eqn:H;
    cbn [bind] in *; [|discriminate].
  injection Hm as <-. injection Hn as <-.
  assert (Hlen : forall mask,
             length (isna (series_select mask s))
             = nrows (boolean_index df mask)).
  { intros mask.
    pose proof (wf_lookup_length (boolean_index df mask) column
                  (series_select mask s) (wf_boolean_index df mask Hwf)) as E.
    simpl in E. rewrite lookup_column_select, H in E.
    specialize (E eq_refl).
    destruct s; simpl in *; rewrite length_map; exact E. }
  cbn [df_columns boolean_index]. rewrite !lookup_column_select, H.
  cbn [option_map bind].
  pose proof (isna_select_missing s) as Hmiss.
  pose proof (isna_select_present s) as Hpres.
  split; [|split; [|split]].
  - f_equal. apply boolean_index_all_true.
    + apply wf_boolean_index, Hwf.
    + rewrite length_map. apply Hlen.
    + rewrite forallb_map_negb. apply forallb_negb_of_no_true, Hpres.
  - eexists. split; [reflexivity|].
    apply boolean_index_all_false, forallb_negb_of_no_true, Hpres.
  - f_equal. apply boolean_index_all_true.
    + apply wf_boolean_index, Hwf.
    + apply Hlen.
    + exact Hmiss.
  - eexists. split; [reflexivity|].
    apply boolean_index_all_false. rewrite forallb_negb_map_negb.
    exact Hmiss.
Qed.

Lemma missing_queries_compose_witness :
  get_non_missing
    (mkDataFrame [0; 2; 3]%Z [("a"%string, NumSeries [num 7; num 7; num 7])])
    "a"
  = Ok (mkDataFrame [0; 2; 3]%Z
          [("a"%string, NumSeries [num 7; num 7; num 7])])
  /\ (exists e,
        get_missing
          (mkDataFrame [0; 2; 3]%Z
             [("a"%string, NumSeries [num 7; num 7; num 7])]) "a"
        = Ok e /\ nrows e = 0%nat)
  /\ get_missing (mkDataFrame [1%Z] [("a"%string, NumSeries [None])]) "a"
     = Ok (mkDataFrame [1%Z] [("a"%string, NumSeries [None])])
  /\ (exists e,
        get_non_missing
          (mkDataFrame [1%Z] [("a"%string, NumSeries [None])]) "a"
        = Ok e /\ nrows e = 0%nat).
Proof.
  apply (missing_queries_compose constant_df "a").
  - wf_by_computation.
  - reflexivity.
  - reflexivity.
Defined.

(** ** Outliers and non outliers, whatever the row labels *)

Lemma mask_select_map_combine_fst {A B : Type} (h : A -> bool)
  (l1 : list A) (l2 : list B) :
  mask_select (map h l1) (combine l1 l2)
  = filter (fun r => h (fst r)) (combine l1 l2).
Proof.
  revert l2; induction l1 as [|x l1 IH]; intros [|y l2]; simpl; auto.
  rewrite IH. reflexivity.
Qed.

Lemma existsb_eqb_In (l : Z) (ls : list Z) :
  existsb (Z.eqb l) ls = true <-> In l ls.
Proof.
  rewrite existsb_exists. split.
  - intros [x [Hx E]]. apply Z.eqb_eq in E. subst. exact Hx.
  - intros H. exists l. split; [exact H | apply Z.eqb_refl].
Qed.

(** X5.  For a numeric column, whatever the row labels: [get_outliers] and
    [get_non_outliers] return; every row of the outliers is a row of the
    frame whose value is present; and the rows of the non outliers are
    exactly the rows of the frame whose value is present and whose label
    is not the label of an outlier. *)
Theorem rows_of_outliers_and_non_outliers (self : OutlierHandler)
  (df : DataFrame) (column : string) (vs : list (option Q)) :
  wf_df df ->
  lookup_column column (df_columns df) = Some (NumSeries vs) ->
  exists outliers non_outliers,
    get_outliers self df column = Ok outliers
    /\ get_non_outliers self df column = Ok non_outliers
    /\ (forall l v, In (l, v) (num_rows outliers column) ->
                    In (l, v) (num_rows df column) /\ v <> None)
    /\ (forall l v, In (l, v) (num_rows non_outliers column) <->
                    In (l, v) (num_rows df column) /\ v <> None
                    /\ ~ In l (df_index outliers)).
Proof.
  intros Hwf H.
  destruct (outliers_as_selection self df column vs Hwf H)
    as [mask [Hlen [_ [Hnn [Ho Hn]]]]].
  destruct (get_non_missing_numeric df column vs H)
    as [non_na [Hnn' [Hl [Hrows Hidx]]]].
  rewrite Hnn in Hnn'. injection Hnn' as Hsame. rewrite Hsame in *.
  clear Hsame.
  assert (Hpresent : forall l v,
             In (l, v) (num_rows non_na column) <->
             In (l, v) (num_rows df column) /\ v <> None).
  { intros l v. rewrite Hrows, filter_In. cbn [snd].
    destruct v; simpl; split; intros [Hin Hv]; split; auto;
      try discriminate; congruence. }
  exists (boolean_index non_na mask),
         (filter_dataframe_out non_na (boolean_index non_na mask)).
  split; [exact Ho|]. split; [exact Hn|]. split.
  - intros l v Hin. rewrite num_rows_boolean_index in Hin.
    apply mask_select_In in Hin. apply Hpresent, Hin.
  - intros l v. unfold filter_dataframe_out, index_isin.
    rewrite num_rows_boolean_index.
    assert (E : num_rows non_na column
                = combine (df_index non_na) (map Some (present vs))).
    { unfold num_rows. rewrite Hl. reflexivity. }
    rewrite E, map_map.
    rewrite (mask_select_map_combine_fst
               (fun l0 => negb (existsb (Z.eqb l0)
                                  (df_index (boolean_index non_na mask))))).
    rewrite <- E, filter_In, Hpresent. cbn [fst].
    rewrite negb_true_iff, <- not_true_iff_false, existsb_eqb_In.
    tauto.
Qed.

Lemma rows_of_outliers_and_non_outliers_witness :
  exists outliers non_outliers,
    get_outliers example_handler_iqr repeated_label_df "a" = Ok outliers
    /\ get_non_outliers example_handler_iqr repeated_label_df "a"
       = Ok non_outliers
    /\ (forall l v, In (l, v) (num_rows outliers "a") ->
                    In (l, v) (num_rows repeated_label_df "a") /\ v <> None)
    /\ (forall l v, In (l, v) (num_rows non_outliers "a") <->
                    In (l, v) (num_rows repeated_label_df "a") /\ v <> None
                    /\ ~ In l (df_index outliers)).
Proof.
  apply (rows_of_outliers_and_non_outliers example_handler_iqr
           repeated_label_df "a"
           [num 10; num 12; num 11; num 13; num 200]).
  - wf_by_computation.
  - reflexivity.
Defined.

(** Rows whose label is among the labels of a selection: at least the
    selected rows. *)
Lemma isin_covers_selection (mask : list bool) (l sel : list Z) :
  length mask = length l ->
  (forall x, In x (mask_select mask l) -> In x sel) ->
  (length (mask_select (map (fun x => negb (existsb (Z.eqb x) sel)) l) l)
   <= length (mask_select (map negb mask) l))%nat.
Proof.
  revert l; induction mask as [|b mask IH]; intros [|x l] Hlen Hsel;
    simpl in *; try discriminate; auto.
  injection Hlen as Hlen. destruct b; simpl.
  - assert (Hx : existsb (Z.eqb x) sel = true).
    { apply existsb_eqb_In, Hsel. left. reflexivity. }
    rewrite Hx. simpl.
    apply IH; [exact Hlen | intros y Hy; apply Hsel; right; exact Hy].
  - specialize (IH l Hlen Hsel).
    destruct (existsb (Z.eqb x) sel); simpl; lia.
Qed.

(** X6.  For a numeric column, whatever the row labels, the sizes of the
    three results never exceed the number of rows: the sum that
    [get_outliers_information] checks can fall short of the number of
    rows, never pass it. *)
Theorem counts_never_exceed_rows (self : OutlierHandler) (df : DataFrame)
  (column : string) (vs : list (option Q)) :
  wf_df df ->
  lookup_column column (df_columns df) = Some (NumSeries vs) ->
  exists missing outliers non_outliers,
    get_missing df column = Ok missing
    /\ get_outliers self df column = Ok outliers
    /\ get_non_outliers self df column = Ok non_outliers
    /\ (nrows missing + nrows outliers + nrows non_outliers <= nrows df)%nat.
Proof.
  intros Hwf H.
  destruct (outliers_as_selection self df column vs Hwf H)
    as [mask [Hlen [Hm [Hnn [Ho Hn]]]]].
  set (non_na := boolean_index df (map negb (map is_none vs))) in *.
  do 3 eexists. split; [exact Hm|]. split; [exact Ho|]. split; [exact Hn|].
  assert (Hna : length (map is_none vs) = length (df_index df)).
  { rewrite length_map. apply (wf_lookup_length df column _ Hwf H). }
  pose proof (Permutation_length
                (mask_select_negb_perm (map is_none vs) (df_index df) Hna))
    as P1.
  pose proof (Permutation_length
                (mask_select_negb_perm mask (df_index non_na) Hlen)) as P2.
  rewrite length_app in P1, P2.
  pose proof (isin_covers_selection mask (df_index non_na)
                (mask_select mask (df_index non_na)) Hlen (fun x Hx => Hx))
    as P3.
  change (mask_select (map negb (map is_none vs)) (df_index df))
    with (df_index non_na) in P1.
  unfold nrows.
  change (df_index (boolean_index df (map is_none vs)))
    with (mask_select (map is_none vs) (df_index df)).
  change (df_index (boolean_index non_na mask))
    with (mask_select mask (df_index non_na)).
  change (df_index (filter_dataframe_out non_na (boolean_index non_na mask)))
    with (mask_select
            (map negb
               (map (fun l => existsb (Z.eqb l)
                                (mask_select mask (df_index non_na)))
                    (df_index non_na)))
            (df_index non_na)).
  rewrite map_map. lia.
Qed.

Lemma counts_never_exceed_rows_witness :
  exists missing outliers non_outliers,
    get_missing repeated_label_df "a" = Ok missing
    /\ get_outliers example_handler_iqr repeated_label_df "a" = Ok outliers
    /\ get_non_outliers example_handler_iqr repeated_label_df "a"
       = Ok non_outliers
    /\ (nrows missing + nrows outliers + nrows non_outliers
        <= nrows repeated_label_df)%nat.
Proof.
  apply (counts_never_exceed_rows example_handler_iqr repeated_label_df "a"
           [num 10; num 12; num 11; num 13; num 200]).
  - wf_by_computation.
  - reflexivity.
Defined.

(** ** Filtering a frame out of another *)

Lemma filter_dataframe_out_index (df filter : DataFrame) :
  df_index (filter_dataframe_out df filter)
  = List.filter (fun l => negb (existsb (Z.eqb l) (df_index filter)))
      (df_index df).
Proof.
  unfold filter_dataframe_out, index_isin. simpl.
  rewrite map_map. apply mask_select_map_filter.
Qed.

Lemma filter_dataframe_out_labels (df filter : DataFrame) (l : Z) :
  In l (df_index (filter_dataframe_out df filter)) <->
  In l (df_index df) /\ ~ In l (df_index filter).
Proof.
  rewrite filter_dataframe_out_index, filter_In.
  rewrite negb_true_iff, <- not_true_iff_false, existsb_eqb_In. tauto.
Qed.

(** X7.  [__filter_dataframe_out] keeps the rows of the frame whose label
    is not a label of the filter: the labels of the result are those
    labels of the frame that the filter does not have; filtering the
    result again by the same filter changes nothing; a filter without
    rows removes nothing; and a frame filtered by itself has no row. *)
Theorem filter_dataframe_out_by_label (df filter : DataFrame) :
  wf_df df ->
  (forall l, In l (df_index (filter_dataframe_out df filter)) <->
             In l (df_index df) /\ ~ In l (df_index filter))
  /\ filter_dataframe_out (filter_dataframe_out df filter) filter
     = filter_dataframe_out df filter
  /\ (df_index filter = [] -> filter_dataframe_out df filter = df)
  /\ nrows (filter_dataframe_out df df) = 0%nat.
Proof.
  intros Hwf.
  split; [intros l; apply filter_dataframe_out_labels|]. split; [|split].
  - set (r := filter_dataframe_out df filter) in *.
    unfold filter_dataframe_out at 1. apply boolean_index_all_true.
    + apply wf_boolean_index, Hwf.
    + unfold index_isin, nrows. rewrite !length_map. reflexivity.
    + unfold index_isin. rewrite map_map. apply forallb_forall.
      intros b Hb. apply in_map_iff in Hb. destruct Hb as [l [<- Hl]].
      apply filter_dataframe_out_labels in Hl. destruct Hl as [_ Hl].
      apply negb_true_iff, not_true_iff_false.
      rewrite existsb_eqb_In. exact Hl.
  - intros Hf. unfold filter_dataframe_out. apply boolean_index_all_true.
    + exact Hwf.
    + unfold index_isin, nrows. rewrite !length_map. reflexivity.
    + unfold index_isin. rewrite map_map, Hf. apply forallb_forall.
      intros b Hb. apply in_map_iff in Hb. destruct Hb as [l [<- _]].
      reflexivity.
  - unfold nrows.
    destruct (df_index (filter_dataframe_out df df)) as [|x xs] eqn:E;
      [reflexivity|].
    assert (Hx : In x (df_index (filter_dataframe_out df df)))
      by (rewrite E; left; reflexivity).
    apply filter_dataframe_out_labels in Hx. tauto.
Qed.

Lemma filter_dataframe_out_by_label_witness :
  (forall l,
     In l (df_index (filter_dataframe_out repeated_label_df
                       repeated_label_outliers)) <->
     In l (df_index repeated_label_df)
     /\ ~ In l (df_index repeated_label_outliers))
  /\ filter_dataframe_out
       (filter_dataframe_out repeated_label_df repeated_label_outliers)
       repeated_label_outliers
     = filter_dataframe_out repeated_label_df repeated_label_outliers
  /\ (df_index repeated_label_outliers = [] ->
      filter_dataframe_out repeated_label_df repeated_label_outliers
      = repeated_label_df)
  /\ nrows (filter_dataframe_out repeated_label_df repeated_label_df)
     = 0%nat.
Proof.
  apply (filter_dataframe_out_by_label repeated_label_df
           repeated_label_outliers).
  wf_by_computation.
Defined.

(** ** The quartiles *)

Lemma sorted_nth_le (s : list Q) (i j : nat) :
  StronglySorted Qle s -> (i <= j)%nat -> (j < length s)%nat ->
  nth i s 0 <= nth j s 0.
Proof.
  intros Hs. revert i j. induction Hs as [|x s Hs IH Hx]; intros i j Hij Hj.
  - simpl in Hj. lia.
  - destruct j as [|j].
    + replace i with 0%nat by lia. apply Qle_refl.
    + simpl in Hj. destruct i as [|i].
      * simpl. rewrite Forall_forall in Hx. apply Hx, nth_In. lia.
      * simpl. apply IH; lia.
Qed.

(** The position of a quantile in a list of [n >= 1] ranked values, for
    [0 <= q <= 1]: a rank [lo], the next rank [hi] (or [lo] itself at the
    last rank) and a fraction. *)
Lemma lerp_position (s : list Q) (q : Q) :
  s <> [] -> 0 <= q -> q <= 1 ->
  exists (lo : nat) (gamma : Q),
    let hi := Nat.min (lo + 1) (length s - 1) in
    (lo < length s)%nat
    /\ 0 <= gamma /\ gamma < 1
    /\ inject_Z (Z.of_nat (length s) - 1) * q
       == inject_Z (Z.of_nat lo) + gamma
    /\ lerp_quantile s q
       = nth lo s 0 + (nth hi s 0 - nth lo s 0) * gamma.
Proof.
  intros Hne Hq0 Hq1.
  assert (Hn : (1 <= length s)%nat) by (destruct s; simpl; [congruence|lia]).
  set (n := Z.of_nat (length s)) in *.
  set (h := inject_Z (n - 1) * q).
  assert (Hn1 : 0 <= inject_Z (n - 1)).
  { replace 0 with (inject_Z 0) by reflexivity. rewrite <- Zle_Qle.
    unfold n. lia. }
  assert (Hh0 : 0 <= h) by (apply Qmult_le_0_compat; assumption).
  assert (Hh1 : h <= inject_Z (n - 1)).
  { unfold h. nra. }
  pose proof (Qfloor_le h) as Hfl. pose proof (Qlt_floor h) as Hfu.
  assert (Hlo0 : (0 <= Qfloor h)%Z).
  { change 0%Z with (Qfloor 0). apply Qfloor_resp_le, Hh0. }
  assert (Hlo1 : (Qfloor h <= n - 1)%Z).
  { rewrite <- (Qfloor_Z (n - 1)). apply Qfloor_resp_le, Hh1. }
  exists (Z.to_nat (Qfloor h)), (h - inject_Z (Qfloor h)).
  cbv zeta. rewrite Z2Nat.id by exact Hlo0.
  split; [unfold n in Hlo1; lia|].
  split; [lra|]. split.
  { rewrite inject_Z_plus in Hfu. change (inject_Z 1) with 1 in Hfu. lra. }
  split; [fold n; fold h; ring|].
  unfold lerp_quantile. fold n. fold h.
  replace (Z.to_nat (Z.min (Qfloor h + 1) (n - 1)))
    with (Nat.min (Z.to_nat (Qfloor h) + 1) (length s - 1))
    by (unfold n in *; lia).
  reflexivity.
Qed.

(** A quantile lies between two of the values. *)
Lemma lerp_quantile_bounded (s : list Q) (q : Q) :
  StronglySorted Qle s -> s <> [] -> 0 <= q -> q <= 1 ->
  (exists a, In a s /\ a <= lerp_quantile s q)
  /\ (exists b, In b s /\ lerp_quantile s q <= b).
Proof.
  intros Hs Hne Hq0 Hq1.
  assert (Hn : (1 <= length s)%nat) by (destruct s; simpl; [congruence|lia]).
  destruct (lerp_position s q Hne Hq0 Hq1)
    as [lo [g [Hlo [Hg0 [Hg1 [Hh ->]]]]]].
  cbv zeta in *.
  set (a := nth lo s 0) in *.
  set (b := nth (Nat.min (lo + 1) (length s - 1)) s 0) in *.
  assert (Hab : a <= b) by (apply sorted_nth_le; auto; lia).
  split.
  - exists a. split; [apply nth_In; lia | nra].
  - exists b. split; [apply nth_In; lia | nra].
Qed.

Lemma sort_values_nonempty (xs : list Q) : xs <> [] -> sort_values xs <> [].
Proof.
  intros Hne E. apply Hne.
  pose proof (Permutation_length (sort_values_perm xs)) as P.
  rewrite E in P. destruct xs; [reflexivity | discriminate].
Qed.

(** The outliers of the interquartile rule on the frame of the non
    missing rows, with the quartiles of the column. *)
Lemma interquartile_outliers (df : DataFrame) (column : string)
  (vs : list (option Q)) (Q1 Q3 : Q) :
  lookup_column column (df_columns df) = Some (NumSeries vs) ->
  quantile (NumSeries vs) (1 # 4) = Ok (Some Q1) ->
  quantile (NumSeries vs) (3 # 4) = Ok (Some Q3) ->
  exists non_na,
    get_non_missing df column = Ok non_na
    /\ df_index non_na
       = mask_select (map negb (map is_none vs)) (df_index df)
    /\ get_outliers (mkOutlierHandler INTERQUARTILE) df column
       = Ok (boolean_index non_na
               (map (fun v => flt v (Some (Q1 - (3 # 2) * (Q3 - Q1)))
                              || fgt v (Some (Q3 + (3 # 2) * (Q3 - Q1))))
                    (map Some (present vs))))
    /\ forall l v,
         In (l, v)
            (num_rows
               (boolean_index non_na
                  (map (fun v => flt v (Some (Q1 - (3 # 2) * (Q3 - Q1)))
                                 || fgt v (Some (Q3 + (3 # 2) * (Q3 - Q1))))
                       (map Some (present vs)))) column) ->
         exists x, v = Some x
                   /\ (x < Q1 - (3 # 2) * (Q3 - Q1)
                       \/ Q3 + (3 # 2) * (Q3 - Q1) < x).
Proof.
  intros H H1 H3.
  destruct (get_non_missing_numeric df column vs H)
    as [non_na [Hnn [Hl [Hrows Hidx]]]].
  rewrite <- quantile_non_missing in H1, H3.
  pose proof (interquartile_on_present non_na column _ Q1 Q3 Hl H1 H3) as Ho.
  exists non_na. split; [exact Hnn|]. split; [exact Hidx|]. split.
  - unfold get_outliers. rewrite Hnn. cbn [bind calculation_method].
    exact Ho.
  - intros l v Hin.
    apply (rows_of_selection df non_na column vs _ l v Hl Hrows) in Hin.
    destruct Hin as [_ [x [-> Hx]]]. exists x. split; [reflexivity|].
    apply orb_true_iff in Hx. unfold fgt, flt in Hx.
    rewrite !Qlt_bool_iff in Hx. exact Hx.
Qed.

(** X10.  Under the INTERQUARTILE method, as under ZSCORE, a column whose
    present values are all equal has no outlier: both quartiles are the
    value, the interquartile range is zero and the comparisons are
    strict. *)
Theorem interquartile_constant_column (df : DataFrame) (column : string)
  (vs : list (option Q)) (c : Q) :
  lookup_column column (df_columns df) = Some (NumSeries vs) ->
  present vs <> [] ->
  (forall x, In x (present vs) -> x == c) ->
  exists outliers,
    get_outliers (mkOutlierHandler INTERQUARTILE) df column = Ok outliers
    /\ df_index outliers = []
    /\ num_rows outliers column = [].
Proof.
  intros H Hne Hc.
  pose proof (quantile_numeric vs (1 # 4) Hne) as H1.
  pose proof (quantile_numeric vs (3 # 4) Hne) as H3.
  set (Q1 := lerp_quantile (sort_values (present vs)) (1 # 4)) in *.
  set (Q3 := lerp_quantile (sort_values (present vs)) (3 # 4)) in *.
  pose proof (sort_values_sorted (present vs)) as Hs.
  pose proof (sort_values_nonempty _ Hne) as Hne'.
  assert (Hin : forall x, In x (sort_values (present vs)) -> x == c).
  { intros x Hx. apply Hc.
    apply (Permutation_in _ (sort_values_perm (present vs))), Hx. }
  assert (HQ : forall q, 0 <= q -> q <= 1 ->
                         lerp_quantile (sort_values (present vs)) q == c).
  { intros q Hq0 Hq1.
    destruct (lerp_quantile_bounded _ q Hs Hne' Hq0 Hq1)
      as [[a [Ha Ha']] [b [Hb Hb']]].
    rewrite (Hin a Ha) in Ha'. rewrite (Hin b Hb) in Hb'.
    apply Qle_antisym; assumption. }
  assert (E1 : Q1 == c) by (apply HQ; lra).
  assert (E3 : Q3 == c) by (apply HQ; lra).
  destruct (interquartile_outliers df column vs Q1 Q3 H H1 H3)
    as [non_na [_ [_ [Ho _]]]].
  eexists. split; [exact Ho|].
  assert (Hall : forallb negb
            (map (fun v => flt v (Some (Q1 - (3 # 2) * (Q3 - Q1)))
                           || fgt v (Some (Q3 + (3 # 2) * (Q3 - Q1))))
                 (map Some (present vs))) = true).
  { apply forallb_forall. intros b Hb. apply in_map_iff in Hb.
    destruct Hb as [v [<- Hv]]. apply in_map_iff in Hv.
    destruct Hv as [x [<- Hx]].
    apply negb_true_iff, orb_false_iff.
    unfold fgt, flt, Qlt_bool. rewrite !negb_false_iff, !Qle_bool_iff.
    rewrite (Hc x Hx), E1, E3. split; lra. }
  split.
  - simpl. apply mask_select_all_false, Hall.
  - rewrite num_rows_boolean_index. apply mask_select_all_false, Hall.
Qed.

Lemma interquartile_constant_column_witness :
  exists outliers,
    get_outliers (mkOutlierHandler INTERQUARTILE) constant_df "a"
    = Ok outliers
    /\ df_index outliers = []
    /\ num_rows outliers "a" = [].
Proof.
  apply (interquartile_constant_column constant_df "a"
           [num 7; None; num 7; num 7] (inject_Z 7)).
  - reflexivity.
  - discriminate.
  - simpl. intros x [<-|[<-|[<-|[]]]]; reflexivity.
Defined.

(** ** The range of a percentage *)

Lemma round_half_even_bounds (x : Q) :
  (Qfloor x <= round_half_even x <= Qfloor x + 1)%Z.
Proof.
  unfold round_half_even.
  destruct (Qcompare (x - inject_Z (Qfloor x)) (1 # 2));
    try destruct (Z.even (Qfloor x)); lia.
Qed.

Lemma round_half_even_monotone (x y : Q) :
  x <= y -> (round_half_even x <= round_half_even y)%Z.
Proof.
  intros Hxy.
  pose proof (Qfloor_resp_le x y Hxy) as Hf.
  pose proof (round_half_even_bounds x) as Bx.
  pose proof (round_half_even_bounds y) as By.
  destruct (Z.eq_dec (Qfloor x) (Qfloor y)) as [E|E]; [|lia].
  unfold round_half_even in *. rewrite <- E in *.
  destruct (Qcompare_spec (x - inject_Z (Qfloor x)) (1 # 2)) as [Hx|Hx|Hx];
    destruct (Qcompare_spec (y - inject_Z (Qfloor x)) (1 # 2)) as [Hy|Hy|Hy];
    try destruct (Z.even (Qfloor x)); try lia; exfalso; lra.
Qed.

Lemma round_half_even_integer (k : Z) : round_half_even (inject_Z k) = k.
Proof.
  unfold round_half_even. rewrite Qfloor_Z.
  destruct (Qcompare_spec (inject_Z k - inject_Z k) (1 # 2)) as [H|H|H];
    try reflexivity; exfalso; lra.
Qed.

(** X13.  For a part between zero and a positive whole, [percentage]
    returns a value between 0 and 100 that is a whole number of ten
    thousandths; it returns 0 for the part zero and 100 for the part that
    is the whole. *)
Theorem percentage_range (part whole : Q) :
  0 <= part -> part <= whole -> 0 < whole ->
  exists p,
    percentage part whole 4 = Ok p
    /\ 0 <= p /\ p <= 100
    /\ (exists k : Z, p = inject_Z k / inject_Z 10000)
    /\ (part == 0 -> p == 0)
    /\ (part == whole -> p == 100).
Proof.
  intros H0 Hle Hw.
  assert (Hnz : ~ whole == 0) by lra.
  rewrite (percentage_nonzero part whole 4 Hnz).
  eexists. split; [reflexivity|].
  unfold round_digits. change (pow10 4) with (inject_Z 10000).
  set (x := 100 * part / whole).
  assert (Hx0 : 0 <= x).
  { unfold x, Qdiv. apply Qmult_le_0_compat; [lra|].
    apply Qlt_le_weak, Qinv_lt_0_compat, Hw. }
  assert (Hx1 : x <= 100).
  { unfold x. apply Qle_shift_div_r; [exact Hw | lra]. }
  assert (Hlo : (0 <= round_half_even (x * inject_Z 10000))%Z).
  { rewrite <- (round_half_even_integer 0).
    apply round_half_even_monotone. change (inject_Z 0) with 0.
    change (inject_Z 10000) with 10000. lra. }
  assert (Hhi : (round_half_even (x * inject_Z 10000) <= 1000000)%Z).
  { rewrite <- (round_half_even_integer 1000000).
    apply round_half_even_monotone.
    change (inject_Z 1000000) with 1000000.
    change (inject_Z 10000) with 10000. lra. }
  set (k := round_half_even (x * inject_Z 10000)) in *.
  assert (Hk0 : 0 <= inject_Z k).
  { change 0 with (inject_Z 0). rewrite <- Zle_Qle. exact Hlo. }
  assert (Hk1 : inject_Z k <= 1000000).
  { change 1000000 with (inject_Z 1000000). rewrite <- Zle_Qle. exact Hhi. }
  change (inject_Z 10000) with 10000.
  split; [apply Qle_shift_div_l; lra|].
  split; [apply Qle_shift_div_r; lra|].
  split; [exists k; reflexivity|].
  assert (Hend : forall c : Z, x == inject_Z c ->
                 k = (c * 10000)%Z).
  { intros c Hc. unfold k. apply Z.le_antisymm.
    - rewrite <- (round_half_even_integer (c * 10000)).
      apply round_half_even_monotone. rewrite inject_Z_mult, Hc.
      apply Qle_refl.
    - rewrite <- (round_half_even_integer (c * 10000)) at 1.
      apply round_half_even_monotone. rewrite inject_Z_mult, Hc.
      apply Qle_refl. }
  split.
  - intros Hp. rewrite (Hend 0%Z); [reflexivity|].
    unfold x. rewrite Hp. change (inject_Z 0) with 0. field. exact Hnz.
  - intros Hp. rewrite (Hend 100%Z); [reflexivity|].
    unfold x. rewrite Hp. change (inject_Z 100) with 100. field. exact Hnz.
Qed.

Lemma percentage_range_witness :
  exists p,
    percentage 1 3 4 = Ok p
    /\ 0 <= p /\ p <= 100
    /\ (exists k : Z, p = inject_Z k / inject_Z 10000)
    /\ (1 == 0 -> p == 0)
    /\ (1 == 3 -> p == 100).
Proof.
  apply (percentage_range 1 3).
  - discriminate.
  - discriminate.
  - reflexivity.
Defined.

(** ** Logging *)

Lemma log_column_information_lines (d : dict ColumnReport) :
  exists lines,
    log_column_information d = (lines, Ok tt)
    /\ length lines = (5 * length d)%nat
    /\ forall c, ~ In (PrintWarning c) lines.
Proof.
  induction d as [|[c info] d IH].
  - exists []. repeat split. intros c [].
  - destruct IH as [lines [Hrun [Hlen Hno]]].
    cbn [log_column_information]. unfold print. cbn [obind].
    rewrite Hrun. eexists. split; [reflexivity|]. split.
    + simpl. rewrite Hlen. lia.
    + intros c' Hin. simpl in Hin.
      destruct Hin as [E|[E|[E|[E|[E|Hin]]]]]; try discriminate.
      apply (Hno c' Hin).
Qed.

(** X14.  [log_information] changes what is printed and nothing else:
    with and without it [get_outliers_information] returns the same report
    or raises the same exception; [__log_column_information] never
    raises; and with it the call prints, after the lines printed without
    it, five lines for each column of the report. *)
Theorem logging_only_prints (self : OutlierHandler) (df : DataFrame)
  (output_dataframes : bool) (columns : list string) :
  snd (get_outliers_information self df output_dataframes columns true)
  = snd (get_outliers_information self df output_dataframes columns false)
  /\ (forall lines result,
        get_outliers_information self df output_dataframes columns false
        = (lines, Ok result) ->
        exists logged,
          log_column_information result = (logged, Ok tt)
          /\ length logged = (5 * length result)%nat
          /\ get_outliers_information self df output_dataframes columns true
             = (lines ++ logged, Ok result))
  /\ (forall lines e,
        get_outliers_information self df output_dataframes columns false
        = (lines, Raise e) ->
        get_outliers_information self df output_dataframes columns true
        = (lines, Raise e)).
Proof.
  unfold get_outliers_information.
  destruct (for_columns self df output_dataframes columns (column_names df) [])
    as [out [res|e]]; cbn [obind ret snd].
  - destruct (log_column_information_lines res) as [logged [Hlog [Hlen _]]].
    rewrite Hlog. cbn [obind ret snd]. split; [reflexivity|]. split.
    + intros lines result E. injection E as <- <-.
      exists logged. split; [exact Hlog|]. split; [exact Hlen|].
      rewrite !app_nil_r. reflexivity.
    + intros lines e E. discriminate.
  - split; [reflexivity|]. split.
    + intros lines result E. discriminate.
    + intros lines e' E. exact E.
Qed.

Lemma logging_only_prints_witness :
  exists logged,
    log_column_information
      [("a"%string,
        mkColumnReport 1 (166667 # 10000) 1 (166667 # 10000)
          4 (666667 # 10000) None None None)]
    = (logged, Ok tt)
    /\ length logged = (5 * 1)%nat
    /\ get_outliers_information example_handler_iqr example_df false [] true
       = ([] ++ logged,
          Ok [("a"%string,
               mkColumnReport 1 (166667 # 10000) 1 (166667 # 10000)
                 4 (666667 # 10000) None None None)]).
Proof.
  destruct (logging_only_prints example_handler_iqr example_df false [])
    as [_ [Hlog _]].
  apply (Hlog []). vm_compute. reflexivity.
Defined.

(** ** What the report holds *)

(** X15.  On a frame with at least one row, the entry of a selected column
    is made of the results of the three queries: its counts are their
    numbers of rows, its percentages those of the counts in the number of
    rows of the frame, the three frames are attached exactly when
    [output_dataframes] is set, and the warning for the column is printed
    exactly when the counts do not sum to the number of rows. *)
Theorem report_entry_of_queries (self : OutlierHandler) (df : DataFrame)
  (output_dataframes : bool) (columns : list string) (log_information : bool)
  (column : string) :
  wf_df df ->
  nrows df <> 0%nat ->
  column_selected df columns column = true ->
  exists printed_lines result e m o n,
    get_outliers_information self df output_dataframes columns log_information
    = (printed_lines, Ok result)
    /\ dict_get column result = Some e
    /\ get_missing df column = Ok m
    /\ get_outliers self df column = Ok o
    /\ get_non_outliers self df column = Ok n
    /\ missing_values_count e = nrows m
    /\ outlier_values_count e = nrows o
    /\ non_outlier_values_count e = nrows n
    /\ percentage (count_Q (nrows m)) (count_Q (nrows df)) 4
       = Ok (missing_values_percentage e)
    /\ percentage (count_Q (nrows o)) (count_Q (nrows df)) 4
       = Ok (outlier_values_percentage e)
    /\ percentage (count_Q (nrows n)) (count_Q (nrows df)) 4
       = Ok (non_outlier_values_percentage e)
    /\ missing_values_df e = (if output_dataframes then Some m else None)
    /\ outlier_values_df e = (if output_dataframes then Some o else None)
    /\ non_outlier_values_df e
       = (if output_dataframes then Some n else None)
    /\ (In (PrintWarning column) printed_lines <->
        (nrows m + nrows o + nrows n)%nat <> nrows df).
Proof.
  intros Hwf Hrows Hsel.
  destruct (column_selected_numeric df columns column Hsel) as [vs Hvs].
  destruct (get_outliers_information_run self df output_dataframes Hwf
              columns log_information Hrows)
    as [lines [result [Hrun [Hentry [_ Hwarn]]]]].
  destruct (column_entry_ok self df output_dataframes Hwf column vs Hrows Hvs)
    as [m [o [n [Hm [Ho [Hn He]]]]]].
  destruct (Hentry column Hsel) as [e [Hget Hsnd]].
  rewrite He in Hsnd. cbn [snd] in Hsnd. injection Hsnd as <-.
  assert (Hw : ~ count_Q (nrows df) == 0).
  { intros E. apply count_Q_zero in E. contradiction. }
  exists lines, result. eexists. exists m, o, n.
  split; [exact Hrun|]. split; [exact Hget|].
  split; [exact Hm|]. split; [exact Ho|]. split; [exact Hn|].
  cbn. rewrite !(percentage_nonzero _ _ 4 Hw).
  do 9 (split; [reflexivity|]).
  rewrite Hwarn, He. cbn [fst].
  destruct (Nat.eqb_spec (nrows m + nrows o + nrows n) (nrows df)) as [E|E].
  - split; [intros [_ []] | intros Hne; contradiction].
  - split; [intros _; exact E | intros _; split; [exact Hsel | left; reflexivity]].
Qed.

Lemma report_entry_of_queries_witness :
  exists printed_lines result e m o n,
    get_outliers_information example_handler_iqr repeated_label_df true []
      false
    = (printed_lines, Ok result)
    /\ dict_get "a"%string result = Some e
    /\ get_missing repeated_label_df "a" = Ok m
    /\ get_outliers example_handler_iqr repeated_label_df "a" = Ok o
    /\ get_non_outliers example_handler_iqr repeated_label_df "a" = Ok n
    /\ missing_values_count e = nrows m
    /\ outlier_values_count e = nrows o
    /\ non_outlier_values_count e = nrows n
    /\ percentage (count_Q (nrows m)) (count_Q (nrows repeated_label_df)) 4
       = Ok (missing_values_percentage e)
    /\ percentage (count_Q (nrows o)) (count_Q (nrows repeated_label_df)) 4
       = Ok (outlier_values_percentage e)
    /\ percentage (count_Q (nrows n)) (count_Q (nrows repeated_label_df)) 4
       = Ok (non_outlier_values_percentage e)
    /\ missing_values_df e = (if true then Some m else None)
    /\ outlier_values_df e = (if true then Some o else None)
    /\ non_outlier_values_df e = (if true then Some n else None)
    /\ (In (PrintWarning "a") printed_lines <->
        (nrows m + nrows o + nrows n)%nat <> nrows repeated_label_df).
Proof.
  apply (report_entry_of_queries example_handler_iqr repeated_label_df
           true [] false "a").
  - wf_by_computation.
  - discriminate.
  - reflexivity.
Defined.

(** On distinct row labels the three counts sum to the number of rows. *)
Lemma counts_sum_on_distinct_labels (self : OutlierHandler) (df : DataFrame)
  (c : string) (vs : list (option Q)) (m o n : DataFrame) :
  wf_df df -> NoDup (df_index df) ->
  lookup_column c (df_columns df) = Some (NumSeries vs) ->
  get_missing df c = Ok m ->
  get_outliers self df c = Ok o ->
  get_non_outliers self df c = Ok n ->
  (nrows m + nrows o + nrows n = nrows df)%nat.
Proof.
  intros Hwf Hnd H Hm Ho Hn.
  destruct (partition_of_rows_aux self df c vs Hwf Hnd H)
    as [na [mask [Hna [Hmask [Hm' [Ho' Hn']]]]]].
  cbv zeta in *.
  rewrite Hm' in Hm. rewrite Ho' in Ho. rewrite Hn' in Hn.
  injection Hm as <-. injection Ho as <-. injection Hn as <-.
  pose proof (Permutation_length
                (mask_select_negb_perm na (df_index df) Hna)) as P1.
  pose proof (Permutation_length
                (mask_select_negb_perm mask _ Hmask)) as P2.
  rewrite length_app in P1, P2. unfold nrows. simpl in *. lia.
Qed.

(** X16.  On a frame with at least one row whose row labels are pairwise
    distinct, [get_outliers_information] prints no warning, the three
    counts of every entry sum to the number of rows, and its three
    percentages sum to 100 up to the rounding, that is within 0.00015. *)
Theorem report_on_distinct_labels (self : OutlierHandler) (df : DataFrame)
  (output_dataframes : bool) (columns : list string)
  (log_information : bool) :
  wf_df df ->
  NoDup (df_index df) ->
  nrows df <> 0%nat ->
  exists printed_lines result,
    get_outliers_information self df output_dataframes columns log_information
    = (printed_lines, Ok result)
    /\ (forall c, ~ In (PrintWarning c) printed_lines)
    /\ (forall c e,
          dict_get c result = Some e ->
          (missing_values_count e + outlier_values_count e
           + non_outlier_values_count e = nrows df)%nat
          /\ Qabs (missing_values_percentage e + outlier_values_percentage e
                   + non_outlier_values_percentage e - 100)
             <= 3 # 20000).
Proof.
  intros Hwf Hnd Hrows.
  destruct (get_outliers_information_run self df output_dataframes Hwf
              columns log_information Hrows)
    as [lines [result [Hrun [Hentry [Hskip Hwarn]]]]].
  exists lines, result. split; [exact Hrun|].
  assert (Hcol : forall c, column_selected df columns c = true ->
            exists m o n,
              (nrows m + nrows o + nrows n = nrows df)%nat
              /\ column_entry self df output_dataframes c
                 = ([],
                    Ok {| missing_values_count := nrows m;
                          missing_values_percentage :=
                            round_digits (100 * count_Q (nrows m)
                                          / count_Q (nrows df)) 4;
                          outlier_values_count := nrows o;
                          outlier_values_percentage :=
                            round_digits (100 * count_Q (nrows o)
                                          / count_Q (nrows df)) 4;
                          non_outlier_values_count := nrows n;
                          non_outlier_values_percentage :=
                            round_digits (100 * count_Q (nrows n)
                                          / count_Q (nrows df)) 4;
                          missing_values_df :=
                            if output_dataframes then Some m else None;
                          outlier_values_df :=
                            if output_dataframes then Some o else None;
                          non_outlier_values_df :=
                            if output_dataframes then Some n else None |})).
  { intros c Hsel.
    destruct (column_selected_numeric df columns c Hsel) as [vs Hvs].
    destruct (column_entry_ok self df output_dataframes Hwf c vs Hrows Hvs)
      as [m [o [n [Hm [Ho [Hn He]]]]]].
    pose proof (counts_sum_on_distinct_labels self df c vs m o n
                  Hwf Hnd Hvs Hm Ho Hn) as Hsum.
    exists m, o, n. split; [exact Hsum|].
    rewrite He. apply Nat.eqb_eq in Hsum. rewrite Hsum. reflexivity. }
  split.
  - intros c Hin. apply Hwarn in Hin. destruct Hin as [Hsel Hin].
    destruct (Hcol c Hsel) as [m [o [n [_ He]]]].
    rewrite He in Hin. destruct Hin.
  - intros c e Hget.
    destruct (column_selected df columns c) eqn:Hsel.
    2:{ destruct (Hskip c Hsel) as [Hnone _]. congruence. }
    destruct (Hentry c Hsel) as [e' [Hget' Hsnd]].
    rewrite Hget in Hget'. injection Hget' as <-.
    destruct (Hcol c Hsel) as [m [o [n [Hsum He]]]].
    rewrite He in Hsnd. cbn [snd] in Hsnd. injection Hsnd as <-.
    cbn [missing_values_count outlier_values_count non_outlier_values_count
         missing_values_percentage outlier_values_percentage
         non_outlier_values_percentage].
    split; [exact Hsum|].
    assert (Hw : 0 < count_Q (nrows df)).
    { unfold count_Q. change 0 with (inject_Z 0). rewrite <- Zlt_Qlt. lia. }
    assert (Hq : count_Q (nrows m) + count_Q (nrows o) + count_Q (nrows n)
                 == count_Q (nrows df)).
    { unfold count_Q. rewrite <- !inject_Z_plus, <- !Nat2Z.inj_add, Hsum.
      reflexivity. }
    pose proof (round_digits_close
                  (100 * count_Q (nrows m) / count_Q (nrows df)) 4) as R1.
    pose proof (round_digits_close
                  (100 * count_Q (nrows o) / count_Q (nrows df)) 4) as R2.
    pose proof (round_digits_close
                  (100 * count_Q (nrows n) / count_Q (nrows df)) 4) as R3.
    change ((1 # 2) / pow10 4) with (1 # 20000) in R1, R2, R3.
    apply Qabs_Qle_condition in R1, R2, R3.
    assert (Hexact : 100 * count_Q (nrows m) / count_Q (nrows df)
                     + 100 * count_Q (nrows o) / count_Q (nrows df)
                     + 100 * count_Q (nrows n) / count_Q (nrows df)
                     == 100).
    { rewrite <- Hq at 1 2 3. field. rewrite Hq. lra. }
    apply Qabs_Qle_condition.
    set (x1 := 100 * count_Q (nrows m) / count_Q (nrows df)) in *.
    set (x2 := 100 * count_Q (nrows o) / count_Q (nrows df)) in *.
    set (x3 := 100 * count_Q (nrows n) / count_Q (nrows df)) in *.
    set (r1 := round_digits x1 4) in *.
    set (r2 := round_digits x2 4) in *.
    set (r3 := round_digits x3 4) in *.
    clearbody r1 r2 r3 x1 x2 x3.
    split; lra.
Qed.

Lemma report_on_distinct_labels_witness :
  exists printed_lines result,
    get_outliers_information example_handler_iqr example_df false [] true
    = (printed_lines, Ok result)
    /\ (forall c, ~ In (PrintWarning c) printed_lines)
    /\ (forall c e,
          dict_get c result = Some e ->
          (missing_values_count e + outlier_values_count e
           + non_outlier_values_count e = nrows example_df)%nat
          /\ Qabs (missing_values_percentage e + outlier_values_percentage e
                   + non_outlier_values_percentage e - 100)
             <= 3 # 20000).
Proof.
  apply (report_on_distinct_labels example_handler_iqr example_df false []
           true).
  - wf_by_computation.
  - repeat constructor; simpl; intuition lia.
  - discriminate.
Defined.

(** ** The order of the report and its failures *)

Lemma dict_set_new_key {V : Type} (k : string) (v : V) (d : dict V) :
  ~ In k (map fst d) -> map fst (dict_set k v d) = map fst d ++ [k].
Proof.
  induction d as [|[k' v'] d IH]; intros Hk; simpl in *.
  - reflexivity.
  - destruct (String.eqb_spec k k') as [->|Hne].
    + elim Hk. left. reflexivity.
    + simpl. rewrite IH; [reflexivity|]. intros H. apply Hk. right. exact H.
Qed.

Lemma for_columns_keys (self : OutlierHandler) (df : DataFrame)
  (output_dataframes : bool) (columns : list string) :
  wf_df df -> nrows df <> 0%nat ->
  forall (names : list string) (r0 : dict ColumnReport)
         (lines : list printed) (result : dict ColumnReport),
    (forall c, In c names -> In c (column_names df)) ->
    NoDup names ->
    (forall c, In c names -> ~ In c (map fst r0)) ->
    for_columns self df output_dataframes columns names r0
    = (lines, Ok result) ->
    map fst result
    = map fst r0 ++ filter (column_selected df columns) names.
Proof.
  intros Hwf Hrows names.
  induction names as [|c names IH]; intros r0 lines result Hnames Hnd Hnew.
  - cbn [for_columns ret filter]. intros E. injection E as _ <-.
    rewrite app_nil_r. reflexivity.
  - assert (Hc : In c (column_names df)) by (apply Hnames; left; reflexivity).
    apply lookup_column_names in Hc. destruct Hc as [s Hs].
    inversion Hnd as [|? ? Hc' Hnd']; subst.
    cbn [for_columns filter]. unfold getitem. rewrite Hs, obind_lift_ok.
    assert (Hsel : column_selected df columns c = selected s columns c)
      by (unfold column_selected; rewrite Hs; reflexivity).
    rewrite Hsel. destruct (selected s columns c) eqn:Es.
    + destruct (column_selected_numeric df columns c Hsel) as [vs Hvs].
      destruct (column_entry_ok self df output_dataframes Hwf c vs Hrows Hvs)
        as [m [o [n [_ [_ [_ He]]]]]].
      rewrite He. cbn [obind].
      match goal with
      | |- context [for_columns _ _ _ _ _ (dict_set c ?e r0)] =>
          set (r1 := dict_set c e r0)
      end.
      destruct (for_columns self df output_dataframes columns names r1)
        as [out' res'] eqn:Erun.
      intros E. injection E as _ ->.
      assert (Hkeys : map fst r1 = map fst r0 ++ [c]).
      { apply dict_set_new_key, Hnew. left. reflexivity. }
      rewrite (IH r1 out' result); auto.
      * rewrite Hkeys, <- app_assoc. reflexivity.
      * intros c0 Hc0. apply Hnames. right. exact Hc0.
      * intros c0 Hc0. rewrite Hkeys, in_app_iff.
        intros [H|[H|[]]].
        -- apply (Hnew c0); [right; exact Hc0 | exact H].
        -- subst c0. contradiction.
    + intros E. apply (IH r0 lines result); auto.
      * intros c0 Hc0. apply Hnames. right. exact Hc0.
      * intros c0 Hc0. apply Hnew. right. exact Hc0.
Qed.

(** X17.  On a frame of numeric ([float64], [int64]) and string columns
    with at least one row and distinct column names, the call returns and
    the columns of the report are the selected columns of the frame, in
    the order of the frame. *)
Theorem report_in_column_order (self : OutlierHandler) (df : DataFrame)
  (output_dataframes : bool) (columns : list string)
  (log_information : bool) :
  wf_df df ->
  nrows df <> 0%nat ->
  NoDup (column_names df) ->
  exists printed_lines result,
    get_outliers_information self df output_dataframes columns log_information
    = (printed_lines, Ok result)
    /\ map fst result
       = filter (column_selected df columns) (column_names df).
Proof.
  intros Hwf Hrows Hnd.
  destruct (for_columns_run self df output_dataframes Hwf columns Hrows
              (column_names df) [] (fun c H => H))
    as [out [res [Hrun _]]].
  destruct (log_column_information_ok res) as [logged [Hlog _]].
  pose proof (for_columns_keys self df output_dataframes columns Hwf Hrows
                (column_names df) [] out res (fun c H => H) Hnd
                (fun c _ H => H) Hrun) as Hkeys.
  unfold get_outliers_information. rewrite Hrun. cbn [obind].
  destruct log_information.
  - rewrite Hlog. cbn [obind ret]. eexists _, res.
    split; [reflexivity | exact Hkeys].
  - cbn [obind ret]. eexists _, res. split; [reflexivity | exact Hkeys].
Qed.

Lemma report_in_column_order_witness :
  exists printed_lines result,
    get_outliers_information example_handler_iqr repeated_label_df false []
      false
    = (printed_lines, Ok result)
    /\ map fst result
       = filter (column_selected repeated_label_df [])
           (column_names repeated_label_df).
Proof.
  apply (report_in_column_order example_handler_iqr repeated_label_df false
           [] false).
  - wf_by_computation.
  - discriminate.
  - repeat constructor; simpl; intros H;
      repeat (destruct H as [H|H]; try discriminate); assumption.
Defined.

(** X18.  On a frame of numeric ([float64], [int64]) and string columns
    with distinct column names, whatever the columns hold,
    [get_outliers_information] never raises [KeyError], [TypeError] or
    [AttributeError]: it returns a report when the frame has a row or no
    column is selected, and otherwise raises [ZeroDivisionError], having
    printed nothing. *)
Theorem report_raises_only_zero_division (self : OutlierHandler)
  (df : DataFrame) (output_dataframes : bool) (columns : list string)
  (log_information : bool) :
  wf_df df ->
  NoDup (column_names df) ->
  (nrows df <> 0%nat
   \/ existsb (column_selected df columns) (column_names df) = false ->
   exists printed_lines result,
     get_outliers_information self df output_dataframes columns
       log_information
     = (printed_lines, Ok result))
  /\ (nrows df = 0%nat ->
      existsb (column_selected df columns) (column_names df) = true ->
      get_outliers_information self df output_dataframes columns
        log_information
      = ([], Raise ZeroDivisionError))
  /\ (forall printed_lines e,
        get_outliers_information self df output_dataframes columns
          log_information
        = (printed_lines, Raise e) ->
        e = ZeroDivisionError /\ nrows df = 0%nat /\ printed_lines = []).
Proof.
  intros Hwf _.
  assert (Hzero : nrows df = 0%nat ->
            get_outliers_information self df output_dataframes columns
              log_information
            = if existsb (column_selected df columns) (column_names df)
              then ([], Raise ZeroDivisionError) else ([], Ok [])).
  { intros Hz. unfold get_outliers_information.
    rewrite (for_columns_zero_rows self df output_dataframes Hwf columns
               Hz (column_names df) [] (fun c H => H)).
    destruct (existsb (column_selected df columns) (column_names df)).
    - reflexivity.
    - destruct log_information; reflexivity. }
  assert (Hrun : nrows df <> 0%nat ->
            exists printed_lines result,
              get_outliers_information self df output_dataframes columns
                log_information
              = (printed_lines, Ok result)).
  { intros Hnz.
    destruct (get_outliers_information_run self df output_dataframes Hwf
                columns log_information Hnz)
      as [lines [result [Hr _]]]. eauto. }
  split; [|split].
  - intros [Hnz|Hnone]; [apply Hrun, Hnz|].
    destruct (Nat.eq_dec (nrows df) 0) as [Hz|Hnz]; [|apply Hrun, Hnz].
    rewrite (Hzero Hz), Hnone. eauto.
  - intros Hz Hsome. rewrite (Hzero Hz), Hsome. reflexivity.
  - intros lines e E.
    destruct (Nat.eq_dec (nrows df) 0) as [Hz|Hnz].
    + rewrite (Hzero Hz) in E.
      destruct (existsb (column_selected df columns) (column_names df));
        [|discriminate].
      injection E as <- <-. auto.
    + destruct (Hrun Hnz) as [lines' [result E']]. congruence.
Qed.

Lemma report_raises_only_zero_division_witness :
  (exists printed_lines result,
     get_outliers_information default_handler example_df true [] true
     = (printed_lines, Ok result))
  /\ get_outliers_information default_handler empty_df true [] true
     = ([], Raise ZeroDivisionError).
Proof.
  assert (Hnames : NoDup ["a"%string; "name"%string]).
  { repeat constructor; simpl; intros H;
      repeat (destruct H as [H|H]; try discriminate); assumption. }
  destruct (report_raises_only_zero_division default_handler example_df
              true [] true) as [Hok _]; [wf_by_computation | exact Hnames |].
  destruct (report_raises_only_zero_division default_handler empty_df
              true [] true) as [_ [Hzero _]];
    [wf_by_computation | exact Hnames |].
  split.
  - apply Hok. left. discriminate.
  - apply Hzero; reflexivity.
Defined.

(* ================================================================== *)
(** * The two rules in binary64 arithmetic *)

(** ** Frames of floats *)

Lemma binary64_lookup_select (mask : list bool) (c : string)
  (cols : list (string * list float)) :
  Binary64.lookup_column c
    (map (fun x => (fst x, mask_select mask (snd x))) cols)
  = option_map (mask_select mask) (Binary64.lookup_column c cols).
Proof.
  induction cols as [|[n s] cols IH]; simpl; auto.
  destruct (String.eqb c n); auto.
Qed.

Lemma binary64_rows_boolean_index (df : Binary64.DataFrame)
  (mask : list bool) (c : string) :
  Binary64.rows (Binary64.boolean_index df mask) c
  = mask_select mask (Binary64.rows df c).
Proof.
  unfold Binary64.rows, Binary64.boolean_index; simpl.
  rewrite binary64_lookup_select.
  destruct (Binary64.lookup_column c (Binary64.df_columns df)) as [vs|];
    simpl.
  - apply mask_select_combine.
  - destruct mask; reflexivity.
Qed.

(** The ranked values are the values of the column. *)
Lemma binary64_sort_values_perm (l : list float) :
  Permutation (Binary64.sort_values l) l.
Proof.
  assert (Hins : forall x s, Permutation (Binary64.insert_sorted x s) (x :: s)).
  { intros x s. induction s as [|y s IH]; simpl; auto.
    destruct (PrimFloat.leb x y); auto.
    etransitivity; [apply perm_skip, IH | apply perm_swap]. }
  induction l as [|x l IH]; simpl; auto.
  etransitivity; [apply Hins | apply perm_skip, IH].
Qed.

Lemma binary64_present_idempotent (vs : list float) :
  Binary64.present (Binary64.present vs) = Binary64.present vs.
Proof.
  unfold Binary64.present. induction vs as [|v vs IH]; simpl; auto.
  destruct (negb (is_nan v)) eqn:E; simpl; rewrite ?E, IH; reflexivity.
Qed.

(** Missing values do not count in a quantile. *)
Lemma binary64_quantile_non_missing (vs : list float) (q : float) :
  Binary64.quantile (Binary64.present vs) q = Binary64.quantile vs q.
Proof.
  unfold Binary64.quantile. rewrite binary64_present_idempotent.
  reflexivity.
Qed.

(** The frame [get_non_missing] returns: the column holds the values that
    are not NaN, and the rows are the rows whose value is not NaN. *)
Lemma binary64_get_non_missing (df : Binary64.DataFrame) (c : string)
  (vs : list float) :
  Binary64.lookup_column c (Binary64.df_columns df) = Some vs ->
  exists non_na,
    Binary64.get_non_missing df c = Ok non_na
    /\ Binary64.lookup_column c (Binary64.df_columns non_na)
       = Some (Binary64.present vs)
    /\ Binary64.rows non_na c
       = filter (fun r => negb (is_nan (snd r))) (Binary64.rows df c).
Proof.
  intros H.
  exists (Binary64.boolean_index df (map negb (Binary64.isna vs))).
  split; [unfold Binary64.get_non_missing; rewrite H; reflexivity|].
  unfold Binary64.isna. rewrite map_map. split.
  - unfold Binary64.boolean_index; simpl.
    rewrite binary64_lookup_select, H. simpl.
    rewrite mask_select_map_filter. reflexivity.
  - rewrite binary64_rows_boolean_index. unfold Binary64.rows. rewrite H.
    apply (mask_select_map_combine (fun x => negb (is_nan x))).
Qed.

(** The rows a rule selects among the non missing rows, when its mask
    tests each value by [h]. *)
Lemma binary64_rows_of_selection (df non_na : Binary64.DataFrame)
  (c : string) (vs : list float) (h : float -> bool) (l : Z) (v : float) :
  Binary64.lookup_column c (Binary64.df_columns non_na)
  = Some (Binary64.present vs) ->
  Binary64.rows non_na c
  = filter (fun r => negb (is_nan (snd r))) (Binary64.rows df c) ->
  In (l, v)
     (Binary64.rows
        (Binary64.boolean_index non_na (map h (Binary64.present vs))) c)
  <-> In (l, v) (Binary64.rows df c) /\ is_nan v = false /\ h v = true.
Proof.
  intros Hl Hrows. rewrite binary64_rows_boolean_index.
  assert (E : Binary64.rows non_na c
              = combine (Binary64.df_index non_na) (Binary64.present vs)).
  { unfold Binary64.rows. rewrite Hl. reflexivity. }
  rewrite E, mask_select_map_combine, <- E, Hrows.
  rewrite !filter_In. cbn [snd]. rewrite negb_true_iff. tauto.
Qed.

(** ** The ranked values *)

Ltac compare_cases :=
  repeat match goal with
    | H : context [Pos.compare_cont Eq ?x ?y] |- _ =>
        change (Pos.compare_cont Eq x y) with (Pos.compare x y) in H
    | |- context [Pos.compare_cont Eq ?x ?y] =>
        change (Pos.compare_cont Eq x y) with (Pos.compare x y)
    end;
  repeat match goal with
    | H : context [Z.compare ?x ?y] |- _ =>
        destruct (Z.compare_spec x y); cbn [CompOpp] in *;
        try discriminate
    | H : context [Pos.compare ?x ?y] |- _ =>
        destruct (Pos.compare_spec x y); cbn [CompOpp] in *;
        try discriminate
    | |- context [Z.compare ?x ?y] =>
        destruct (Z.compare_spec x y); cbn [CompOpp] in *;
        try discriminate
    | |- context [Pos.compare ?x ?y] =>
        destruct (Pos.compare_spec x y); cbn [CompOpp] in *;
        try discriminate
    end;
  try reflexivity; try lia.

Lemma SFleb_total (a b : spec_float) :
  SFleb a a = true -> SFleb b b = true -> SFleb a b = false ->
  SFleb b a = true.
Proof.
  unfold SFleb, SFcompare.
  destruct a as [sa|sa| |sa ma ea], b as [sb|sb| |sb mb eb];
    try discriminate; try reflexivity;
    repeat match goal with s : bool |- _ => destruct s end;
    try discriminate; try reflexivity;
    intros Ha Hb Hab; compare_cases.
Qed.

Lemma SFleb_trans (a b c : spec_float) :
  SFleb a b = true -> SFleb b c = true -> SFleb a c = true.
Proof.
  unfold SFleb, SFcompare.
  destruct a as [sa|sa| |sa ma ea], b as [sb|sb| |sb mb eb],
    c as [sc|sc| |sc mc ec];
    try discriminate; try reflexivity;
    repeat match goal with s : bool |- _ => destruct s end;
    try discriminate; try reflexivity;
    intros Hab Hbc; compare_cases.
Qed.

Lemma binary64_leb_total (x y : float) :
  is_nan x = false -> is_nan y = false ->
  (x <=? y)%float = false -> (y <=? x)%float = true.
Proof.
  assert (Hrefl : forall z, is_nan z = false ->
                            SFleb (Prim2SF z) (Prim2SF z) = true).
  { intros z Hz. unfold is_nan in Hz. apply negb_false_iff in Hz.
    rewrite FloatAxioms.eqb_spec in Hz. unfold SFeqb in Hz. unfold SFleb.
    destruct (SFcompare (Prim2SF z) (Prim2SF z)) as [[| |]|];
      try discriminate; reflexivity. }
  intros Hx Hy. rewrite !FloatAxioms.leb_spec.
  apply SFleb_total; auto.
Qed.

Lemma binary64_leb_trans (x y z : float) :
  (x <=? y)%float = true -> (y <=? z)%float = true -> (x <=? z)%float = true.
Proof. rewrite !FloatAxioms.leb_spec. apply SFleb_trans. Qed.

(** The values that are not missing, ranked: in ascending order. *)
Lemma binary64_sort_values_sorted (l : list float) :
  Forall (fun x => is_nan x = false) l ->
  StronglySorted (fun x y => (x <=? y)%float = true) (Binary64.sort_values l).
Proof.
  assert (Hins : forall x s,
             is_nan x = false -> Forall (fun y => is_nan y = false) s ->
             StronglySorted (fun x y => (x <=? y)%float = true) s ->
             StronglySorted (fun x y => (x <=? y)%float = true)
               (Binary64.insert_sorted x s)).
  { intros x s Hx. induction s as [|y s IH]; intros Hs Hsorted; simpl.
    - constructor; constructor.
    - inversion Hs as [|? ? Hy Hs']; subst.
      inversion Hsorted as [|? ? Hsorted' Hall]; subst.
      destruct (x <=? y)%float eqn:E.
      + constructor; [exact Hsorted|]. constructor; [exact E|].
        rewrite Forall_forall in *. intros z Hz.
        apply (binary64_leb_trans x y z); auto.
      + constructor; [apply IH; assumption|].
        rewrite Forall_forall in *. intros z Hz.
        assert (Hz' : In z (x :: s)).
        { revert Hz. clear. induction s as [|w s IH]; simpl; [tauto|].
          destruct (x <=? w)%float; simpl; [tauto|].
          intros [H|H]; [tauto|]. destruct (IH H); tauto. }
        destruct Hz' as [<-|Hz'].
        * apply binary64_leb_total; assumption.
        * apply Hall, Hz'. }
  induction 1 as [|x l Hx Hl IH]; simpl.
  - constructor.
  - apply Hins; auto.
    rewrite Forall_forall in *. intros y Hy. apply Hl.
    apply (Permutation_in _ (binary64_sort_values_perm l)), Hy.
Qed.

Lemma binary64_present_not_missing (vs : list float) :
  Forall (fun x => is_nan x = false) (Binary64.present vs).
Proof.
  apply Forall_forall. intros x Hx. unfold Binary64.present in Hx.
  apply filter_In in Hx. destruct Hx as [_ Hx].
  apply negb_true_iff, Hx.
Qed.

(** ** The interquartile rule *)

(** C2, amended.  Under the INTERQUARTILE method, with [Q1] and [Q3] the
    quartiles of the column (pandas' [quantile] at 0.25 and 0.75, by
    linear interpolation between the ranked values that are not missing)
    and [IQR = Q3 - Q1], [get_outliers] returns, and a row is in its
    result if and only if it is a row of the frame whose value [v] is not
    missing and satisfies [v < Q1 - 1.5 * IQR] or [v > Q3 + 1.5 * IQR],
    where every subtraction, product, sum and comparison is the binary64
    operation: the two fences are floats, each operation rounded to the
    nearest.  The factor 1.5 is a constant of the method. *)
Theorem interquartile_rule (df : Binary64.DataFrame) (column : string)
  (vs : list float) :
  Binary64.lookup_column column (Binary64.df_columns df) = Some vs ->
  let Q1 := Binary64.quantile vs 0.25 in
  let Q3 := Binary64.quantile vs 0.75 in
  let IQR := (Q3 - Q1)%float in
  exists outliers,
    Binary64.get_outliers (mkOutlierHandler INTERQUARTILE) df column
    = Ok outliers
    /\ forall (l : Z) (v : float),
         In (l, v) (Binary64.rows outliers column) <->
         In (l, v) (Binary64.rows df column)
         /\ is_nan v = false
         /\ ((v <? Q1 - 1.5 * IQR)%float = true
             \/ (Q3 + 1.5 * IQR <? v)%float = true).
Proof.
  intros H Q1 Q3 IQR.
  destruct (binary64_get_non_missing df column vs H)
    as [non_na [Hnn [Hl Hrows]]].
  set (h := fun v : float =>
              (v <? Q1 - 1.5 * IQR)%float || (Q3 + 1.5 * IQR <? v)%float).
  exists (Binary64.boolean_index non_na (map h (Binary64.present vs))).
  split.
  - unfold Binary64.get_outliers. rewrite Hnn.
    cbn [bind calculation_method Binary64.outlier_calculation_methods].
    unfold Binary64.calculate_outliers_interquartile, Binary64.getitem.
    rewrite Hl. cbn [bind].
    rewrite !binary64_quantile_non_missing, mask_or_map. reflexivity.
  - intros l v.
    rewrite (binary64_rows_of_selection df non_na column vs h l v Hl Hrows).
    unfold h. rewrite orb_true_iff. reflexivity.
Qed.

(** The theorem on the column [100, 3, 1, 5, NaN, 2, 4], whose quartiles
    2.25 and 4.75 are interpolated between ranks. *)
Lemma interquartile_rule_witness :
  Binary64.quantile six_column64 0.25 = 2.25%float
  /\ Binary64.quantile six_column64 0.75 = 4.75%float
  /\ exists outliers,
       Binary64.get_outliers (mkOutlierHandler INTERQUARTILE) six_df64 "a"
       = Ok outliers
       /\ forall (l : Z) (v : float),
            In (l, v) (Binary64.rows outliers "a") <->
            In (l, v) (Binary64.rows six_df64 "a")
            /\ is_nan v = false
            /\ ((v <? 2.25 - 1.5 * (4.75 - 2.25))%float = true
                \/ (4.75 + 1.5 * (4.75 - 2.25) <? v)%float = true).
Proof.
  split; [vm_compute; reflexivity|]. split; [vm_compute; reflexivity|].
  exact (interquartile_rule six_df64 "a" six_column64 eq_refl).
Defined.

(** On the column [10, 12, 11, 13, NaN, 200] of the specification the
    quartiles are 11 and 13, and the rule returns the row of 200; on
    [100, 3, 1, 5, NaN, 2, 4] it returns the row of 100. *)
Example interquartile_of_example :
  Binary64.quantile example_column64 0.25 = 11%float
  /\ Binary64.quantile example_column64 0.75 = 13%float
  /\ Binary64.get_outliers (mkOutlierHandler INTERQUARTILE) example_df64 "a"
     = Ok (Binary64.mkDataFrame [5%Z] [("a"%string, [200%float])])
  /\ Binary64.get_outliers (mkOutlierHandler INTERQUARTILE) six_df64 "a"
     = Ok (Binary64.mkDataFrame [0%Z] [("a"%string, [100%float])]).
Proof. repeat split; vm_compute; reflexivity. Qed.

(** C2, counterexample.  On the column [2.6, 5.0, 5.8, 6.6, 9.0] the
    quartiles fall on ranks: they are the floats 5.0 and 6.6.  With the
    numbers these floats are, [Q3 + 1.5 * (Q3 - Q1)] is less than 9 and
    [Q1 - 1.5 * (Q3 - Q1)] more than the first value, so that, read over
    the real numbers, the inequalities of the claim hold of the last value
    as of the first.  The code returns the first row only: the float
    [Q3 + 1.5 * IQR] is 9.0, and [9.0 > 9.0] is [False]. *)
Lemma interquartile_fences_are_rounded :
  exists (Q1 Q3 x0 x4 : Q),
    option_map Qred (Binary64.exact (Binary64.quantile fences_column64 0.25))
    = Some Q1
    /\ option_map Qred
         (Binary64.exact (Binary64.quantile fences_column64 0.75))
       = Some Q3
    /\ option_map Qred (Binary64.exact (nth 0 fences_column64 nan)) = Some x0
    /\ option_map Qred (Binary64.exact (nth 4 fences_column64 nan)) = Some x4
    /\ (x0 < Q1 - (3 # 2) * (Q3 - Q1))%Q
    /\ (x4 > Q3 + (3 # 2) * (Q3 - Q1))%Q
    /\ Binary64.get_outliers (mkOutlierHandler INTERQUARTILE) fences_df64 "a"
       = Ok (Binary64.mkDataFrame [0%Z]
               [("a"%string, [nth 0 fences_column64 nan])])
    /\ ~ In (4%Z, nth 4 fences_column64 nan)
            (Binary64.rows
               (Binary64.mkDataFrame [0%Z]
                  [("a"%string, [nth 0 fences_column64 nan])]) "a").
Proof.
  do 4 eexists.
  repeat split; try (vm_compute; reflexivity).
  simpl. intros [H|[]]. discriminate.
Qed.

(** ** The z-score rule *)

Lemma binary64_zscore_mask (xs : list float) :
  let m := Binary64.mean xs in
  let s := Binary64.std xs in
  map (fun x => (3 <? x)%float) (map abs (Binary64.zscore xs))
  = map (fun v => negb (s <=? abs (Binary64.eps * m))%float
                  && (3 <? abs ((v - m) / s))%float) xs.
Proof.
  intros m s. unfold Binary64.zscore. fold m s.
  destruct xs as [|x0 xs']; [reflexivity|].
  set (xs := x0 :: xs') in *.
  destruct (s <=? abs (Binary64.eps * m))%float; rewrite !map_map;
    apply map_ext; intros v; reflexivity.
Qed.

(** C3, amended.  Under the ZSCORE method, with [m] the mean of the values
    of the column that are not missing and [s] their standard deviation
    with the divisor [n] (the square root of the mean squared deviation
    from [m], which is what [scipy.stats.zscore] divides by), both as
    scipy computes them in binary64, [get_outliers] returns, and a row is
    in its result if and only if it is a row of the frame whose value [v]
    is not missing, [s] is more than [eps * |m|] (scipy's test of a non
    constant column), and the float [|(v - m) / s|] is more than 3.  The
    threshold 3 is a constant of the method. *)
Theorem zscore_rule (df : Binary64.DataFrame) (column : string)
  (vs : list float) :
  Binary64.lookup_column column (Binary64.df_columns df) = Some vs ->
  let m := Binary64.mean (Binary64.present vs) in
  let s := Binary64.std (Binary64.present vs) in
  exists outliers,
    Binary64.get_outliers (mkOutlierHandler ZSCORE) df column = Ok outliers
    /\ forall (l : Z) (v : float),
         In (l, v) (Binary64.rows outliers column) <->
         In (l, v) (Binary64.rows df column)
         /\ is_nan v = false
         /\ (s <=? abs (Binary64.eps * m))%float = false
         /\ (3 <? abs ((v - m) / s))%float = true.
Proof.
  intros H m s.
  destruct (binary64_get_non_missing df column vs H)
    as [non_na [Hnn [Hl Hrows]]].
  set (h := fun v : float =>
              negb (s <=? abs (Binary64.eps * m))%float
              && (3 <? abs ((v - m) / s))%float).
  exists (Binary64.boolean_index non_na (map h (Binary64.present vs))).
  split.
  - unfold Binary64.get_outliers. rewrite Hnn.
    cbn [bind calculation_method Binary64.outlier_calculation_methods].
    unfold Binary64.calculate_outliers_zscore, Binary64.getitem.
    rewrite Hl. cbn [bind].
    rewrite (binary64_zscore_mask (Binary64.present vs)). reflexivity.
  - intros l v.
    rewrite (binary64_rows_of_selection df non_na column vs h l v Hl Hrows).
    unfold h. rewrite andb_true_iff, negb_true_iff. reflexivity.
Qed.

(** The theorem on nine zeros, 1 and 10: the mean is 1, the deviation
    [2.8603877677367771], and the z-score of 10 is more than 3. *)
Lemma zscore_rule_witness :
  Binary64.mean eleven_column64 = 1%float
  /\ Binary64.std eleven_column64 = 0x1.6e212fb627695p+1%float
  /\ exists outliers,
       Binary64.get_outliers (mkOutlierHandler ZSCORE) eleven_df64 "a"
       = Ok outliers
       /\ forall (l : Z) (v : float),
            In (l, v) (Binary64.rows outliers "a") <->
            In (l, v) (Binary64.rows eleven_df64 "a")
            /\ is_nan v = false
            /\ (0x1.6e212fb627695p+1 <=? abs (Binary64.eps * 1))%float = false
            /\ (3 <? abs ((v - 1) / 0x1.6e212fb627695p+1))%float = true.
Proof.
  split; [vm_compute; reflexivity|]. split; [vm_compute; reflexivity|].
  exact (zscore_rule eleven_df64 "a" eleven_column64 eq_refl).
Defined.

(** On nine zeros, 1 and 10 the rule returns the row of 10; on sixteen
    zeros, 31 and -31 it returns the rows of 31 and -31. *)
Example zscore_of_examples :
  Binary64.get_outliers default_handler eleven_df64 "a"
  = Ok (Binary64.mkDataFrame [10%Z] [("a"%string, [10%float])])
  /\ Binary64.get_outliers default_handler three_sigma_df64 "a"
     = Ok (Binary64.mkDataFrame [16%Z; 17%Z]
             [("a"%string, [31%float; (-31)%float])]).
Proof. split; vm_compute; reflexivity. Qed.

(** C3, counterexample.  Two columns on which the rule is not the
    inequality [|v - m| > 3 * s] of the claim.

    Nine zeros, 1 and 10: the mean is 1 and the deviation of the sample,
    with the divisor [n - 1], is 3, so that 10 lies at exactly three
    deviations from the mean; the code returns its row, because scipy
    divides by the deviation with the divisor [n].

    Sixteen zeros, 31 and -31: the mean is 0 and the deviation with the
    divisor [n] is 31 / 3, so that 31 and -31 lie at exactly three
    deviations from the mean; the code returns their rows, because the
    floats [|(v - m) / s|] are [3.0000000000000004]. *)
Lemma zscore_rule_fails_as_stated :
  (let xs := map inject_Z [0; 0; 0; 0; 0; 0; 0; 0; 0; 1; 10]%Z in
   map (fun x => option_map Qred (Binary64.exact x)) eleven_column64
   = map Some xs
   /\ mean xs == 1
   /\ sum_values (map (fun x => (x - mean xs) * (x - mean xs)) xs)
      / (inject_Z (Z.of_nat (length xs)) - 1) == 3 * 3
   /\ Qabs (10 - mean xs) == 3 * 3
   /\ Binary64.get_outliers default_handler eleven_df64 "a"
      = Ok (Binary64.mkDataFrame [10%Z] [("a"%string, [10%float])]))
  /\ (let xs :=
        map inject_Z
          [0; 0; 0; 0; 0; 0; 0; 0; 0; 0; 0; 0; 0; 0; 0; 0; 31; -31]%Z in
      map (fun x => option_map Qred (Binary64.exact x)) three_sigma_column64
      = map Some xs
      /\ mean xs == 0
      /\ variance xs == (31 # 3) * (31 # 3)
      /\ Qabs (31 - mean xs) == 3 * (31 # 3)
      /\ Qabs (- 31 - mean xs) == 3 * (31 # 3)
      /\ map abs (Binary64.zscore three_sigma_column64)
         = [0; 0; 0; 0; 0; 0; 0; 0; 0; 0; 0; 0; 0; 0; 0; 0;
            0x1.8000000000001p+1; 0x1.8000000000001p+1]%float
      /\ Binary64.get_outliers default_handler three_sigma_df64 "a"
         = Ok (Binary64.mkDataFrame [16%Z; 17%Z]
                 [("a"%string, [31%float; (-31)%float])])).
Proof.
  split; cbv zeta; repeat split; vm_compute; reflexivity.
Qed.

(** ** Rounding and overflow in the two rules *)

(** In binary64 ten values suffice for an outlier: on nine zeros and 7 the
    mean is the float 0.7, the deviation is [2.0999999999999996], and the
    z-score of 7 is [3.0000000000000004]. *)
Example zscore_of_ten_values :
  Binary64.std [0; 0; 0; 0; 0; 0; 0; 0; 0; 7]%float
  = 0x1.0ccccccccccccp+1%float
  /\ Binary64.get_outliers default_handler
       (Binary64.mkDataFrame [0; 1; 2; 3; 4; 5; 6; 7; 8; 9]%Z
          [("a"%string, [0; 0; 0; 0; 0; 0; 0; 0; 0; 7]%float)]) "a"
     = Ok (Binary64.mkDataFrame [9%Z] [("a"%string, [7%float])]).
Proof. split; vm_compute; reflexivity. Qed.

(** When the difference of two ranked values overflows, the interpolation
    yields infinite quartiles, the first above the third, and every row is
    returned. *)
Example interquartile_overflow :
  let low := (-0x1.e42d130773b76p+1023)%float in
  let high := 0x1.e42d130773b76p+1023%float in
  Binary64.quantile [low; high] 0.25 = infinity
  /\ Binary64.quantile [low; high] 0.75 = neg_infinity
  /\ Binary64.get_outliers (mkOutlierHandler INTERQUARTILE)
       (Binary64.mkDataFrame [0; 1]%Z [("a"%string, [low; high])]) "a"
     = Ok (Binary64.mkDataFrame [0; 1]%Z [("a"%string, [low; high])]).
Proof. repeat split; vm_compute; reflexivity. Qed.
